(** * Marketplace protocol layer of automythic-ai: a shallow embedding

    The shop page component ([fetchItemDetails], [checkPurchaseHistory],
    [handlePurchase]), the operator scripts ([purchaseItem] of
    [scripts/purchase-item.js]; [addItemWithMetadata]; [initializeShop],
    [addItem], [getItem] and [getItemDetails] of the shop client and
    delete-item scripts) and the network banner ([checkNetwork] of
    [components/NetworkAlert.tsx]) are embedded as Rocq functions.

    - JavaScript numbers are IEEE 754 binary64 values ([spec_float] with
      precision 53 and maximal exponent 1024); BigInt values are [Z].
    - A Node [Buffer] is a list of bytes; reads past the end raise
      [RangeError], [slice] clamps.
    - Asynchronous code that talks to the RPC node, the wallet or the React
      state runs in a small monad that threads the list of observable actions
      performed so far and may raise a JavaScript exception. *)

From Stdlib Require Import ZArith List Lia Bool String.
From Stdlib Require Import Strings.Byte.
From Stdlib Require Import Floats.SpecFloat.
Import ListNotations.

Local Open Scope Z_scope.

(** ** JavaScript exceptions *)

Inductive exn : Type :=
| RangeError                    (* Buffer access out of range, BigInt of a non-integer *)
| InvalidPublicKey              (* "Invalid public key input" *)
| AddressDerivationExhausted    (* no viable bump *)
| ShopNotInitialized            (* "Shop not initialized" *)
| ItemNotFound                  (* "Item #<id> not found!" *)
| InsufficientFunds (need have : spec_float)
| WalletCannotSign              (* "Wallet does not support signing transactions" *)
| External (msg : string).      (* rejection raised by the node, the wallet or a library *)

Definition result (A : Type) : Type := (exn + A)%type.

Definition ok {A} (a : A) : result A := inr a.
Definition throw {A} (e : exn) : result A := inl e.

Definition rbind {A B} (r : result A) (k : A -> result B) : result B :=
  match r with
  | inl e => inl e
  | inr a => k a
  end.

Declare Scope result_scope.
Delimit Scope result_scope with result.
Notation "'let?' x ':=' r 'in' k" := (rbind r (fun x => k))
  (at level 10, x name, r at level 100, k at level 200) : result_scope.

(** ** Numbers *)

Module JS.

(** A JavaScript [number]. *)
Definition number : Type := spec_float.

Definition prec : Z := 53.
Definition emax : Z := 1024.

(** [Number(z)] for a BigInt [z]: round to nearest, ties to even. *)
Definition Number (z : Z) : number := binary_normalize prec emax z 0 false.

(** [x < y] on numbers. *)
Definition lt (x y : number) : bool := SFltb x y.

(** [x / y] on numbers. *)
Definition div (x y : number) : number := SFdiv prec emax x y.

(** [BigInt(x)] for a number [x]: the integer [x] denotes, [RangeError]
    when [x] is not an integer. *)
Definition BigInt (x : number) : result Z :=
  match x with
  | S754_zero _ => ok 0
  | S754_finite s m e =>
      let sign := if s then (-1) else 1 in
      if 0 <=? e then ok (sign * (Zpos m * 2 ^ e))
      else if Zpos m mod 2 ^ (- e) =? 0 then ok (sign * (Zpos m / 2 ^ (- e)))
      else throw RangeError
  | _ => throw RangeError
  end.

(** Truthiness of a number: [!x] holds for [0], [-0] and [NaN]. *)
Definition truthy (x : number) : bool :=
  match x with
  | S754_zero _ | S754_nan => false
  | _ => true
  end.

End JS.

(** ** Buffers *)

Definition Buffer : Type := list byte.

Definition Z_of_byte (b : byte) : Z := Z.of_N (Byte.to_N b).

Definition byte_of_Z (z : Z) : byte :=
  match Byte.of_N (Z.to_N (z mod 256)) with
  | Some b => b
  | None => x00
  end.

(** Little-endian bytes of an integer, [n] of them. *)
Fixpoint le_bytes (n : nat) (z : Z) : Buffer :=
  match n with
  | O => []
  | S k => byte_of_Z z :: le_bytes k (z / 256)
  end.

(** Value of a little-endian byte string. *)
Fixpoint le_value (bs : Buffer) : Z :=
  match bs with
  | [] => 0
  | b :: rest => Z_of_byte b + 256 * le_value rest
  end.

(** Value of a big-endian byte string. *)
Definition be_value (bs : Buffer) : Z :=
  fold_left (fun acc b => acc * 256 + Z_of_byte b) bs 0.

Module Buf.

(** [Buffer.alloc(n)] followed by a write at offset 0 is modelled by the
    writer itself; [Buffer.from(array)] is the list; [Buffer.concat] is
    [List.concat]. *)

(** [buf.slice(start, stop)]: both ends are clamped to the buffer. *)
Definition slice (data : Buffer) (start stop : nat) : Buffer :=
  firstn (stop - start) (skipn start data).

(** The [n] bytes at [offset], or [RangeError] when they do not lie inside
    the buffer. *)
Definition bytes_at (data : Buffer) (offset n : nat) : result Buffer :=
  if (offset + n <=? List.length data)%nat then ok (slice data offset (offset + n))
  else throw RangeError.

Definition readUInt32LE (data : Buffer) (offset : nat) : result Z :=
  (let? bs := bytes_at data offset 4 in ok (le_value bs))%result.

Definition readBigUInt64LE (data : Buffer) (offset : nat) : result Z :=
  (let? bs := bytes_at data offset 8 in ok (le_value bs))%result.

Definition readBigInt64LE (data : Buffer) (offset : nat) : result Z :=
  (let? bs := bytes_at data offset 8 in
   let v := le_value bs in
   ok (if v <? 2 ^ 63 then v else v - 2 ^ 64))%result.

(** [Buffer.alloc(8)] then [writeBigUInt64LE(v)]. *)
Definition writeBigUInt64LE (v : Z) : result Buffer :=
  if (0 <=? v) && (v <? 2 ^ 64) then ok (le_bytes 8 v) else throw RangeError.

(** [Buffer.alloc(4)] then [writeUInt32LE(v)]. *)
Definition writeUInt32LE (v : Z) : result Buffer :=
  if (0 <=? v) && (v <? 2 ^ 32) then ok (le_bytes 4 v) else throw RangeError.

End Buf.

(** ** Public keys

    A web3.js [PublicKey] holds a big number [_bn] built from big-endian
    bytes; the constructor rejects values of more than 32 bytes, [equals]
    compares the numbers and [toBuffer] pads to 32 bytes. *)

Record PublicKey : Type := { bn : Z }.

Definition new_PublicKey (b : Buffer) : result PublicKey :=
  let v := be_value b in
  if v <? 2 ^ 256 then ok {| bn := v |} else throw InvalidPublicKey.

Definition equals (k1 k2 : PublicKey) : bool := bn k1 =? bn k2.

Definition toBuffer (k : PublicKey) : Buffer := rev (le_bytes 32 (bn k)).

(** [SystemProgram.programId], the all-zero key. *)
Definition SystemProgram_programId : PublicKey := {| bn := 0 |}.

(** ** Instructions and transactions *)

Record AccountMeta : Type :=
  { pubkey : PublicKey; isSigner : bool; isWritable : bool }.

Inductive Instruction : Type :=
| SetComputeUnitLimit (units : Z)
    (* ComputeBudgetProgram.setComputeUnitLimit({ units }) *)
| TransactionInstruction (keys : list AccountMeta) (programId : PublicKey) (data : Buffer).

Record Transaction : Type :=
  { instructions : list Instruction;
    recentBlockhash : option string;
    feePayer : option PublicKey }.

(** [new Transaction()] *)
Definition new_Transaction : Transaction :=
  {| instructions := []; recentBlockhash := None; feePayer := None |}.

(** [transaction.add(ix)] *)
Definition add (tx : Transaction) (ix : Instruction) : Transaction :=
  {| instructions := instructions tx ++ [ix];
     recentBlockhash := recentBlockhash tx;
     feePayer := feePayer tx |}.

(** ** Records shown by the shop page *)

Record PurchaseRecord : Type :=
  { item_id : JS.number; timestamp : JS.number }.

(** The fields of a [ShopItem] that come from the account data. *)
Record ItemFields : Type :=
  { id : JS.number; price : JS.number; metadataUri : string }.

(** ** Library functions the sources call

    Hashing, the curve test, base58 and UTF-8 conversions and the Anchor
    coder (driven by the IDL file) belong to libraries; the embedding takes
    them as a record of functions. *)

Record Runtime : Type :=
  { sha256 : Buffer -> Buffer;
    isOnCurve : Buffer -> bool;
    PublicKey_of_base58 : string -> result PublicKey;
      (* new PublicKey(str) *)
    Buffer_from_string : string -> Buffer;
      (* Buffer.from(str), UTF-8 *)
    toString_utf8 : Buffer -> string;
      (* buf.toString('utf8') *)
    coder_decode_Item : Buffer -> result (Z * Z * string);
      (* new BorshAccountsCoder(idl).decode('Item', data): id, price, metadataUri *)
    coder_instruction_encode : string -> Buffer
      (* program.coder.instruction.encode(name, {}) *) }.

(** ** Address derivation *)

Section Derivation.

Variable rt : Runtime.

Definition domain_separator : Buffer := list_byte_of_string "ProgramDerivedAddress".

(** Modelled from the spec: [PublicKey.findProgramAddressSync] belongs to
    web3.js and is not among the sources.  Section 4.1: for a bump,
    concatenate seeds, bump, program identifier and domain separator, hash,
    and accept the candidate when it lies off the signer-key curve. *)
Definition candidate (seeds : list Buffer) (programId : PublicKey) (bump : nat) : Buffer :=
  sha256 rt (List.concat seeds ++ [byte_of_Z (Z.of_nat bump)]
             ++ toBuffer programId ++ domain_separator).

(** Modelled from the spec: the bump search of section 4.1, trying the
    bumps [n-1], [n-2], ..., [0] in that order. *)
Fixpoint search_bump (n : nat) (seeds : list Buffer) (programId : PublicKey)
  : option (PublicKey * nat) :=
  match n with
  | O => None
  | S bump =>
      let h := candidate seeds programId bump in
      if isOnCurve rt h then search_bump bump seeds programId
      else Some ({| bn := be_value h |}, bump)
  end.

(** Modelled from the spec: [deriveAddress(seeds, programId)] of sections
    4.1 and 6, starting from bump 255; [AddressDerivationExhausted] when no
    bump in [0,255] succeeds. *)
Definition deriveAddress (seeds : list Buffer) (programId : PublicKey)
  : result (PublicKey * nat) :=
  match search_bump 256 seeds programId with
  | Some r => ok r
  | None => throw AddressDerivationExhausted
  end.

(** [getShopPDA], [getItemPDA] and [getHistoryPDA] as the shop page and the
    scripts define them; each keeps the address and drops the bump. *)
Definition getShopPDA (programId : PublicKey) : result PublicKey :=
  (let? r := deriveAddress [list_byte_of_string "shop"] programId in
   ok (fst r))%result.

Definition getItemPDA (programId : PublicKey) (id : JS.number) : result PublicKey :=
  (let? big := JS.BigInt id in
   let? idBuffer := Buf.writeBigUInt64LE big in
   let? r := deriveAddress [list_byte_of_string "item"; idBuffer] programId in
   ok (fst r))%result.

Definition getHistoryPDA (programId : PublicKey) (buyerPublicKey : PublicKey)
  : result PublicKey :=
  (let? r := deriveAddress [list_byte_of_string "history"; toBuffer buyerPublicKey] programId in
   ok (fst r))%result.

End Derivation.

(** ** Observable actions and the environment *)

Inductive NetworkProvider : Type := sonic | solana | unknown.

Record DetectedNetwork : Type :=
  { provider : NetworkProvider; network : string; name : string }.

Inductive event : Type :=
| GetAccountInfo (address : PublicKey)          (* connection.getAccountInfo *)
| GetBalance (address : PublicKey)              (* connection.getBalance *)
| GetLatestBlockhash                            (* connection.getLatestBlockhash *)
| GetGenesisHash (endpoint : string)            (* connection.getGenesisHash *)
| SignTransaction (tx : Transaction)            (* wallet.signTransaction *)
| SendRawTransaction (tx : Transaction)         (* connection.sendRawTransaction *)
| ConfirmTransaction (signature : string)       (* connection.confirmTransaction *)
| SendAndConfirmTransaction (tx : Transaction)  (* sendAndConfirmTransaction *)
| SetPurchaseHistory (purchases : list PurchaseRecord)
| SetIsPurchasing (item : option JS.number)
| SetIsCorrectNetwork (b : bool)
| SetDetectedNetwork (d : DetectedNetwork)
| ToastError (title : string) (reason : option exn)
| ToastWrongNetwork (detected expected : string)
| ToastSuccess (item : JS.number)
| ToastInfo (signature : string).

Definition trace : Type := list event.

(** What the outside world answers.  The first argument is the number of
    actions performed before the call, so that an answer may change while a
    workflow runs (an account that a transaction creates, a node that goes
    away). *)
Record Env : Type :=
  { getAccountInfo : nat -> PublicKey -> result (option Buffer);
    getBalance : nat -> PublicKey -> result JS.number;
    getLatestBlockhash : nat -> result string;
    getGenesisHash : nat -> string -> result string;
    signTransaction : nat -> Transaction -> result Transaction;
    sendRawTransaction : nat -> Transaction -> result string;
    confirmTransaction : nat -> string -> result unit;
    sendAndConfirmTransaction : nat -> Transaction -> result string;
    Date_now : nat -> JS.number }.

(** ** The monad of asynchronous code *)

Definition M (A : Type) : Type := trace -> result A * trace.

Definition ret {A} (a : A) : M A := fun t => (ok a, t).

Definition raise {A} (e : exn) : M A := fun t => (throw e, t).

Definition bind {A B} (m : M A) (k : A -> M B) : M B :=
  fun t =>
    match m t with
    | (inl e, t') => (inl e, t')
    | (inr a, t') => k a t'
    end.

(** A synchronous computation that may throw. *)
Definition lift {A} (r : result A) : M A := fun t => (r, t).

(** [try { m } catch (e) { h e }] *)
Definition try_catch {A} (m : M A) (h : exn -> M A) : M A :=
  fun t =>
    match m t with
    | (inl e, t') => h e t'
    | (inr a, t') => (inr a, t')
    end.

(** [try { m } finally { f }] *)
Definition finally {A} (m : M A) (f : M unit) : M A :=
  fun t =>
    match m t with
    | (r, t') =>
        match f t' with
        | (inl e, t'') => (inl e, t'')
        | (inr _, t'') => (r, t'')
        end
    end.

(** The outcome of [try { m } catch], kept as a value. *)
Definition attempt {A} (m : M A) : M (result A) :=
  fun t => match m t with (r, t') => (ok r, t') end.

(** An action on the React state or the toaster. *)
Definition emit (e : event) : M unit := fun t => (ok tt, t ++ [e]).

(** A call to the outside world: recorded, and answered by the environment
    according to the number of earlier actions. *)
Definition call {A} (e : event) (answer : nat -> result A) : M A :=
  fun t => (answer (List.length t), t ++ [e]).

Declare Scope monad_scope.
Delimit Scope monad_scope with M.
Notation "x <- m ;; k" := (bind m (fun x => k))
  (at level 61, m at next level, right associativity) : monad_scope.
Notation "m ;; k" := (bind m (fun _ => k))
  (at level 61, right associativity) : monad_scope.

(** A run from a fresh invocation. *)
Definition run {A} (m : M A) : result A * trace := m [].

Definition actions {A} (m : M A) : trace := snd (run m).

(** [Buffer.from([b0, b1, ...])] *)
Definition Buffer_from_array (l : list Z) : Buffer := map byte_of_Z l.

(** ** The shop page *)

Record Wallet : Type :=
  { connected : bool;
    publicKey : option PublicKey;
    has_signTransaction : bool (* wallet.signTransaction is defined *) }.

Inductive InstructionName : Type := firstPurchase | subsequentPurchase.

(** The instruction discriminators from the IDL, as the page declares them. *)
Definition INSTRUCTION_DISCRIMINATORS (n : InstructionName) : list Z :=
  match n with
  | firstPurchase => [109; 212; 45; 217; 228; 42; 205; 63]
  | subsequentPurchase => [223; 75; 242; 206; 210; 168; 187; 166]
  end.

(** The literal [1_000_000_000] (lamports per SOL). *)
Definition LAMPORTS_PER_SOL : JS.number := JS.Number 1000000000.

Section ShopPage.

Variable rt : Runtime.
Variable env : Env.
Variable wallet : Wallet.
Variable SHOP_PROGRAM_ID : string.

Local Open Scope monad_scope.

(** The parsing block of [fetchItemDetails]: skip the 8-byte discriminator,
    read id and price (u64), the 4-byte length and the metadata URI. *)
Definition decode_item (data : Buffer) : result ItemFields :=
  (let offset := 8%nat in
   let? rawId := Buf.readBigUInt64LE data offset in
   let itemId := JS.Number rawId in
   let offset := (offset + 8)%nat in
   let? rawPrice := Buf.readBigUInt64LE data offset in
   let price := JS.div (JS.Number rawPrice) LAMPORTS_PER_SOL in
   let offset := (offset + 8)%nat in
   let? metadataUriLength := Buf.readUInt32LE data offset in
   let offset := (offset + 4)%nat in
   let metadataUri :=
     toString_utf8 rt (Buf.slice data offset (offset + Z.to_nat metadataUriLength)) in
   ok {| id := itemId; price := price; metadataUri := metadataUri |})%result.

(** [fetchItemDetails(connection, programId, id)], up to the fields read
    from the account; [None] is [null].  The name, description and image
    that the page derives from the metadata URI are presentation only and
    never alter these three fields. *)
Definition fetchItemDetails (programId : PublicKey) (id : JS.number)
  : M (option ItemFields) :=
  try_catch
    (itemPDA <- lift (getItemPDA rt programId id) ;;
     accountInfo <- call (GetAccountInfo itemPDA)
                         (fun t => getAccountInfo env t itemPDA) ;;
     match accountInfo with
     | None => ret None
     | Some data =>
         item <- lift (decode_item data) ;;
         ret (Some item)
     end)
    (fun _ => ret None).

(** The loop of [checkPurchaseHistory] over the declared number of
    records, 16 bytes each. *)
Fixpoint read_purchases (data : Buffer) (n : nat) (offset : nat)
  : result (list PurchaseRecord) :=
  match n with
  | O => ok []
  | S k =>
      (let? itemId := Buf.readBigUInt64LE data offset in
       let? ts := Buf.readBigInt64LE data (offset + 8) in
       let? rest := read_purchases data k (offset + 16) in
       ok ({| item_id := JS.Number itemId; timestamp := JS.Number ts |} :: rest))%result
  end.

(** The inner [try] block of [checkPurchaseHistory]: the list handed to
    [setPurchaseHistory]. *)
Definition decode_purchase_history (buyer : PublicKey) (data : Buffer)
  : result (list PurchaseRecord) :=
  (let? userPubkey := new_PublicKey (Buf.slice data 8 40) in
   if negb (equals userPubkey buyer) then ok []
   else
     let? purchasesLength := Buf.readUInt32LE data 40 in
     read_purchases data (Z.to_nat purchasesLength) 44)%result.

(** The record the [catch] block of [checkPurchaseHistory] installs. *)
Definition placeholder_purchases (now : JS.number) : list PurchaseRecord :=
  [ {| item_id := JS.Number 1; timestamp := JS.div now (JS.Number 1000) |} ].

Definition checkPurchaseHistory : M unit :=
  match connected wallet, publicKey wallet with
  | true, Some buyer =>
      try_catch
        (programPubkey <- lift (PublicKey_of_base58 rt SHOP_PROGRAM_ID) ;;
         historyPDA <- lift (getHistoryPDA rt programPubkey buyer) ;;
         historyAccount <- call (GetAccountInfo historyPDA)
                                (fun t => getAccountInfo env t historyPDA) ;;
         match historyAccount with
         | None => emit (SetPurchaseHistory [])
         | Some data =>
             try_catch
               (purchases <- lift (decode_purchase_history buyer data) ;;
                emit (SetPurchaseHistory purchases))
               (fun _ => fun t =>
                  emit (SetPurchaseHistory
                          (placeholder_purchases (Date_now env (List.length t)))) t)
         end)
        (fun _ => ret tt)
  | _, _ => ret tt
  end.

(** The account references of a purchase instruction. *)
Definition purchase_keys (buyer shopPDA itemPDA adminPubkey historyPDA : PublicKey)
  : list AccountMeta :=
  [ {| pubkey := buyer; isSigner := true; isWritable := true |};
    {| pubkey := shopPDA; isSigner := false; isWritable := false |};
    {| pubkey := itemPDA; isSigner := false; isWritable := false |};
    {| pubkey := adminPubkey; isSigner := false; isWritable := true |};
    {| pubkey := historyPDA; isSigner := false; isWritable := true |};
    {| pubkey := SystemProgram_programId; isSigner := false; isWritable := false |} ].

(** The [try] block of [handlePurchase]. *)
Definition handlePurchase_body (buyer : PublicKey) (itemId : JS.number) : M unit :=
  programPubkey <- lift (PublicKey_of_base58 rt SHOP_PROGRAM_ID) ;;
  shopPDA <- lift (getShopPDA rt programPubkey) ;;
  itemPDA <- lift (getItemPDA rt programPubkey itemId) ;;
  historyPDA <- lift (getHistoryPDA rt programPubkey buyer) ;;
  shopAccount <- call (GetAccountInfo shopPDA) (fun t => getAccountInfo env t shopPDA) ;;
  match shopAccount with
  | None => raise ShopNotInitialized
  | Some shopData =>
      adminPubkey <- lift (new_PublicKey (Buf.slice shopData 8 40)) ;;
      itemAccount <- call (GetAccountInfo itemPDA) (fun t => getAccountInfo env t itemPDA) ;;
      match itemAccount with
      | None => raise ItemNotFound
      | Some itemData =>
          rawPrice <- lift (Buf.readBigUInt64LE itemData 16) ;;
          let itemPrice := JS.Number rawPrice in
          buyerBalance <- call (GetBalance buyer) (fun t => getBalance env t buyer) ;;
          if JS.lt buyerBalance itemPrice then
            raise (InsufficientFunds (JS.div itemPrice LAMPORTS_PER_SOL)
                                     (JS.div buyerBalance LAMPORTS_PER_SOL))
          else
            historyAccount <- call (GetAccountInfo historyPDA)
                                   (fun t => getAccountInfo env t historyPDA) ;;
            let historyExists :=
              match historyAccount with Some _ => true | None => false end in
            let transaction := new_Transaction in
            let transaction := add transaction (SetComputeUnitLimit 1000000) in
            let instructionName :=
              if historyExists then subsequentPurchase else firstPurchase in
            let discriminator := INSTRUCTION_DISCRIMINATORS instructionName in
            let dataLayout := Buffer_from_array discriminator in
            let transaction :=
              add transaction
                  (TransactionInstruction
                     (purchase_keys buyer shopPDA itemPDA adminPubkey historyPDA)
                     programPubkey dataLayout) in
            blockhash <- call GetLatestBlockhash (getLatestBlockhash env) ;;
            let transaction :=
              {| instructions := instructions transaction;
                 recentBlockhash := Some blockhash;
                 feePayer := Some buyer |} in
            if negb (has_signTransaction wallet) then raise WalletCannotSign
            else
              signedTransaction <- call (SignTransaction transaction)
                                        (fun t => signTransaction env t transaction) ;;
              signature <- call (SendRawTransaction signedTransaction)
                                (fun t => sendRawTransaction env t signedTransaction) ;;
              call (ConfirmTransaction signature)
                   (fun t => confirmTransaction env t signature) ;;
              emit (ToastSuccess itemId) ;;
              checkPurchaseHistory ;;
              emit (ToastInfo signature)
      end
  end.

Definition handlePurchase (itemId : JS.number) : M unit :=
  match connected wallet, publicKey wallet with
  | true, Some buyer =>
      emit (SetIsPurchasing (Some itemId)) ;;
      finally
        (try_catch (handlePurchase_body buyer itemId)
                   (fun error => emit (ToastError "Purchase failed" (Some error))))
        (emit (SetIsPurchasing None))
  | _, _ => emit (ToastError "Wallet not connected" None)
  end.

End ShopPage.

(** ** The operator scripts *)

(** The fields [addItemWithMetadata] takes from the metadata file. *)
Record ItemMetadata : Type :=
  { md_id : JS.number; md_price : JS.number; md_image_url : option string }.

Section Scripts.

Variable rt : Runtime.
Variable env : Env.
(** [programId] comes from the IDL; [adminPublicKey] and the signing
    wallet's key come from key files read when the script starts. *)
Variable programId : PublicKey.
Variable adminPublicKey : PublicKey.
Variable walletPublicKey : PublicKey.

Local Open Scope monad_scope.

(** The instruction data of [add_item], as [addItemWithMetadata] and
    [addItem] assemble it: discriminator, id and price as u64, the 4-byte
    length of the metadata URI, its bytes. *)
Definition add_item_data (id price : JS.number) (metadataUri : string)
  : result Buffer :=
  (let discriminator := Buffer_from_array [225; 38; 79; 147; 116; 142; 147; 57] in
   let? bigId := JS.BigInt id in
   let? idBuffer := Buf.writeBigUInt64LE bigId in
   let? bigPrice := JS.BigInt price in
   let? priceBuffer := Buf.writeBigUInt64LE bigPrice in
   let metadataUriBuffer := Buffer_from_string rt metadataUri in
   let? metadataUriLengthBuffer :=
     Buf.writeUInt32LE (Z.of_nat (List.length metadataUriBuffer)) in
   ok (List.concat [discriminator; idBuffer; priceBuffer;
                    metadataUriLengthBuffer; metadataUriBuffer]))%result.

Definition add_item_keys (shopPDA itemPDA : PublicKey) : list AccountMeta :=
  [ {| pubkey := walletPublicKey; isSigner := true; isWritable := true |};
    {| pubkey := shopPDA; isSigner := false; isWritable := true |};
    {| pubkey := itemPDA; isSigner := false; isWritable := true |};
    {| pubkey := SystemProgram_programId; isSigner := false; isWritable := false |} ].

(** [addItemWithMetadata], from the parsed metadata on; the result is the
    item address, [None] for [null]. *)
Definition addItemWithMetadata (metadata : ItemMetadata) : M (option PublicKey) :=
  let id := md_id metadata in
  let price := md_price metadata in
  if negb (JS.truthy id) || negb (JS.truthy price) then ret None
  else
    let simplifiedMetadata :=
      ("image:" ++ match md_image_url metadata with Some u => u | None => "" end)%string in
    shopPDA <- lift (getShopPDA rt programId) ;;
    itemPDA <- lift (getItemPDA rt programId id) ;;
    existingItem <- call (GetAccountInfo itemPDA) (fun t => getAccountInfo env t itemPDA) ;;
    match existingItem with
    | Some _ => ret (Some itemPDA)
    | None =>
        let transaction := new_Transaction in
        let ix := SetComputeUnitLimit 1000000 in
        let transaction := add transaction ix in
        data <- lift (add_item_data id price simplifiedMetadata) ;;
        let transaction :=
          add transaction
              (TransactionInstruction (add_item_keys shopPDA itemPDA) programId data) in
        call (SendAndConfirmTransaction transaction)
             (fun t => sendAndConfirmTransaction env t transaction) ;;
        ret (Some itemPDA)
    end.

(** [initializeShop] of the shop client script. *)
Definition initializeShop : M PublicKey :=
  shopPDA <- lift (getShopPDA rt programId) ;;
  shopAccount <- call (GetAccountInfo shopPDA) (fun t => getAccountInfo env t shopPDA) ;;
  match shopAccount with
  | Some _ => ret shopPDA
  | None =>
      let ix := SetComputeUnitLimit 1000000 in
      let transaction := add new_Transaction ix in
      let transaction :=
        add transaction
            (TransactionInstruction
               [ {| pubkey := walletPublicKey; isSigner := true; isWritable := true |};
                 {| pubkey := shopPDA; isSigner := false; isWritable := true |};
                 {| pubkey := SystemProgram_programId; isSigner := false;
                    isWritable := false |} ]
               programId
               (Buffer_from_array [76; 158; 246; 22; 47; 236; 107; 186])) in
      call (SendAndConfirmTransaction transaction)
           (fun t => sendAndConfirmTransaction env t transaction) ;;
      ret shopPDA
  end.

(** [addItem(id, price, metadataUri)] of the shop client script. *)
Definition addItem (id price : JS.number) (metadataUri : string) : M PublicKey :=
  shopPDA <- lift (getShopPDA rt programId) ;;
  itemPDA <- lift (getItemPDA rt programId id) ;;
  let ix := SetComputeUnitLimit 1000000 in
  let transaction := add new_Transaction ix in
  data <- lift (add_item_data id price metadataUri) ;;
  let transaction :=
    add transaction
        (TransactionInstruction (add_item_keys shopPDA itemPDA) programId data) in
  call (SendAndConfirmTransaction transaction)
       (fun t => sendAndConfirmTransaction env t transaction) ;;
  ret itemPDA.

(** The parsing block of [getItem] (shop client script): the discriminator
    is sliced off first, the price stays in lamports. *)
Definition getItem_parse (accountData : Buffer) : result ItemFields :=
  (let data := skipn 8 accountData in
   let? itemId := Buf.readBigUInt64LE data 0 in
   let? price := Buf.readBigUInt64LE data 8 in
   let? metadataUriLength := Buf.readUInt32LE data 16 in
   let metadataUri :=
     toString_utf8 rt (Buf.slice data 20 (20 + Z.to_nat metadataUriLength)) in
   ok {| id := JS.Number itemId; price := JS.Number price; metadataUri := metadataUri |})%result.

(** The parsing block of [getItemDetails] (delete-item script): as on the
    page, but the price stays in lamports. *)
Definition getItemDetails_parse (data : Buffer) : result ItemFields :=
  (let offset := 8%nat in
   let? rawId := Buf.readBigUInt64LE data offset in
   let itemId := JS.Number rawId in
   let offset := (offset + 8)%nat in
   let? rawPrice := Buf.readBigUInt64LE data offset in
   let price := JS.Number rawPrice in
   let offset := (offset + 8)%nat in
   let? metadataUriLength := Buf.readUInt32LE data offset in
   let offset := (offset + 4)%nat in
   let metadataUri :=
     toString_utf8 rt (Buf.slice data offset (offset + Z.to_nat metadataUriLength)) in
   ok {| id := itemId; price := price; metadataUri := metadataUri |})%result.

(** [checkPurchaseHistoryForWallet]: the decoded list is printed and
    returned to a caller that drops it; every error ends in [[]]. *)
Definition checkPurchaseHistoryForWallet (walletKey : PublicKey) : M unit :=
  try_catch
    (historyPDA <- lift (getHistoryPDA rt programId walletKey) ;;
     call (GetAccountInfo historyPDA) (fun t => getAccountInfo env t historyPDA) ;;
     ret tt)
    (fun _ => ret tt).

(** The account references [purchaseItem] writes in both branches. *)
Definition script_purchase_keys (shopPDA itemPDA historyPDA : PublicKey)
  : list AccountMeta :=
  [ {| pubkey := walletPublicKey; isSigner := true; isWritable := true |};
    {| pubkey := shopPDA; isSigner := false; isWritable := false |};
    {| pubkey := itemPDA; isSigner := false; isWritable := false |};
    {| pubkey := adminPublicKey; isSigner := false; isWritable := true |};
    {| pubkey := historyPDA; isSigner := false; isWritable := true |};
    {| pubkey := SystemProgram_programId; isSigner := false; isWritable := false |} ].

(** [purchaseItem(itemId)] of the purchase script; the buyer is the
    signing wallet.  The comparison [buyerBalance < item.price] has a BN on
    its right: JavaScript converts it to its decimal string and then to the
    nearest number. *)
Definition purchaseItem (itemId : JS.number) : M bool :=
  try_catch
    (shopPDA <- lift (getShopPDA rt programId) ;;
     itemPDA <- lift (getItemPDA rt programId itemId) ;;
     historyPDA <- lift (getHistoryPDA rt programId walletPublicKey) ;;
     itemAccount <- call (GetAccountInfo itemPDA) (fun t => getAccountInfo env t itemPDA) ;;
     match itemAccount with
     | None => ret false
     | Some itemData =>
         historyAccount <- call (GetAccountInfo historyPDA)
                                (fun t => getAccountInfo env t historyPDA) ;;
         let historyExists :=
           match historyAccount with Some _ => true | None => false end in
         item <- lift (coder_decode_Item rt itemData) ;;
         let '(_, item_price, _) := item in
         buyerBalance <- call (GetBalance walletPublicKey)
                              (fun t => getBalance env t walletPublicKey) ;;
         if JS.lt buyerBalance (JS.Number item_price) then ret false
         else
           let transaction := new_Transaction in
           let transaction := add transaction (SetComputeUnitLimit 1000000) in
           let transaction :=
             if historyExists then
               let instructionData := coder_instruction_encode rt "subsequentPurchase" in
               add transaction
                   (TransactionInstruction
                      (script_purchase_keys shopPDA itemPDA historyPDA)
                      programId instructionData)
             else
               let instructionData := coder_instruction_encode rt "firstPurchase" in
               add transaction
                   (TransactionInstruction
                      (script_purchase_keys shopPDA itemPDA historyPDA)
                      programId instructionData) in
           call (SendAndConfirmTransaction transaction)
                (fun t => sendAndConfirmTransaction env t transaction) ;;
           checkPurchaseHistoryForWallet walletPublicKey ;;
           ret true
     end)
    (fun _ => ret false).

(** [getItem(id)] of the shop client script: [null] when the account does
    not exist; an error is logged and thrown again. *)
Definition getItem (id : JS.number) : M (option ItemFields) :=
  itemPDA <- lift (getItemPDA rt programId id) ;;
  accountInfo <- call (GetAccountInfo itemPDA) (fun t => getAccountInfo env t itemPDA) ;;
  match accountInfo with
  | None => ret None
  | Some accountData =>
      item <- lift (getItem_parse accountData) ;;
      ret (Some item)
  end.

(** [getItemDetails(itemPDA)] of the delete-item script: every error is
    logged and ends in [null]. *)
Definition getItemDetails (itemPDA : PublicKey) : M (option ItemFields) :=
  try_catch
    (accountInfo <- call (GetAccountInfo itemPDA) (fun t => getAccountInfo env t itemPDA) ;;
     match accountInfo with
     | None => ret None
     | Some data =>
         item <- lift (getItemDetails_parse data) ;;
         ret (Some item)
     end)
    (fun _ => ret None).

(** [markItemInactive(id)] of the delete-item script: the item is looked
    up and its details are printed; [null] when the account does not exist,
    the item address otherwise.  An error is logged and thrown again. *)
Definition markItemInactive (id : JS.number) : M (option PublicKey) :=
  itemPDA <- lift (getItemPDA rt programId id) ;;
  accountInfo <- call (GetAccountInfo itemPDA) (fun t => getAccountInfo env t itemPDA) ;;
  match accountInfo with
  | None => ret None
  | Some _ =>
      getItemDetails itemPDA ;;
      ret (Some itemPDA)
  end.

End Scripts.

(** ** The network banner *)

Record NetworkConfig : Type :=
  { cfg_name : string; cfg_endpoint : string; cfg_explorerUrl : string }.

Definition SOLANA_RPC_URL : string := "https://api.testnet.sonic.game".

(** [Object.entries(SONIC_NETWORKS)], in declaration order. *)
Definition SONIC_NETWORKS : list (string * NetworkConfig) :=
  [ ("mainnet-beta",
     {| cfg_name := "Sonic Mainnet Beta";
        cfg_endpoint := "https://api.mainnet-alpha.sonic.game";
        cfg_explorerUrl := "https://explorer.sonic.game" |});
    ("testnet",
     {| cfg_name := "Sonic Testnet";
        cfg_endpoint := "https://api.testnet.sonic.game";
        cfg_explorerUrl := "https://explorer.testnet.sonic.game" |}) ]%string.

(** [Object.entries(SOLANA_NETWORKS_CONFIG)], in declaration order. *)
Definition SOLANA_NETWORKS_CONFIG : list (string * NetworkConfig) :=
  [ ("mainnet-beta",
     {| cfg_name := "Solana Mainnet Beta";
        cfg_endpoint := "https://api.mainnet-beta.solana.com";
        cfg_explorerUrl := "https://explorer.solana.com" |});
    ("testnet",
     {| cfg_name := "Solana Testnet";
        cfg_endpoint := "https://api.testnet.solana.com";
        cfg_explorerUrl := "https://explorer.solana.com/?cluster=testnet" |});
    ("devnet",
     {| cfg_name := "Solana Devnet";
        cfg_endpoint := "https://api.devnet.solana.com";
        cfg_explorerUrl := "https://explorer.solana.com/?cluster=devnet" |}) ]%string.

(** [CURRENT_NETWORK]: with [NETWORK_PROVIDER = "sonic"] and
    [SOLANA_NETWORK = "testnet"] it is [SONIC_NETWORKS.testnet]. *)
Definition CURRENT_NETWORK : NetworkConfig :=
  {| cfg_name := "Sonic Testnet";
     cfg_endpoint := "https://api.testnet.sonic.game";
     cfg_explorerUrl := "https://explorer.testnet.sonic.game" |}%string.

Definition Unknown_Network : DetectedNetwork :=
  {| provider := unknown; network := "unknown"; name := "Unknown Network" |}%string.

Section NetworkAlert.

Variable env : Env.
(** The endpoint of the connection the wallet adapter provides. *)
Variable connection : string.

Local Open Scope monad_scope.

(** One [for ... of Object.entries(...)] loop of [checkNetwork]: probe the
    entries in order, keep the first whose genesis hash is the live one,
    skip an entry whose probe throws. *)
Fixpoint probe_networks (p : NetworkProvider) (entries : list (string * NetworkConfig))
  (genesisHash : string) (detected : DetectedNetwork) : M DetectedNetwork :=
  match entries with
  | [] => ret detected
  | (net, config) :: rest =>
      r <- attempt (call (GetGenesisHash (cfg_endpoint config))
                         (fun t => getGenesisHash env t (cfg_endpoint config))) ;;
      match r with
      | inr hash =>
          if String.eqb genesisHash hash then
            ret {| provider := p; network := net; name := cfg_name config |}
          else probe_networks p rest genesisHash detected
      | inl _ => probe_networks p rest genesisHash detected
      end
  end.

Definition checkNetwork : M unit :=
  try_catch
    (genesisHash <- call (GetGenesisHash connection)
                         (fun t => getGenesisHash env t connection) ;;
     expectedGenesisHash <-
       call (GetGenesisHash (cfg_endpoint CURRENT_NETWORK))
            (fun t => getGenesisHash env t (cfg_endpoint CURRENT_NETWORK)) ;;
     let onCorrectNetwork := String.eqb genesisHash expectedGenesisHash in
     emit (SetIsCorrectNetwork onCorrectNetwork) ;;
     if negb onCorrectNetwork then
       let detected := Unknown_Network in
       detected <- probe_networks sonic SONIC_NETWORKS genesisHash detected ;;
       detected <-
         match provider detected with
         | unknown => probe_networks solana SOLANA_NETWORKS_CONFIG genesisHash detected
         | _ => ret detected
         end ;;
       emit (SetDetectedNetwork detected) ;;
       emit (ToastWrongNetwork (name detected) (cfg_name CURRENT_NETWORK))
     else ret tt)
    (fun _ => ret tt).

End NetworkAlert.

(** ** Account layouts the sources only decode

    The remote program writes the Shop and PurchaseHistory accounts; the
    sources hold no encoder for them. *)

(** Modelled from the spec: a PurchaseRecord of sections 3 and 4.2, the
    item id as u64 and the timestamp as signed 64-bit (two's complement),
    little-endian. *)
Definition encode_record (r : Z * Z) : Buffer :=
  le_bytes 8 (fst r) ++ le_bytes 8 (snd r mod 2 ^ 64).

(** Modelled from the spec: the PurchaseHistory layout of sections 3 and
    4.2: the 8-byte discriminator, the 32-byte user, the 4-byte count, the
    records. *)
Definition encode_purchase_history (discriminator : Buffer) (user : PublicKey)
  (records : list (Z * Z)) : Buffer :=
  discriminator ++ toBuffer user ++ le_bytes 4 (Z.of_nat (List.length records))
    ++ flat_map encode_record records.

(** Modelled from the spec: the Shop layout of sections 3 and 4.2: the
    8-byte discriminator, the 32-byte admin, the item count as u64. *)
Definition encode_shop (discriminator : Buffer) (admin : PublicKey) (item_count : Z) : Buffer :=
  discriminator ++ toBuffer admin ++ le_bytes 8 item_count.

(** A record whose fields fit their widths. *)
Definition record_in_range (r : Z * Z) : Prop :=
  0 <= fst r < 2 ^ 64 /\ - 2 ^ 63 <= snd r < 2 ^ 63.

(** The record as the page shows it. *)
Definition shown (r : Z * Z) : PurchaseRecord :=
  {| item_id := JS.Number (fst r); timestamp := JS.Number (snd r) |}.

(** ** The catalog of known networks, as the specification describes it

      Section 4.5 speaks of one static catalog "grouped by provider", probed
    in order until the first match.  The definitions below follow those
    words; [checkNetwork] above follows the component, and the two are
    compared further down. *)

(** An entry of the catalog, with the provider group it belongs to. *)
Definition tag_provider (p : NetworkProvider) (e : string * NetworkConfig)
  : NetworkProvider * string * NetworkConfig := (p, fst e, snd e).

(** The Sonic group, then the Solana group. *)
Definition network_catalog : list (NetworkProvider * string * NetworkConfig) :=
  map (tag_provider sonic) SONIC_NETWORKS ++ map (tag_provider solana) SOLANA_NETWORKS_CONFIG.

(** The entry probed as action number [t] answers the live fingerprint.  An
    endpoint whose probe throws has no fingerprint. *)
Definition fingerprint_matches (env : Env) (genesisHash : string) (t : nat)
  (config : NetworkConfig) : bool :=
  match getGenesisHash env t (cfg_endpoint config) with
  | inr hash => String.eqb genesisHash hash
  | inl _ => false
  end.

(** The first entry, in catalog order, whose fingerprint is the live one;
    the entries are probed one action after the other, starting at [t]. *)
Fixpoint first_match (env : Env) (genesisHash : string) (t : nat)
  (catalog : list (NetworkProvider * string * NetworkConfig))
  : option (NetworkProvider * string * NetworkConfig) :=
  match catalog with
  | [] => None
  | (p, net, config) :: rest =>
      if fingerprint_matches env genesisHash t config then Some (p, net, config)
      else first_match env genesisHash (S t) rest
  end.

(** What the verifier reports for a match, or for none. *)
Definition reported (m : option (NetworkProvider * string * NetworkConfig)) : DetectedNetwork :=
  match m with
  | Some (p, net, config) => {| provider := p; network := net; name := cfg_name config |}
  | None => Unknown_Network
  end.

(** The endpoints probed: the catalog up to and including the first match. *)
Fixpoint probed (env : Env) (genesisHash : string) (t : nat)
  (catalog : list (NetworkProvider * string * NetworkConfig)) : list string :=
  match catalog with
  | [] => []
  | (_, _, config) :: rest =>
      cfg_endpoint config
        :: (if fingerprint_matches env genesisHash t config then []
            else probed env genesisHash (S t) rest)
  end.

(** ** The shop page: listing the items

    String operations of JavaScript that the page uses.  A string stands
    for the sequence of its UTF-8 bytes; every pattern the page searches for
    is ASCII, and for such a pattern a prefix test, a search and a cut after
    a matched prefix are the same on UTF-8 bytes as on UTF-16 code units. *)

Module Str.

(** [s.startsWith(p)] *)
Definition startsWith (s p : string) : bool := String.prefix p s.

(** [s.substring(n)], used after a matched ASCII prefix of [n] characters. *)
Fixpoint substring_from (n : nat) (s : string) : string :=
  match n, s with
  | O, _ => s
  | S _, EmptyString => EmptyString
  | S k, String _ rest => substring_from k rest
  end.

(** [s.replace(p, r)] for a string pattern [p]: only the first occurrence
    is replaced. *)
Fixpoint replace (s p r : string) : string :=
  if String.prefix p s then (r ++ substring_from (String.length p) s)%string
  else
    match s with
    | EmptyString => EmptyString
    | String c rest => String c (replace rest p r)
    end.

(** [s.includes(p)] *)
Fixpoint includes (s p : string) : bool :=
  if String.prefix p s then true
  else
    match s with
    | EmptyString => false
    | String _ rest => includes rest p
    end.

(** [a || b] on strings: the empty string is falsy. *)
Definition or_else (a b : string) : string :=
  if String.eqb a "" then b else a.

(** An optional string that is defined and not empty. *)
Definition truthy (o : option string) : option string :=
  match o with
  | Some s => if String.eqb s "" then None else Some s
  | None => None
  end.

End Str.

(** [x === y] on numbers. *)
Definition Number_eq (x y : JS.number) : bool := SFeqb x y.

Module ShopItem.
Record t : Type :=
  { id : JS.number; name : string; description : string; image : string;
    price : JS.number; metadataUri : string }.
End ShopItem.

(** The metadata document, with the fields the interface of the page
    declares; a [name] or [description] that is absent reads as empty. *)
Module IPFSMetadata.
Record t : Type :=
  { name : string; description : string; image : option string;
    image_url : option string; item_type : option string }.
End IPFSMetadata.

(** What [fetch(url)] resolves to: [response.ok] and the outcome of
    [response.json()], [None] for a document that is [null]. *)
Record Response : Type :=
  { resp_ok : bool; resp_json : result (option IPFSMetadata.t) }.

(** [placeholderImages] *)
Definition placeholder_default : string := "/items/placeholder.png".
Definition placeholder_sword : string := "/items/sword.png".
Definition placeholder_shield : string := "/items/shield.png".
Definition placeholder_potion : string := "/items/potion.png".

(** [ipfsToHttp(ipfsUri)] *)
Definition ipfsToHttp (ipfsUri : string) : string :=
  if String.eqb ipfsUri "" then ""%string
  else if Str.startsWith ipfsUri "ipfs://" then
    let cid := Str.replace ipfsUri "ipfs://" "" in
    ("https://ipfs.io/ipfs/" ++ cid)%string
  else ipfsUri.

(** [fetchMetadata(metadataUri)]; [fetch] is what the network answers to
    the one request the function may make.  [None] is [null]. *)
Definition fetchMetadata (fetch : string -> result Response) (metadataUri : string)
  : option IPFSMetadata.t :=
  if String.eqb metadataUri "ipfs://placeholder-cid-for-excalibur" then
    Some {| IPFSMetadata.name := "Excalibur";
            IPFSMetadata.description :=
              "The legendary sword of King Arthur. This powerful weapon grants its wielder enhanced strength and magical abilities.";
            IPFSMetadata.image := Some placeholder_sword;
            IPFSMetadata.image_url := None;
            IPFSMetadata.item_type := None |}
  else
    let metadataUrl := ipfsToHttp metadataUri in
    if String.eqb metadataUrl "" then None
    else
      match fetch metadataUrl with
      | inl _ => None
      | inr response =>
          if negb (resp_ok response) then None
          else
            match resp_json response with
            | inl _ => None
            | inr metadata => metadata
            end
      end.

(** The React state of the listing. *)
Record ListingState : Type :=
  { shopItems : list ShopItem.t; isLoading : bool; error : option string }.

Section Listing.

Variable rt : Runtime.
Variable env : Env.
Variable SHOP_PROGRAM_ID : string.
(** [String.prototype.toLowerCase] and the decimal rendering of a number in
    a template string belong to the language runtime. *)
Variable toLowerCase : string -> string.
Variable Number_toString : JS.number -> string.
(** What the network answers to a [fetch], by the number of actions
    performed before it. *)
Variable fetch : nat -> string -> result Response.

Local Open Scope monad_scope.

(** The name and description the page knows for the items 1 to 4. *)
Definition known_item (id : JS.number) (name description : string) : string * string :=
  if Number_eq id (JS.Number 1) then
    ("Excalibur",
     "A legendary sword of immense power. Said to have been wielded by the greatest kings of old.")%string
  else if Number_eq id (JS.Number 2) then
    ("Luna the Shadow Thief",
     "A stealthy rogue with a knack for secrets. Luna can infiltrate any fortress and steal the most guarded treasures.")%string
  else if Number_eq id (JS.Number 3) then
    ("Mystic Cavern",
     "A glowing cave filled with ancient runes. The walls shimmer with magical energy, illuminating the mysterious symbols carved into the stone.")%string
  else if Number_eq id (JS.Number 4) then
    ("Spectral Fade",
     "A ghostly fade effect for your choices. This ethereal animation adds a supernatural touch to scene transitions, creating an atmosphere of mystery.")%string
  else (name, description).

(** The image chosen from a metadata document. *)
Definition metadata_image (metadata : IPFSMetadata.t) (name image : string) : string :=
  match Str.truthy (IPFSMetadata.image_url metadata) with
  | Some url => url
  | None =>
      match Str.truthy (IPFSMetadata.image metadata) with
      | Some img =>
          if Str.startsWith img "ipfs://" then ipfsToHttp img
          else if Str.startsWith img "http" then img
          else
            let itemType :=
              toLowerCase (match Str.truthy (IPFSMetadata.item_type metadata) with
                           | Some ty => ty
                           | None => ""%string
                           end) in
            if Str.includes itemType "weapon" || Str.includes (toLowerCase name) "sword"
            then placeholder_sword
            else if Str.includes itemType "shield" then placeholder_shield
            else if Str.includes itemType "potion" then placeholder_potion
            else image
      | None => image
      end
  end.

(** The second half of [fetchItemDetails]: the item shown for the fields
    read from the account.  [id] is the identifier asked for, [http] the
    answer of the network to the metadata request. *)
Definition present (http : string -> result Response) (id : JS.number) (fields : ItemFields)
  : ShopItem.t :=
  let '(Build_ItemFields itemId price uri) := fields in
  let name := ("Item #" ++ Number_toString id)%string in
  let description := "A mysterious item from the blockchain"%string in
  let image := placeholder_default in
  let '(name, description, image) :=
    if Str.startsWith uri "image:" then
      let imageUrl := Str.substring_from 6 uri in
      if negb (String.eqb imageUrl "") then
        let '(name, description) := known_item id name description in
        (name, description, imageUrl)
      else (name, description, image)
    else if negb (String.eqb uri "") then
      match fetchMetadata http uri with
      | Some metadata =>
          let name := Str.or_else (IPFSMetadata.name metadata) name in
          let description := Str.or_else (IPFSMetadata.description metadata) description in
          (name, description, metadata_image metadata name image)
      | None => (name, description, image)
      end
    else (name, description, image) in
  {| ShopItem.id := itemId;
     ShopItem.name := name;
     ShopItem.description := description;
     ShopItem.image := image;
     ShopItem.price := price;
     ShopItem.metadataUri := uri |}.

(** [fetchItemDetails(connection, programId, id)] in full: the account is
    read and decoded as in [fetchItemDetails] above, and the item is
    presented; [None] is [null]. *)
Definition fetchShopItem (programId : PublicKey) (id : JS.number) : M (option ShopItem.t) :=
  try_catch
    (itemPDA <- lift (getItemPDA rt programId id) ;;
     accountInfo <- call (GetAccountInfo itemPDA)
                         (fun t => getAccountInfo env t itemPDA) ;;
     match accountInfo with
     | None => ret None
     | Some data =>
         fields <- lift (decode_item rt data) ;;
         fun t => (ok (Some (present (fetch (List.length t)) id fields)), t)
     end)
    (fun _ => ret None).

(** The loop of [fetchItems] over the identifiers. *)
Fixpoint fetch_loop (programPubkey : PublicKey) (ids : list Z) (items : list ShopItem.t)
  : M (list ShopItem.t) :=
  match ids with
  | [] => ret items
  | id :: rest =>
      r <- attempt (fetchShopItem programPubkey (JS.Number id)) ;;
      match r with
      | inr (Some item) => fetch_loop programPubkey rest (items ++ [item])
      | _ => fetch_loop programPubkey rest items
      end
  end.

(** [fetchItems()]: the React state is passed explicitly. *)
Definition fetchItems (s : ListingState) : M ListingState :=
  let s := {| shopItems := shopItems s; isLoading := true; error := error s |} in
  s <- try_catch
         (programPubkey <- lift (PublicKey_of_base58 rt SHOP_PROGRAM_ID) ;;
          items <- fetch_loop programPubkey [1; 2; 3; 4; 5; 6; 7; 8; 9; 10] [] ;;
          ret {| shopItems := items; isLoading := isLoading s; error := error s |})
         (fun _ =>
            ret {| shopItems := shopItems s; isLoading := isLoading s;
                   error := Some "Failed to load shop items. Please try again later."%string |}) ;;
  ret {| shopItems := shopItems s; isLoading := false; error := error s |}.

End Listing.

(** ** What a workflow may do *)

(** From any starting point, [m] keeps the actions performed so far and
    every action it adds satisfies [P]. *)
Definition emits (P : event -> Prop) {A} (m : M A) : Prop :=
  forall t, exists s, snd (m t) = t ++ s /\ Forall P s.

(** The actions that ask for a signature or submit a transaction. *)
Definition submits (e : event) : bool :=
  match e with
  | SignTransaction _ | SendRawTransaction _ | SendAndConfirmTransaction _ => true
  | _ => false
  end.

(** The actions that only read from a node. *)
Definition reads (e : event) : bool :=
  match e with
  | GetAccountInfo _ | GetBalance _ | GetLatestBlockhash | GetGenesisHash _ => true
  | _ => false
  end.

(** ** A concrete runtime and concrete worlds

    The definitions are executable once a runtime is fixed.  The runtime
    below is used to evaluate them on examples only: its hash is a stand-in
    (the first 32 bytes of the zero-padded input), no address is on the
    curve, a key string is read as big-endian bytes, and text is ASCII.
    Every general statement further down quantifies over the runtime. *)

Module Sample.

Definition rt : Runtime :=
  {| sha256 := fun b => firstn 32 (b ++ repeat x00 32);
     isOnCurve := fun _ => false;
     PublicKey_of_base58 := fun s => new_PublicKey (list_byte_of_string s);
     Buffer_from_string := list_byte_of_string;
     toString_utf8 := string_of_list_byte;
     coder_decode_Item := fun data =>
       (let? i := Buf.readBigUInt64LE data 8 in
        let? p := Buf.readBigUInt64LE data 16 in
        let? n := Buf.readUInt32LE data 24 in
        ok (i, p, string_of_list_byte (Buf.slice data 28 (28 + Z.to_nat n))))%result;
     coder_instruction_encode := fun s => list_byte_of_string s |}.

Definition SHOP_PROGRAM_ID : string := "shop-program".
Definition programId : PublicKey := {| bn := be_value (list_byte_of_string "shop-program") |}.
Definition admin : PublicKey := {| bn := 5 |}.
Definition buyer : PublicKey := {| bn := 7 |}.
Definition stranger : PublicKey := {| bn := 9 |}.

Definition wallet : Wallet :=
  {| connected := true; publicKey := Some buyer; has_signTransaction := true |}.

Definition address (r : result PublicKey) : PublicKey :=
  match r with inr k => k | inl _ => {| bn := -1 |} end.

Definition shopPDA : PublicKey := address (getShopPDA rt programId).
Definition itemPDA : PublicKey := address (getItemPDA rt programId (JS.Number 1)).
Definition historyPDA : PublicKey := address (getHistoryPDA rt programId buyer).

Definition discriminator : Buffer := repeat x00 8.

(** Account layouts: Shop, Item, PurchaseHistory. *)
Definition shop_account : Buffer := encode_shop discriminator admin 1.

Definition item_account (id price declared_length : Z) (uri : string) : Buffer :=
  discriminator ++ le_bytes 8 id ++ le_bytes 8 price
    ++ le_bytes 4 declared_length ++ list_byte_of_string uri.

Definition history_account (user : PublicKey) (declared_count : Z)
  (records : list (Z * Z)) : Buffer :=
  discriminator ++ toBuffer user ++ le_bytes 4 declared_count
    ++ flat_map (fun r => le_bytes 8 (fst r) ++ le_bytes 8 (snd r)) records.

(** A world in which the shop exists, item 1 has the given account data,
    the buyer holds [balance] and the history account is [history]. *)
Definition world (item : Buffer) (balance : JS.number) (history : option Buffer) : Env :=
  {| getAccountInfo := fun _ k =>
       if equals k shopPDA then ok (Some shop_account)
       else if equals k itemPDA then ok (Some item)
       else if equals k historyPDA then ok history
       else ok None;
     getBalance := fun _ _ => ok balance;
     getLatestBlockhash := fun _ => ok "blockhash"%string;
     getGenesisHash := fun _ _ => ok "genesis"%string;
     signTransaction := fun _ tx => ok tx;
     sendRawTransaction := fun _ _ => ok "signature"%string;
     confirmTransaction := fun _ _ => ok tt;
     sendAndConfirmTransaction := fun _ _ => ok "signature"%string;
     Date_now := fun _ => JS.Number 1700000000000 |}.

(** The metadata URI of the end-to-end scenario. *)
Definition uri : string := "image:https://x/y.png".

(** A world for the network banner: the live connection answers [live],
    the configured endpoint (asked at the second action) answers
    [expected], and [others] gives the answer of every later probe. *)
Definition network_world (live expected : string) (others : string -> result string) : Env :=
  {| getAccountInfo := fun _ _ => ok None;
     getBalance := fun _ _ => ok (JS.Number 0);
     getLatestBlockhash := fun _ => ok "blockhash"%string;
     getGenesisHash := fun t endpoint =>
       match t with
       | O => ok live
       | S O => ok expected
       | _ => others endpoint
       end;
     signTransaction := fun _ tx => ok tx;
     sendRawTransaction := fun _ _ => ok "signature"%string;
     confirmTransaction := fun _ _ => ok tt;
     sendAndConfirmTransaction := fun _ _ => ok "signature"%string;
     Date_now := fun _ => JS.Number 0 |}.

(** The item of the end-to-end scenario: id 1, price 1_000_000_000. *)
Definition scenario_item : Buffer := item_account 1 1000000000 21 uri.

(** An item whose declared URI length (10) exceeds the 3 bytes present. *)
Definition truncated_item : Buffer := item_account 1 1000000000 10 "abc".

(** An item priced at 2^53 + 1 lamports. *)
Definition pricey_item : Buffer := item_account 1 9007199254740993 21 uri.

(** A history of the buyer with one purchase, a history that declares two
    records and holds one, and a history of somebody else. *)
Definition buyer_history : Buffer := history_account buyer 1 [(2, 1600000000)].
Definition short_history : Buffer := history_account buyer 2 [(2, 1600000000)].
Definition foreign_history : Buffer := history_account stranger 1 [(2, 1600000000)].

Definition fresh_world : Env := world scenario_item (JS.Number 2000000000) None.
Definition returning_world : Env :=
  world scenario_item (JS.Number 2000000000) (Some buyer_history).
Definition exact_world : Env := world scenario_item (JS.Number 1000000000) None.
Definition poor_world : Env := world scenario_item (JS.Number 999999999) None.
Definition rounding_world : Env := world pricey_item (JS.Number 9007199254740992) None.
Definition short_history_world : Env :=
  world scenario_item (JS.Number 2000000000) (Some short_history).
Definition foreign_world : Env :=
  world scenario_item (JS.Number 2000000000) (Some foreign_history).

(** The transaction [handlePurchase] hands to the wallet for a buyer whose
    history account does or does not exist. *)
Definition purchase_tx (historyExists : bool) : Transaction :=
  {| instructions :=
       [ SetComputeUnitLimit 1000000;
         TransactionInstruction
           (purchase_keys buyer shopPDA itemPDA admin historyPDA)
           programId
           (Buffer_from_array
              (INSTRUCTION_DISCRIMINATORS
                 (if historyExists then subsequentPurchase else firstPurchase))) ];
     recentBlockhash := Some "blockhash"%string;
     feePayer := Some buyer |}.

(** The transaction [purchaseItem] sends in the same two situations. *)
Definition script_tx (historyExists : bool) : Transaction :=
  {| instructions :=
       [ SetComputeUnitLimit 1000000;
         TransactionInstruction
           (script_purchase_keys admin buyer shopPDA itemPDA historyPDA)
           programId
           (coder_instruction_encode rt
              (if historyExists then "subsequentPurchase" else "firstPurchase")%string) ];
     recentBlockhash := None;
     feePayer := None |}.

(** The wallet is on Solana devnet while the application expects Sonic
    testnet; the Sonic mainnet endpoint is unreachable. *)
Definition devnet_world : Env :=
  network_world "devnet-genesis" "sonic-testnet-genesis"
    (fun endpoint =>
       if String.eqb endpoint "https://api.devnet.solana.com" then ok "devnet-genesis"%string
       else if String.eqb endpoint "https://api.mainnet-alpha.sonic.game"
            then throw (External "fetch failed")
            else ok "another-genesis"%string).

(** The metadata file of item 1. *)
Definition metadata : ItemMetadata :=
  {| md_id := JS.Number 1; md_price := JS.Number 1000000000;
     md_image_url := Some "https://x/y.png"%string |}.

(** The same world with no account at [k], and with a node that fails with
    [e] when asked for the account at [k]. *)
Definition without (k : PublicKey) (w : Env) : Env :=
  {| getAccountInfo := fun t a => if equals a k then ok None else getAccountInfo w t a;
     getBalance := getBalance w;
     getLatestBlockhash := getLatestBlockhash w;
     getGenesisHash := getGenesisHash w;
     signTransaction := signTransaction w;
     sendRawTransaction := sendRawTransaction w;
     confirmTransaction := confirmTransaction w;
     sendAndConfirmTransaction := sendAndConfirmTransaction w;
     Date_now := Date_now w |}.

Definition failing_at (k : PublicKey) (e : exn) (w : Env) : Env :=
  {| getAccountInfo := fun t a => if equals a k then throw e else getAccountInfo w t a;
     getBalance := getBalance w;
     getLatestBlockhash := getLatestBlockhash w;
     getGenesisHash := getGenesisHash w;
     signTransaction := signTransaction w;
     sendRawTransaction := sendRawTransaction w;
     confirmTransaction := confirmTransaction w;
     sendAndConfirmTransaction := sendAndConfirmTransaction w;
     Date_now := Date_now w |}.

(** The same world in which the node rejects every transaction. *)
Definition rejecting (e : exn) (w : Env) : Env :=
  {| getAccountInfo := getAccountInfo w;
     getBalance := getBalance w;
     getLatestBlockhash := getLatestBlockhash w;
     getGenesisHash := getGenesisHash w;
     signTransaction := signTransaction w;
     sendRawTransaction := fun _ _ => throw e;
     confirmTransaction := confirmTransaction w;
     sendAndConfirmTransaction := fun _ _ => throw e;
     Date_now := Date_now w |}.

(** A wallet that is not connected, and a wallet that cannot sign. *)
Definition no_wallet : Wallet :=
  {| connected := false; publicKey := None; has_signTransaction := true |}.
Definition view_only_wallet : Wallet :=
  {| connected := true; publicKey := Some buyer; has_signTransaction := false |}.

(** The item of the end-to-end scenario in an account of 228 bytes. *)
Definition padded_item : Buffer := scenario_item ++ repeat x00 179.


(** A world whose nodes answer the same genesis hash at all times: the
    wallet's node and the Solana devnet endpoint are on devnet, the
    configured endpoint is on Sonic testnet. *)
Definition steady_network_world : Env :=
  network_world "devnet-genesis" "sonic-testnet-genesis"
    (fun endpoint =>
       if String.eqb endpoint "https://api.devnet.solana.com" then ok "devnet-genesis"%string
       else if String.eqb endpoint "https://api.testnet.sonic.game"
            then ok "sonic-testnet-genesis"%string
            else ok "another-genesis"%string).


(** A world in which no node answers. *)
Definition unreachable_world : Env :=
  {| getAccountInfo := fun _ _ => throw (External "fetch failed");
     getBalance := fun _ _ => throw (External "fetch failed");
     getLatestBlockhash := fun _ => throw (External "fetch failed");
     getGenesisHash := fun _ _ => throw (External "fetch failed");
     signTransaction := fun _ tx => ok tx;
     sendRawTransaction := fun _ _ => throw (External "fetch failed");
     confirmTransaction := fun _ _ => throw (External "fetch failed");
     sendAndConfirmTransaction := fun _ _ => throw (External "fetch failed");
     Date_now := fun _ => JS.Number 1700000000000 |}.


End Sample.

(** The binary64 value that represents a positive integer of at most 53
    bits exactly: the significand is the integer shifted up to 53 bits. *)
Definition exact_number (p : positive) : JS.number :=
  match 53 - Zpos (digits2_pos p) with
  | Zpos k => S754_finite false (Pos.iter xO p k) (- Zpos k)
  | _ => S754_finite false p 0
  end.

(** ** Running the monad in proofs *)

Ltac unfold_monad :=
  unfold actions, run, try_catch, finally, attempt, bind, lift, call, emit, ret, raise in *.

Ltac simp H :=
  cbv beta iota delta [ok throw] in H;
  cbn [app List.length fst snd negb add instructions recentBlockhash feePayer
       new_Transaction] in H.

Ltac simp_goal :=
  cbv beta iota delta [ok throw];
  cbn [app List.length fst snd negb add instructions recentBlockhash feePayer
       new_Transaction].

Ltac step_goal H := rewrite H; simp_goal.

(** The action sought is none of the actions listed in [H]. *)
Ltac absent H :=
  simp H; cbn [In] in H;
  repeat (destruct H as [H | H]; [discriminate H | ]); try contradiction.

(** * Facts

    ** Numbers *)

(** A positive integer of [d] binary digits lies between [2^(d-1)] and [2^d]. *)
Lemma digits2_pos_bounds (p : positive) :
  2 ^ (Zpos (digits2_pos p) - 1) <= Zpos p < 2 ^ Zpos (digits2_pos p).
Proof.
  induction p as [p IH | p IH | ]; cbn [digits2_pos].
  - rewrite Pos2Z.inj_succ. replace (Z.succ (Zpos (digits2_pos p)) - 1) with (Z.succ (Zpos (digits2_pos p) - 1)) by lia.
    rewrite !Z.pow_succ_r by lia. lia.
  - rewrite Pos2Z.inj_succ. replace (Z.succ (Zpos (digits2_pos p)) - 1) with (Z.succ (Zpos (digits2_pos p) - 1)) by lia.
    rewrite !Z.pow_succ_r by lia. lia.
  - cbn. lia.
Qed.

Lemma iter_xO_value (p k : positive) : Zpos (Pos.iter xO p k) = Zpos p * 2 ^ Zpos k.
Proof.
  induction k as [ | k IH] using Pos.peano_ind.
  - cbn. lia.
  - rewrite Pos.iter_succ, Pos2Z.inj_succ, Z.pow_succ_r by lia.
    rewrite Pos2Z.inj_xO, IH. lia.
Qed.

Lemma digits2_pos_iter_xO (p k : positive) :
  digits2_pos (Pos.iter xO p k) = (digits2_pos p + k)%positive.
Proof.
  induction k as [ | k IH] using Pos.peano_ind.
  - cbn. lia.
  - rewrite Pos.iter_succ. cbn [digits2_pos]. rewrite IH. lia.
Qed.

Lemma binary_round_aux_exact (m : positive) (e : Z) :
  Zpos (digits2_pos m) = 53 -> -1021 <= e <= 971 ->
  binary_round_aux 53 1024 false (Zpos m) e loc_Exact = S754_finite false m e.
Proof.
  intros Hd He.
  unfold binary_round_aux, shr_fexp, shr_record_of_loc.
  cbn [Zdigits2]. rewrite Hd.
  assert (Hf : fexp 53 1024 (53 + e) - e = 0).
  { unfold fexp, emin. lia. }
  rewrite Hf. cbn [shr shr_m loc_of_shr_record round_nearest_even Zdigits2].
  rewrite Hd, Hf. cbn [shr shr_m].
  replace (e <=? 1024 - 53) with true by (symmetry; apply Z.leb_le; lia).
  reflexivity.
Qed.

(** An integer of at most 53 bits converts without rounding. *)
Lemma Number_exact (p : positive) :
  Zpos (digits2_pos p) <= 53 -> JS.Number (Zpos p) = exact_number p.
Proof.
  intros Hd.
  unfold JS.Number, binary_normalize, binary_round, exact_number, JS.prec, JS.emax.
  assert (Hf : fexp 53 1024 (Zpos (digits2_pos p) + 0) = Zpos (digits2_pos p) - 53).
  { unfold fexp, emin. lia. }
  rewrite Hf. unfold shl_align.
  replace (Zpos (digits2_pos p) - 53 - 0) with (- (53 - Zpos (digits2_pos p))) by lia.
  destruct (53 - Zpos (digits2_pos p)) as [ | k | k] eqn:Hk; cbn [Z.opp].
  - apply binary_round_aux_exact; lia.
  - replace (Zpos (digits2_pos p) - 53) with (- Zpos k) by lia.
    apply binary_round_aux_exact.
    + rewrite digits2_pos_iter_xO. lia.
    + lia.
  - lia.
Qed.

Lemma digits2_pos_53 (p : positive) : Zpos p < 2 ^ 53 -> Zpos (digits2_pos p) <= 53.
Proof.
  intros H. pose proof (digits2_pos_bounds p) as [Hlo _].
  destruct (Z_le_gt_dec (Zpos (digits2_pos p)) 53) as [ | Hgt]; [assumption | exfalso].
  assert (2 ^ 53 <= 2 ^ (Zpos (digits2_pos p) - 1)) by (apply Z.pow_le_mono_r; lia).
  lia.
Qed.

Lemma BigInt_exact_number (p : positive) :
  Zpos (digits2_pos p) <= 53 -> JS.BigInt (exact_number p) = ok (Zpos p).
Proof.
  intros Hd. unfold exact_number.
  destruct (53 - Zpos (digits2_pos p)) as [ | k | k] eqn:Hk.
  - unfold JS.BigInt. cbn [Z.leb Z.compare]. unfold ok. f_equal. lia.
  - unfold JS.BigInt. cbn [Z.leb Z.compare Z.opp].
    rewrite iter_xO_value, Z.mod_mul, Z.eqb_refl, Z.div_mul by (apply Z.pow_nonzero; lia).
    reflexivity.
  - lia.
Qed.

(** Below 2^53, a BigInt survives the round trip through a number. *)
Lemma BigInt_Number (z : Z) : 0 <= z < 2 ^ 53 -> JS.BigInt (JS.Number z) = ok z.
Proof.
  intros Hz. destruct z as [ | p | p]; [reflexivity | | lia].
  rewrite Number_exact by (apply digits2_pos_53; lia).
  apply BigInt_exact_number, digits2_pos_53; lia.
Qed.

Lemma digits2_pos_lt (p q : positive) :
  (digits2_pos p < digits2_pos q)%positive -> (p < q)%positive.
Proof.
  intros H. pose proof (digits2_pos_bounds p) as [_ Hp].
  pose proof (digits2_pos_bounds q) as [Hq _].
  assert (2 ^ Zpos (digits2_pos p) <= 2 ^ (Zpos (digits2_pos q) - 1))
    by (apply Z.pow_le_mono_r; lia).
  lia.
Qed.

Lemma lt_exact_number (p q : positive) :
  Zpos (digits2_pos p) <= 53 -> Zpos (digits2_pos q) <= 53 ->
  JS.lt (exact_number p) (exact_number q) = (Zpos p <? Zpos q).
Proof.
  intros Hp Hq.
  destruct (Pos.compare_spec (digits2_pos p) (digits2_pos q)) as [Heq | Hlt | Hgt].
  - unfold exact_number. rewrite Heq.
    destruct (53 - Zpos (digits2_pos q)) as [ | k | k] eqn:Hk; [ | | lia];
      unfold JS.lt, SFltb, SFcompare; rewrite Z.compare_refl;
      change (Pos.compare_cont Eq ?a ?b) with (Pos.compare a b).
    + unfold Z.ltb. cbn [Z.compare]. reflexivity.
    + assert (H : (Pos.iter xO p k ?= Pos.iter xO q k)%positive = (p ?= q)%positive).
      { change ((Zpos (Pos.iter xO p k) ?= Zpos (Pos.iter xO q k)) = (Zpos p ?= Zpos q)).
        rewrite !iter_xO_value.
        assert (Hc : 0 < 2 ^ Zpos k) by (apply Z.pow_pos_nonneg; lia).
        destruct (Z.compare_spec (Zpos p) (Zpos q)) as [He | Hl | Hg].
        - rewrite He. apply Z.compare_refl.
        - apply Z.compare_lt_iff. nia.
        - apply Z.compare_gt_iff. nia. }
      rewrite H. unfold Z.ltb. cbn [Z.compare]. reflexivity.
  - assert (Hlt' : (p < q)%positive) by (apply digits2_pos_lt; assumption).
    replace (Zpos p <? Zpos q) with true by (symmetry; apply Z.ltb_lt; lia).
    unfold exact_number.
    destruct (53 - Zpos (digits2_pos p)) as [ | k | k] eqn:Hk; [ | | lia];
      destruct (53 - Zpos (digits2_pos q)) as [ | l | l] eqn:Hl; try lia;
      unfold JS.lt, SFltb, SFcompare;
      match goal with
      | |- context [Z.compare ?a ?b] =>
          replace (Z.compare a b) with Lt by (symmetry; apply Z.compare_lt_iff; lia)
      end; reflexivity.
  - assert (Hgt' : (q < p)%positive) by (apply digits2_pos_lt; assumption).
    replace (Zpos p <? Zpos q) with false by (symmetry; apply Z.ltb_ge; lia).
    unfold exact_number.
    destruct (53 - Zpos (digits2_pos p)) as [ | k | k] eqn:Hk; [ | | lia];
      destruct (53 - Zpos (digits2_pos q)) as [ | l | l] eqn:Hl; try lia;
      unfold JS.lt, SFltb, SFcompare;
      match goal with
      | |- context [Z.compare ?a ?b] =>
          replace (Z.compare a b) with Gt by (symmetry; apply Z.compare_gt_iff; lia)
      end; reflexivity.
Qed.

(** Below 2^53, [<] on numbers is [<] on the integers they come from. *)
Lemma lt_Number (a b : Z) :
  0 <= a < 2 ^ 53 -> 0 <= b < 2 ^ 53 ->
  JS.lt (JS.Number a) (JS.Number b) = (a <? b).
Proof.
  intros Ha Hb.
  destruct a as [ | p | p]; [ | | lia]; destruct b as [ | q | q]; try lia.
  - reflexivity.
  - rewrite (Number_exact q) by (apply digits2_pos_53; lia).
    unfold exact_number. destruct (53 - Zpos (digits2_pos q)); reflexivity.
  - rewrite (Number_exact p) by (apply digits2_pos_53; lia).
    unfold exact_number. destruct (53 - Zpos (digits2_pos p)); reflexivity.
  - rewrite (Number_exact p), (Number_exact q) by (apply digits2_pos_53; lia).
    apply lt_exact_number; apply digits2_pos_53; lia.
Qed.

Lemma lt_irrefl (x : JS.number) : JS.lt x x = false.
Proof.
  unfold JS.lt, SFltb, SFcompare.
  destruct x as [s | s | | s m e]; try destruct s; try reflexivity;
    rewrite Z.compare_refl;
    change (Pos.compare_cont Eq m m) with (Pos.compare m m);
    rewrite Pos.compare_refl; reflexivity.
Qed.

(** ** Bytes *)

Lemma Z_of_byte_range (b : byte) : 0 <= Z_of_byte b < 256.
Proof.
  unfold Z_of_byte. pose proof (Byte.to_N_bounded b). lia.
Qed.

Lemma Z_of_byte_of_Z (z : Z) : Z_of_byte (byte_of_Z z) = z mod 256.
Proof.
  unfold byte_of_Z, Z_of_byte.
  assert (Hr : 0 <= z mod 256 < 256) by (apply Z.mod_pos_bound; lia).
  destruct (Byte.of_N (Z.to_N (z mod 256))) as [b | ] eqn:Hb.
  - apply Byte.to_of_N in Hb. rewrite Hb. lia.
  - apply Byte.of_N_None_iff in Hb. lia.
Qed.

Lemma byte_of_Z_of_byte (b : byte) : byte_of_Z (Z_of_byte b) = b.
Proof.
  unfold byte_of_Z. rewrite Z.mod_small by apply Z_of_byte_range.
  unfold Z_of_byte. rewrite N2Z.id, Byte.of_to_N. reflexivity.
Qed.

Lemma length_le_bytes (n : nat) (z : Z) : List.length (le_bytes n z) = n.
Proof.
  revert z. induction n as [ | n IH]; intros z; cbn [le_bytes List.length]; [ | rewrite IH]; reflexivity.
Qed.

(** Little-endian encoding and decoding are inverse to each other. *)
Lemma le_value_le_bytes (n : nat) (z : Z) :
  0 <= z < 256 ^ Z.of_nat n -> le_value (le_bytes n z) = z.
Proof.
  revert z. induction n as [ | n IH]; intros z Hz.
  - cbn in *. lia.
  - cbn [le_bytes le_value]. rewrite Z_of_byte_of_Z.
    rewrite Nat2Z.inj_succ, Z.pow_succ_r in Hz by lia.
    rewrite IH.
    + pose proof (Z.div_mod z 256). lia.
    + split; [apply Z.div_pos; lia | apply Z.div_lt_upper_bound; lia].
Qed.

Lemma le_value_range (bs : Buffer) : 0 <= le_value bs < 256 ^ Z.of_nat (List.length bs).
Proof.
  induction bs as [ | b bs IH]; cbn [le_value List.length].
  - cbn. lia.
  - rewrite Nat2Z.inj_succ, Z.pow_succ_r by lia.
    pose proof (Z_of_byte_range b). lia.
Qed.

Lemma le_bytes_le_value (bs : Buffer) : le_bytes (List.length bs) (le_value bs) = bs.
Proof.
  induction bs as [ | b bs IH]; cbn [le_value List.length le_bytes]; [reflexivity | ].
  pose proof (Z_of_byte_range b) as Hb.
  f_equal.
  - rewrite <- (byte_of_Z_of_byte b) at 2. unfold byte_of_Z.
    replace ((Z_of_byte b + 256 * le_value bs) mod 256) with (Z_of_byte b mod 256); [reflexivity | ].
    rewrite (Z.mod_small (Z_of_byte b)) by lia.
    apply Z.mod_unique_pos with (q := le_value bs); lia.
  - replace ((Z_of_byte b + 256 * le_value bs) / 256) with (le_value bs); [exact IH | ].
    apply Z.div_unique_pos with (r := Z_of_byte b); lia.
Qed.

Lemma be_value_app (a : Buffer) (b : byte) :
  be_value (a ++ [b]) = be_value a * 256 + Z_of_byte b.
Proof.
  unfold be_value. rewrite fold_left_app. reflexivity.
Qed.

Lemma be_value_rev (bs : Buffer) : be_value (rev bs) = le_value bs.
Proof.
  induction bs as [ | b bs IH]; [reflexivity | ].
  cbn [rev le_value]. rewrite be_value_app, IH. lia.
Qed.

Lemma be_value_range (bs : Buffer) : 0 <= be_value bs < 256 ^ Z.of_nat (List.length bs).
Proof.
  pose proof (le_value_range (rev bs)) as H.
  rewrite <- be_value_rev, rev_involutive, length_rev in H. exact H.
Qed.

(** A key built from 32 bytes gives those bytes back. *)
Lemma toBuffer_be_value (bs : Buffer) :
  List.length bs = 32%nat -> toBuffer {| bn := be_value bs |} = bs.
Proof.
  intros Hl. unfold toBuffer. cbn [bn].
  rewrite <- (rev_involutive bs) at 1. rewrite be_value_rev.
  rewrite <- Hl, <- length_rev, le_bytes_le_value. apply rev_involutive.
Qed.

Lemma length_slice (data : Buffer) (start stop : nat) :
  (stop <= List.length data)%nat -> List.length (Buf.slice data start stop) = (stop - start)%nat.
Proof.
  intros H. unfold Buf.slice. rewrite length_firstn, length_skipn. lia.
Qed.

Lemma slice_app_middle (a b c : Buffer) :
  Buf.slice (a ++ b ++ c) (List.length a) (List.length a + List.length b) = b.
Proof.
  unfold Buf.slice. rewrite skipn_app, skipn_all, Nat.sub_diag. cbn [skipn app].
  replace (List.length a + List.length b - List.length a)%nat with (List.length b + 0)%nat by lia.
  rewrite firstn_app_2. cbn. apply app_nil_r.
Qed.

Lemma bytes_at_app_middle (a b c : Buffer) :
  Buf.bytes_at (a ++ b ++ c) (List.length a) (List.length b) = ok b.
Proof.
  unfold Buf.bytes_at. rewrite !length_app.
  replace (_ <=? _)%nat with true by (symmetry; apply Nat.leb_le; lia).
  rewrite slice_app_middle. reflexivity.
Qed.

(** ** Decoding *)

(** Reading the bytes that were laid out at an offset. *)
Lemma bytes_at_middle (a b c : Buffer) (offset n : nat) :
  offset = List.length a -> n = List.length b ->
  Buf.bytes_at (a ++ b ++ c) offset n = ok b.
Proof. intros -> ->. apply bytes_at_app_middle. Qed.

Section ItemCodec.
Variable rt : Runtime.

(** [decode_item] on the item layout; the URI is whatever part of the
    declared length is present. *)
Lemma decode_item_layout (disc body : Buffer) (idz pz n : Z) :
  List.length disc = 8%nat ->
  0 <= idz < 2 ^ 64 -> 0 <= pz < 2 ^ 64 -> 0 <= n < 2 ^ 32 ->
  decode_item rt (disc ++ le_bytes 8 idz ++ le_bytes 8 pz ++ le_bytes 4 n ++ body)
  = ok {| id := JS.Number idz;
          price := JS.div (JS.Number pz) LAMPORTS_PER_SOL;
          metadataUri := toString_utf8 rt (firstn (Z.to_nat n) body) |}.
Proof.
  intros Hd Hi Hp Hn.
  unfold decode_item, Buf.readBigUInt64LE, Buf.readUInt32LE.
  assert (H1 : Buf.bytes_at (disc ++ le_bytes 8 idz ++ le_bytes 8 pz ++ le_bytes 4 n ++ body) 8 8
               = ok (le_bytes 8 idz)).
  { apply bytes_at_middle; [lia | now rewrite length_le_bytes]. }
  assert (H2 : Buf.bytes_at (disc ++ le_bytes 8 idz ++ le_bytes 8 pz ++ le_bytes 4 n ++ body) (8 + 8) 8
               = ok (le_bytes 8 pz)).
  { rewrite (app_assoc disc).
    apply bytes_at_middle; rewrite ?length_app, ?length_le_bytes; lia. }
  assert (H3 : Buf.bytes_at (disc ++ le_bytes 8 idz ++ le_bytes 8 pz ++ le_bytes 4 n ++ body) (8 + 8 + 8) 4
               = ok (le_bytes 4 n)).
  { rewrite (app_assoc disc), (app_assoc (disc ++ _)).
    apply bytes_at_middle; rewrite ?length_app, ?length_le_bytes; lia. }
  rewrite H1. cbn [rbind ok]. rewrite H2. cbn [rbind ok]. rewrite H3. cbn [rbind ok].
  assert (E8 : 256 ^ Z.of_nat 8 = 2 ^ 64) by reflexivity.
  assert (E4 : 256 ^ Z.of_nat 4 = 2 ^ 32) by reflexivity.
  rewrite (le_value_le_bytes 8 idz), (le_value_le_bytes 8 pz) by (rewrite E8; exact Hi || exact Hp).
  rewrite (le_value_le_bytes 4 n) by (rewrite E4; exact Hn).
  unfold ok. do 2 f_equal.
  unfold Buf.slice.
  rewrite (app_assoc disc), (app_assoc (disc ++ _)), (app_assoc ((disc ++ _) ++ _)).
  rewrite skipn_app, skipn_all2 by (rewrite !length_app, !length_le_bytes; lia).
  rewrite !length_app, !length_le_bytes, Hd. cbn [app].
  replace (8 + 8 + 8 + 4 - (8 + 8 + 8 + 4))%nat with 0%nat by lia. cbn [skipn].
  clear. do 2 f_equal. lia.
Qed.

Lemma decode_item_short (data : Buffer) :
  (List.length data < 28)%nat -> decode_item rt data = throw RangeError.
Proof.
  intros H. unfold decode_item, Buf.readBigUInt64LE, Buf.readUInt32LE, Buf.bytes_at.
  destruct (8 + 8 <=? List.length data)%nat eqn:H1; [ | reflexivity].
  cbn [rbind ok].
  destruct (8 + 8 + 8 <=? List.length data)%nat eqn:H2; [ | reflexivity].
  cbn [rbind ok].
  destruct (8 + 8 + 8 + 4 <=? List.length data)%nat eqn:H3; [ | reflexivity].
  apply Nat.leb_le in H3. lia.
Qed.

Lemma decode_item_total (data : Buffer) :
  (28 <= List.length data)%nat -> exists item, decode_item rt data = ok item.
Proof.
  intros H. unfold decode_item, Buf.readBigUInt64LE, Buf.readUInt32LE, Buf.bytes_at.
  replace (8 + 8 <=? List.length data)%nat with true by (symmetry; apply Nat.leb_le; lia).
  cbn [rbind ok].
  replace (8 + 8 + 8 <=? List.length data)%nat with true by (symmetry; apply Nat.leb_le; lia).
  cbn [rbind ok].
  replace (8 + 8 + 8 + 4 <=? List.length data)%nat with true by (symmetry; apply Nat.leb_le; lia).
  cbn [rbind ok]. eexists. reflexivity.
Qed.

End ItemCodec.

(** The record loop throws as soon as a declared record is missing. *)
Lemma read_purchases_short (data : Buffer) (n offset : nat) :
  (offset <= List.length data < offset + 16 * n)%nat ->
  read_purchases data n offset = throw RangeError.
Proof.
  revert offset. induction n as [ | n IH]; intros offset H; [lia | ].
  cbn [read_purchases]. unfold Buf.readBigUInt64LE, Buf.readBigInt64LE, Buf.bytes_at.
  destruct (offset + 8 <=? List.length data)%nat eqn:H1; [ | reflexivity].
  cbn [rbind ok].
  destruct (offset + 8 + 8 <=? List.length data)%nat eqn:H2; [ | reflexivity].
  cbn [rbind ok].
  apply Nat.leb_le in H2. rewrite IH by lia. reflexivity.
Qed.

Lemma length_slice_le (data : Buffer) (start stop : nat) :
  (List.length (Buf.slice data start stop) <= stop - start)%nat.
Proof.
  unfold Buf.slice. rewrite length_firstn. lia.
Qed.

(** A slice of at most 32 bytes is always accepted as a key. *)
Lemma new_PublicKey_slice (data : Buffer) :
  new_PublicKey (Buf.slice data 8 40) = ok {| bn := be_value (Buf.slice data 8 40) |}.
Proof.
  unfold new_PublicKey.
  pose proof (be_value_range (Buf.slice data 8 40)) as [_ Hhi].
  pose proof (length_slice_le data 8 40) as Hl.
  assert (256 ^ Z.of_nat (List.length (Buf.slice data 8 40)) <= 256 ^ 32)
    by (apply Z.pow_le_mono_r; lia).
  replace (be_value (Buf.slice data 8 40) <? 2 ^ 256) with true; [reflexivity | ].
  symmetry. apply Z.ltb_lt. change (2 ^ 256) with (256 ^ 32). lia.
Qed.

Lemma decode_purchase_history_short (buyer : PublicKey) (data : Buffer) (n : Z) :
  be_value (Buf.slice data 8 40) = bn buyer ->
  Buf.readUInt32LE data 40 = ok n ->
  (List.length data < 44 + 16 * Z.to_nat n)%nat ->
  decode_purchase_history buyer data = throw RangeError.
Proof.
  intros Hu Hn Hs. unfold decode_purchase_history.
  rewrite new_PublicKey_slice. cbn [rbind ok].
  unfold equals. cbn [bn]. rewrite Hu, Z.eqb_refl. cbn [negb].
  rewrite Hn. cbn [rbind ok]. apply read_purchases_short.
  split; [ | exact Hs].
  unfold Buf.readUInt32LE, Buf.bytes_at in Hn.
  destruct (40 + 4 <=? List.length data)%nat eqn:H4; [ | discriminate].
  apply Nat.leb_le in H4. lia.
Qed.

Lemma decode_purchase_history_foreign (buyer : PublicKey) (data : Buffer) :
  be_value (Buf.slice data 8 40) <> bn buyer ->
  decode_purchase_history buyer data = ok [].
Proof.
  intros Hu. unfold decode_purchase_history.
  rewrite new_PublicKey_slice. cbn [rbind ok].
  unfold equals. cbn [bn].
  replace (_ =? _) with false by (symmetry; apply Z.eqb_neq; exact Hu).
  reflexivity.
Qed.

(** ** The layouts read back *)

Lemma slice_middle (a b c : Buffer) (start stop : nat) :
  start = List.length a -> stop = (List.length a + List.length b)%nat ->
  Buf.slice (a ++ b ++ c) start stop = b.
Proof. intros -> ->. apply slice_app_middle. Qed.

Lemma length_toBuffer (k : PublicKey) : List.length (toBuffer k) = 32%nat.
Proof. unfold toBuffer. rewrite length_rev. apply length_le_bytes. Qed.

Lemma be_value_toBuffer (k : PublicKey) : 0 <= bn k < 2 ^ 256 -> be_value (toBuffer k) = bn k.
Proof.
  intros H. unfold toBuffer. rewrite be_value_rev. apply le_value_le_bytes.
  change (256 ^ Z.of_nat 32) with (2 ^ 256). exact H.
Qed.

Lemma readBigInt64LE_signed (v : Z) (a c : Buffer) (offset : nat) :
  - 2 ^ 63 <= v < 2 ^ 63 -> offset = List.length a ->
  Buf.readBigInt64LE (a ++ le_bytes 8 (v mod 2 ^ 64) ++ c) offset = ok v.
Proof.
  intros Hv ->. unfold Buf.readBigInt64LE.
  rewrite bytes_at_middle with (b := le_bytes 8 (v mod 2 ^ 64))
    by (rewrite ?length_le_bytes; reflexivity).
  cbn [rbind ok].
  assert (E8 : 256 ^ Z.of_nat 8 = 2 ^ 64) by reflexivity.
  rewrite le_value_le_bytes by (rewrite E8; apply Z.mod_pos_bound; lia).
  unfold ok. f_equal.
  destruct (Z_lt_ge_dec v 0) as [Hneg | Hpos].
  - replace (v mod 2 ^ 64) with (v + 2 ^ 64)
      by (apply Z.mod_unique with (q := -1); lia).
    replace (v + 2 ^ 64 <? 2 ^ 63) with false by (symmetry; apply Z.ltb_ge; lia). lia.
  - rewrite Z.mod_small by lia.
    replace (v <? 2 ^ 63) with true by (symmetry; apply Z.ltb_lt; lia). reflexivity.
Qed.

Lemma readBigUInt64LE_middle (v : Z) (a c : Buffer) (offset : nat) :
  0 <= v < 2 ^ 64 -> offset = List.length a ->
  Buf.readBigUInt64LE (a ++ le_bytes 8 v ++ c) offset = ok v.
Proof.
  intros Hv ->. unfold Buf.readBigUInt64LE.
  rewrite bytes_at_middle with (b := le_bytes 8 v) by (rewrite ?length_le_bytes; reflexivity).
  cbn [rbind ok].
  assert (E8 : 256 ^ Z.of_nat 8 = 2 ^ 64) by reflexivity.
  rewrite le_value_le_bytes by (rewrite E8; exact Hv). reflexivity.
Qed.

Lemma read_purchases_layout (records : list (Z * Z)) (prefix suffix : Buffer) :
  Forall record_in_range records ->
  read_purchases (prefix ++ flat_map encode_record records ++ suffix)
                 (List.length records) (List.length prefix)
  = ok (map shown records).
Proof.
  revert prefix. induction records as [ | [item ts] records IH]; intros prefix Hr;
    [reflexivity | ].
  inversion Hr as [ | r rs [Hitem Hts] Hrest]; subst. cbn [fst snd] in Hitem, Hts.
  cbn [List.length read_purchases flat_map]. unfold encode_record in *. cbn [fst snd].
  rewrite <- !app_assoc.
  rewrite readBigUInt64LE_middle by (assumption || reflexivity). cbn [rbind ok].
  rewrite (app_assoc prefix).
  rewrite readBigInt64LE_signed
    by (assumption || (rewrite length_app, length_le_bytes; reflexivity)).
  cbn [rbind ok].
  rewrite (app_assoc (prefix ++ _)).
  replace (List.length prefix + 16)%nat
    with (List.length ((prefix ++ le_bytes 8 item) ++ le_bytes 8 (ts mod 2 ^ 64)))
    by (rewrite !length_app, !length_le_bytes; lia).
  rewrite IH by assumption. reflexivity.
Qed.

Lemma decode_purchase_history_layout (discriminator : Buffer) (user : PublicKey)
  (records : list (Z * Z)) :
  List.length discriminator = 8%nat ->
  0 <= bn user < 2 ^ 256 ->
  Z.of_nat (List.length records) < 2 ^ 32 ->
  Forall record_in_range records ->
  decode_purchase_history user (encode_purchase_history discriminator user records)
  = ok (map shown records).
Proof.
  intros Hd Hu Hn Hr. unfold decode_purchase_history, encode_purchase_history.
  rewrite new_PublicKey_slice. cbn [rbind ok].
  assert (Hslice :
            Buf.slice (discriminator ++ toBuffer user
                         ++ le_bytes 4 (Z.of_nat (List.length records))
                         ++ flat_map encode_record records) 8 40
            = toBuffer user).
  { apply slice_middle; rewrite ?length_toBuffer, Hd; reflexivity. }
  rewrite Hslice. unfold equals. cbn [bn].
  rewrite be_value_toBuffer, Z.eqb_refl by exact Hu. cbn [negb].
  unfold Buf.readUInt32LE.
  rewrite (app_assoc discriminator).
  rewrite bytes_at_middle with (b := le_bytes 4 (Z.of_nat (List.length records)))
    by (rewrite ?length_app, ?length_toBuffer, ?length_le_bytes, ?Hd; reflexivity).
  cbn [rbind ok].
  assert (E4 : 256 ^ Z.of_nat 4 = 2 ^ 32) by reflexivity.
  rewrite le_value_le_bytes by (rewrite E4; lia).
  rewrite Nat2Z.id.
  rewrite (app_assoc (discriminator ++ _)).
  replace 44%nat
    with (List.length ((discriminator ++ toBuffer user)
                         ++ le_bytes 4 (Z.of_nat (List.length records))))
    by (rewrite !length_app, length_toBuffer, length_le_bytes, Hd; reflexivity).
  rewrite <- (app_nil_r (flat_map encode_record records)).
  apply read_purchases_layout. exact Hr.
Qed.

Lemma decode_shop_admin (discriminator : Buffer) (admin : PublicKey) (item_count : Z) :
  List.length discriminator = 8%nat ->
  0 <= bn admin < 2 ^ 256 ->
  new_PublicKey (Buf.slice (encode_shop discriminator admin item_count) 8 40) = ok admin.
Proof.
  intros Hd Hu. rewrite new_PublicKey_slice. unfold encode_shop.
  assert (Hslice :
            Buf.slice (discriminator ++ toBuffer admin ++ le_bytes 8 item_count) 8 40
            = toBuffer admin).
  { apply slice_middle; rewrite ?length_toBuffer, Hd; reflexivity. }
  rewrite Hslice, be_value_toBuffer by exact Hu. destruct admin. reflexivity.
Qed.

Section ScriptDecoders.

Variable rt : Runtime.

Lemma slice_past_header (a b c d body : Buffer) (n : nat) :
  Buf.slice (a ++ b ++ c ++ d ++ body)
            (List.length a + List.length b + List.length c + List.length d)
            (List.length a + List.length b + List.length c + List.length d + n)
  = firstn n body.
Proof.
  unfold Buf.slice.
  rewrite (app_assoc a), (app_assoc (a ++ b)), (app_assoc ((a ++ b) ++ c)).
  assert (Hl : List.length (((a ++ b) ++ c) ++ d)
               = (List.length a + List.length b + List.length c + List.length d)%nat)
    by (rewrite !length_app; lia).
  rewrite <- Hl. rewrite skipn_app, skipn_all, Nat.sub_diag. cbn [skipn app].
  f_equal. lia.
Qed.

Lemma getItemDetails_parse_layout (disc body : Buffer) (idz pz n : Z) :
  List.length disc = 8%nat ->
  0 <= idz < 2 ^ 64 -> 0 <= pz < 2 ^ 64 -> 0 <= n < 2 ^ 32 ->
  getItemDetails_parse rt (disc ++ le_bytes 8 idz ++ le_bytes 8 pz ++ le_bytes 4 n ++ body)
  = ok {| id := JS.Number idz; price := JS.Number pz;
          metadataUri := toString_utf8 rt (firstn (Z.to_nat n) body) |}.
Proof.
  intros Hd Hi Hp Hn. unfold getItemDetails_parse.
  rewrite readBigUInt64LE_middle by (assumption || (symmetry; exact Hd)). cbn [rbind ok].
  rewrite (app_assoc disc).
  rewrite readBigUInt64LE_middle
    by (assumption || (rewrite length_app, length_le_bytes, Hd; reflexivity)).
  cbn [rbind ok].
  unfold Buf.readUInt32LE. rewrite (app_assoc (disc ++ _)).
  rewrite bytes_at_middle with (b := le_bytes 4 n)
    by (rewrite ?length_app, ?length_le_bytes, ?Hd; reflexivity).
  cbn [rbind ok].
  assert (E4 : 256 ^ Z.of_nat 4 = 2 ^ 32) by reflexivity.
  rewrite le_value_le_bytes by (rewrite E4; exact Hn).
  rewrite <- !app_assoc.
  pose proof (slice_past_header disc (le_bytes 8 idz) (le_bytes 8 pz) (le_bytes 4 n) body
                (Z.to_nat n)) as Hs.
  rewrite !length_le_bytes, Hd in Hs. cbn [Nat.add] in Hs. cbn [Nat.add].
  rewrite Hs. reflexivity.
Qed.

Lemma getItem_parse_layout (disc body : Buffer) (idz pz n : Z) :
  List.length disc = 8%nat ->
  0 <= idz < 2 ^ 64 -> 0 <= pz < 2 ^ 64 -> 0 <= n < 2 ^ 32 ->
  getItem_parse rt (disc ++ le_bytes 8 idz ++ le_bytes 8 pz ++ le_bytes 4 n ++ body)
  = ok {| id := JS.Number idz; price := JS.Number pz;
          metadataUri := toString_utf8 rt (firstn (Z.to_nat n) body) |}.
Proof.
  intros Hd Hi Hp Hn. unfold getItem_parse.
  rewrite skipn_app, skipn_all2, Hd, Nat.sub_diag by lia. cbn [skipn app].
  pose proof (readBigUInt64LE_middle idz [] (le_bytes 8 pz ++ le_bytes 4 n ++ body) 0
                Hi eq_refl) as Hid.
  cbn [app] in Hid. rewrite Hid. cbn [rbind ok].
  rewrite (readBigUInt64LE_middle pz (le_bytes 8 idz) (le_bytes 4 n ++ body) 8)
    by (assumption || (rewrite length_le_bytes; reflexivity)).
  cbn [rbind ok].
  unfold Buf.readUInt32LE. rewrite app_assoc.
  rewrite bytes_at_middle with (b := le_bytes 4 n)
    by (rewrite ?length_app, ?length_le_bytes; reflexivity).
  cbn [rbind ok].
  assert (E4 : 256 ^ Z.of_nat 4 = 2 ^ 32) by reflexivity.
  rewrite le_value_le_bytes by (rewrite E4; exact Hn).
  rewrite <- !app_assoc.
  pose proof (slice_past_header [] (le_bytes 8 idz) (le_bytes 8 pz) (le_bytes 4 n) body
                (Z.to_nat n)) as Hs.
  rewrite !length_le_bytes in Hs. cbn [Nat.add List.length app] in Hs. cbn [Nat.add].
  rewrite Hs. reflexivity.
Qed.

End ScriptDecoders.

(** ** The shop page, run *)

Section ShopPageFacts.

Variable rt : Runtime.
Variable env : Env.
Variable wallet : Wallet.
Variable SHOP_PROGRAM_ID : string.
Variables buyer programPubkey : PublicKey.

Hypothesis wallet_connected : connected wallet = true.
Hypothesis wallet_key : publicKey wallet = Some buyer.
Hypothesis program_key : PublicKey_of_base58 rt SHOP_PROGRAM_ID = ok programPubkey.

(** What [checkPurchaseHistory] does once the history account is read. *)
Lemma checkPurchaseHistory_run (historyPDA : PublicKey) (data : Buffer) (t : trace) :
  getHistoryPDA rt programPubkey buyer = ok historyPDA ->
  getAccountInfo env (List.length t) historyPDA = ok (Some data) ->
  checkPurchaseHistory rt env wallet SHOP_PROGRAM_ID t
  = (ok tt,
     t ++ [GetAccountInfo historyPDA]
       ++ [SetPurchaseHistory
             match decode_purchase_history buyer data with
             | inr purchases => purchases
             | inl _ => placeholder_purchases (Date_now env (S (List.length t)))
             end]).
Proof.
  intros Hpda Hacc. unfold checkPurchaseHistory.
  rewrite wallet_connected, wallet_key. unfold_monad.
  rewrite program_key; unfold ok; cbv beta iota.
  rewrite Hpda; unfold ok; cbv beta iota.
  rewrite Hacc; unfold ok; cbv beta iota.
  destruct (decode_purchase_history buyer data) as [e | purchases].
  - rewrite length_app, Nat.add_comm, <- app_assoc. reflexivity.
  - rewrite <- app_assoc. reflexivity.
Qed.

End ShopPageFacts.

Section PurchaseFacts.

Variable rt : Runtime.
Variable env : Env.
Variable wallet : Wallet.
Variable SHOP_PROGRAM_ID : string.

(** [checkPurchaseHistory] never throws, and only reads an account and
    sets the purchase list. *)
Lemma checkPurchaseHistory_shape (t : trace) :
  exists l,
    checkPurchaseHistory rt env wallet SHOP_PROGRAM_ID t = (ok tt, t ++ l) /\
    forall tx, ~ In (SignTransaction tx) l.
Proof.
  unfold checkPurchaseHistory.
  destruct (connected wallet); [ | exists []; rewrite app_nil_r; split; [reflexivity | intros tx []]].
  destruct (publicKey wallet) as [buyer | ];
    [ | exists []; rewrite app_nil_r; split; [reflexivity | intros tx []]].
  unfold_monad.
  destruct (PublicKey_of_base58 rt SHOP_PROGRAM_ID) as [e | programPubkey];
    [exists []; rewrite app_nil_r; split; [reflexivity | intros tx []] | ].
  destruct (getHistoryPDA rt programPubkey buyer) as [e | historyPDA];
    [exists []; rewrite app_nil_r; split; [reflexivity | intros tx []] | ].
  destruct (getAccountInfo env (List.length t) historyPDA) as [e | [data | ]].
  - exists [GetAccountInfo historyPDA]. split; [reflexivity | ].
    intros tx [H | []]; discriminate.
  - destruct (decode_purchase_history buyer data) as [e | purchases];
      unfold ok; cbv beta iota;
      eexists; (split; [rewrite <- app_assoc; reflexivity | ]);
      intros tx [H | [H | []]]; discriminate.
  - unfold ok; cbv beta iota.
    eexists; (split; [rewrite <- app_assoc; reflexivity | ]).
    intros tx [H | [H | []]]; discriminate.
Qed.

Ltac sign_found H account :=
  simp H; cbn [In] in H;
  repeat (destruct H as [H | H];
          [first [discriminate H | injection H as <-; destruct account; reflexivity] | ]);
  try contradiction.

(** Every run of [handlePurchase] that asks the wallet to sign went through
    all the reads, and the transaction is the one built from them. *)
Lemma handlePurchase_sign_inv (itemId : JS.number) (tx : Transaction) :
  In (SignTransaction tx) (actions (handlePurchase rt env wallet SHOP_PROGRAM_ID itemId)) ->
  exists buyer programPubkey shopPDA itemPDA historyPDA shopData adminPubkey account blockhash,
    connected wallet = true /\
    publicKey wallet = Some buyer /\
    PublicKey_of_base58 rt SHOP_PROGRAM_ID = ok programPubkey /\
    getShopPDA rt programPubkey = ok shopPDA /\
    getItemPDA rt programPubkey itemId = ok itemPDA /\
    getHistoryPDA rt programPubkey buyer = ok historyPDA /\
    getAccountInfo env 1 shopPDA = ok (Some shopData) /\
    new_PublicKey (Buf.slice shopData 8 40) = ok adminPubkey /\
    getAccountInfo env 4 historyPDA = ok account /\
    tx = {| instructions :=
              [ SetComputeUnitLimit 1000000;
                TransactionInstruction
                  (purchase_keys buyer shopPDA itemPDA adminPubkey historyPDA)
                  programPubkey
                  (Buffer_from_array
                     (INSTRUCTION_DISCRIMINATORS
                        (match account with
                         | Some _ => subsequentPurchase
                         | None => firstPurchase
                         end))) ];
            recentBlockhash := Some blockhash;
            feePayer := Some buyer |}.
Proof.
  unfold handlePurchase, actions, run.
  destruct (connected wallet) eqn:Hc; [ | intros H; absent H].
  destruct (publicKey wallet) as [buyer | ] eqn:Hk; [ | intros H; absent H].
  unfold handlePurchase_body. unfold_monad.
  intros H. simp H.
  destruct (PublicKey_of_base58 rt SHOP_PROGRAM_ID) as [e | programPubkey] eqn:Hp;
    [absent H | simp H].
  destruct (getShopPDA rt programPubkey) as [e | shopPDA] eqn:Hs; [absent H | simp H].
  destruct (getItemPDA rt programPubkey itemId) as [e | itemPDA] eqn:Hi;
    [absent H | simp H].
  destruct (getHistoryPDA rt programPubkey buyer) as [e | historyPDA] eqn:Hh;
    [absent H | simp H].
  destruct (getAccountInfo env 1 shopPDA) as [e | [shopData | ]] eqn:Ha1;
    [absent H | simp H | absent H].
  destruct (new_PublicKey (Buf.slice shopData 8 40)) as [e | adminPubkey] eqn:Hadm;
    [absent H | simp H].
  destruct (getAccountInfo env 2 itemPDA) as [e | [itemData | ]] eqn:Ha2;
    [absent H | simp H | absent H].
  destruct (Buf.readBigUInt64LE itemData 16) as [e | rawPrice] eqn:Hprice;
    [absent H | simp H].
  destruct (getBalance env 3 buyer) as [e | buyerBalance] eqn:Hbal; [absent H | simp H].
  destruct (JS.lt buyerBalance (JS.Number rawPrice)) eqn:Hlt; [absent H | simp H].
  destruct (getAccountInfo env 4 historyPDA) as [e | account] eqn:Ha4; [absent H | simp H].
  destruct (getLatestBlockhash env 5) as [e | blockhash] eqn:Hbh; [absent H | simp H].
  destruct (has_signTransaction wallet) eqn:Hsig; [simp H | absent H].
  exists buyer, programPubkey, shopPDA, itemPDA, historyPDA, shopData, adminPubkey,
    account, blockhash.
  repeat (split; [reflexivity || assumption | ]).
  destruct (signTransaction env 6 _) as [e | signed] eqn:Hsg; [sign_found H account | simp H].
  destruct (sendRawTransaction env 7 signed) as [e | signature] eqn:Hsend;
    [sign_found H account | simp H].
  destruct (confirmTransaction env 8 signature) as [e | []] eqn:Hconf;
    [sign_found H account | simp H].
  match type of H with
  | context [checkPurchaseHistory ?a ?b ?c ?d ?t] =>
      destruct (checkPurchaseHistory_shape t) as (l & Hl & Hnosign); rewrite Hl in H
  end.
  simp H. cbn [In] in H.
  repeat (destruct H as [H | H];
          [first [discriminate H | injection H as <-; destruct account; reflexivity] | ]).
  rewrite !in_app_iff in H. cbn [In] in H.
  destruct H as [[H | H] | H].
  - apply Hnosign in H. contradiction.
  - repeat (destruct H as [H | H]; [discriminate H | ]). contradiction.
  - repeat (destruct H as [H | H]; [discriminate H | ]). contradiction.
Qed.

End PurchaseFacts.

Section PurchaseRun.

Variable rt : Runtime.
Variable env : Env.
Variable wallet : Wallet.
Variable SHOP_PROGRAM_ID : string.
Variables buyer programPubkey shopPDA itemPDA historyPDA : PublicKey.
Variables shopData itemData : Buffer.
Variable itemId : JS.number.
Variable rawPrice : Z.
Variable buyerBalance : JS.number.

Hypothesis wallet_connected : connected wallet = true.
Hypothesis wallet_key : publicKey wallet = Some buyer.
Hypothesis program_key : PublicKey_of_base58 rt SHOP_PROGRAM_ID = ok programPubkey.
Hypothesis shop_address : getShopPDA rt programPubkey = ok shopPDA.
Hypothesis item_address : getItemPDA rt programPubkey itemId = ok itemPDA.
Hypothesis history_address : getHistoryPDA rt programPubkey buyer = ok historyPDA.
Hypothesis shop_exists : getAccountInfo env 1 shopPDA = ok (Some shopData).
Hypothesis item_exists : getAccountInfo env 2 itemPDA = ok (Some itemData).
Hypothesis item_price : Buf.readBigUInt64LE itemData 16 = ok rawPrice.
Hypothesis balance : getBalance env 3 buyer = ok buyerBalance.

(** The two outcomes of the balance check. *)
Lemma handlePurchase_stopped_at_gate :
  JS.lt buyerBalance (JS.Number rawPrice) = true ->
  actions (handlePurchase rt env wallet SHOP_PROGRAM_ID itemId)
  = [ SetIsPurchasing (Some itemId); GetAccountInfo shopPDA; GetAccountInfo itemPDA;
      GetBalance buyer;
      ToastError "Purchase failed"
        (Some (InsufficientFunds (JS.div (JS.Number rawPrice) LAMPORTS_PER_SOL)
                                 (JS.div buyerBalance LAMPORTS_PER_SOL)));
      SetIsPurchasing None ].
Proof.
  intros Hlt.
  unfold handlePurchase, actions, run.
  rewrite wallet_connected, wallet_key.
  unfold handlePurchase_body. unfold_monad. simp_goal.
  step_goal program_key. step_goal shop_address. step_goal item_address.
  step_goal history_address. step_goal shop_exists.
  rewrite new_PublicKey_slice. simp_goal.
  step_goal item_exists. step_goal item_price. step_goal balance.
  rewrite Hlt. reflexivity.
Qed.

Lemma handlePurchase_past_gate :
  JS.lt buyerBalance (JS.Number rawPrice) = false ->
  exists rest,
    actions (handlePurchase rt env wallet SHOP_PROGRAM_ID itemId)
    = [ SetIsPurchasing (Some itemId); GetAccountInfo shopPDA; GetAccountInfo itemPDA;
        GetBalance buyer; GetAccountInfo historyPDA ] ++ rest.
Proof.
  intros Hlt.
  unfold handlePurchase, actions, run.
  rewrite wallet_connected, wallet_key.
  unfold handlePurchase_body. unfold_monad. simp_goal.
  step_goal program_key. step_goal shop_address. step_goal item_address.
  step_goal history_address. step_goal shop_exists.
  rewrite new_PublicKey_slice. simp_goal.
  step_goal item_exists. step_goal item_price. step_goal balance.
  rewrite Hlt. simp_goal.
  destruct (getAccountInfo env 4 historyPDA) as [e | account];
    simp_goal; [eexists; reflexivity | ].
  destruct (getLatestBlockhash env 5) as [e | blockhash];
    simp_goal; [eexists; reflexivity | ].
  destruct (has_signTransaction wallet); simp_goal; [ | eexists; reflexivity].
  destruct (signTransaction env 6 _) as [e | signed];
    simp_goal; [eexists; reflexivity | ].
  destruct (sendRawTransaction env 7 signed) as [e | signature];
    simp_goal; [eexists; reflexivity | ].
  destruct (confirmTransaction env 8 signature) as [e | []];
    simp_goal; [eexists; reflexivity | ].
  match goal with
  | |- context [checkPurchaseHistory ?a ?b ?c ?d ?t] =>
      destruct (checkPurchaseHistory_shape a b c d t) as (l & Hl & _); rewrite Hl
  end.
  simp_goal. eexists. reflexivity.
Qed.

End PurchaseRun.

(** ** The scripts, run *)

Section ScriptFacts.

Variable rt : Runtime.
Variable env : Env.
Variables programId adminPublicKey walletPublicKey : PublicKey.

Lemma checkPurchaseHistoryForWallet_shape (key : PublicKey) (t : trace) :
  exists l,
    checkPurchaseHistoryForWallet rt env programId key t = (ok tt, t ++ l) /\
    forall tx, ~ In (SendAndConfirmTransaction tx) l.
Proof.
  unfold checkPurchaseHistoryForWallet. unfold_monad.
  destruct (getHistoryPDA rt programId key) as [e | historyPDA];
    [exists []; rewrite app_nil_r; split; [reflexivity | intros tx []] | ].
  destruct (getAccountInfo env (List.length t) historyPDA) as [e | account];
    (exists [GetAccountInfo historyPDA]; split; [reflexivity | ];
     intros tx [H | []]; discriminate).
Qed.

(** Every transaction [purchaseItem] sends is the one built from its reads. *)
Lemma purchaseItem_send_inv (itemId : JS.number) (tx : Transaction) :
  In (SendAndConfirmTransaction tx)
     (actions (purchaseItem rt env programId adminPublicKey walletPublicKey itemId)) ->
  exists shopPDA itemPDA historyPDA account,
    getShopPDA rt programId = ok shopPDA /\
    getItemPDA rt programId itemId = ok itemPDA /\
    getHistoryPDA rt programId walletPublicKey = ok historyPDA /\
    getAccountInfo env 1 historyPDA = ok account /\
    tx = {| instructions :=
              [ SetComputeUnitLimit 1000000;
                TransactionInstruction
                  (script_purchase_keys adminPublicKey walletPublicKey
                     shopPDA itemPDA historyPDA)
                  programId
                  (coder_instruction_encode rt
                     (match account with
                      | Some _ => "subsequentPurchase"
                      | None => "firstPurchase"
                      end)) ];
            recentBlockhash := None;
            feePayer := None |}.
Proof.
  unfold purchaseItem, actions, run. unfold_monad.
  intros H. simp H.
  destruct (getShopPDA rt programId) as [e | shopPDA] eqn:Hs; [absent H | simp H].
  destruct (getItemPDA rt programId itemId) as [e | itemPDA] eqn:Hi; [absent H | simp H].
  destruct (getHistoryPDA rt programId walletPublicKey) as [e | historyPDA] eqn:Hh;
    [absent H | simp H].
  destruct (getAccountInfo env 0 itemPDA) as [e | [itemData | ]] eqn:Ha0;
    [absent H | simp H | absent H].
  destruct (getAccountInfo env 1 historyPDA) as [e | account] eqn:Ha1;
    [absent H | simp H].
  destruct (coder_decode_Item rt itemData) as [e | [[item_id item_price] item_uri]] eqn:Hd;
    [absent H | simp H].
  destruct (getBalance env 2 walletPublicKey) as [e | buyerBalance] eqn:Hbal;
    [absent H | simp H].
  destruct (JS.lt buyerBalance (JS.Number item_price)) eqn:Hlt; [absent H | simp H].
  exists shopPDA, itemPDA, historyPDA, account.
  repeat (split; [reflexivity || assumption | ]).
  assert (Htx :
    (if match account with Some _ => true | None => false end
     then add (add new_Transaction (SetComputeUnitLimit 1000000))
              (TransactionInstruction
                 (script_purchase_keys adminPublicKey walletPublicKey shopPDA itemPDA historyPDA)
                 programId (coder_instruction_encode rt "subsequentPurchase"))
     else add (add new_Transaction (SetComputeUnitLimit 1000000))
              (TransactionInstruction
                 (script_purchase_keys adminPublicKey walletPublicKey shopPDA itemPDA historyPDA)
                 programId (coder_instruction_encode rt "firstPurchase")))
    = {| instructions :=
           [ SetComputeUnitLimit 1000000;
             TransactionInstruction
               (script_purchase_keys adminPublicKey walletPublicKey shopPDA itemPDA historyPDA)
               programId
               (coder_instruction_encode rt
                  (match account with
                   | Some _ => "subsequentPurchase"
                   | None => "firstPurchase"
                   end)) ];
         recentBlockhash := None;
         feePayer := None |}).
  { destruct account; reflexivity. }
  rewrite Htx in H. clear Htx.
  destruct (sendAndConfirmTransaction env 3 _) as [e | signature] eqn:Hsend.
  { simp H. cbn [In] in H.
    repeat (destruct H as [H | H]; [first [discriminate H | injection H as <-; reflexivity] | ]).
    contradiction. }
  simp H.
  match type of H with
  | context [checkPurchaseHistoryForWallet ?a ?b ?c ?d ?t] =>
      destruct (checkPurchaseHistoryForWallet_shape d t) as (l & Hl & Hnosend);
      rewrite Hl in H
  end.
  simp H. cbn [In] in H.
  repeat (destruct H as [H | H]; [first [discriminate H | injection H as <-; reflexivity] | ]).
  apply Hnosend in H. contradiction.
Qed.

Section Gate.

Variables shopPDA itemPDA historyPDA : PublicKey.
Variable itemData : Buffer.
Variable account : option Buffer.
Variable itemId : JS.number.
Variables item_id item_price : Z.
Variable item_uri : string.
Variable buyerBalance : JS.number.

Hypothesis shop_address : getShopPDA rt programId = ok shopPDA.
Hypothesis item_address : getItemPDA rt programId itemId = ok itemPDA.
Hypothesis history_address : getHistoryPDA rt programId walletPublicKey = ok historyPDA.
Hypothesis item_exists : getAccountInfo env 0 itemPDA = ok (Some itemData).
Hypothesis history_probe : getAccountInfo env 1 historyPDA = ok account.
Hypothesis item_decoded : coder_decode_Item rt itemData = ok (item_id, item_price, item_uri).
Hypothesis balance : getBalance env 2 walletPublicKey = ok buyerBalance.

Lemma purchaseItem_stopped_at_gate :
  JS.lt buyerBalance (JS.Number item_price) = true ->
  run (purchaseItem rt env programId adminPublicKey walletPublicKey itemId)
  = (ok false,
     [ GetAccountInfo itemPDA; GetAccountInfo historyPDA; GetBalance walletPublicKey ]).
Proof.
  intros Hlt. unfold purchaseItem, run. unfold_monad. simp_goal.
  step_goal shop_address. step_goal item_address. step_goal history_address.
  step_goal item_exists. step_goal history_probe. step_goal item_decoded.
  step_goal balance. rewrite Hlt. reflexivity.
Qed.

Lemma purchaseItem_past_gate :
  JS.lt buyerBalance (JS.Number item_price) = false ->
  exists tx rest,
    actions (purchaseItem rt env programId adminPublicKey walletPublicKey itemId)
    = [ GetAccountInfo itemPDA; GetAccountInfo historyPDA; GetBalance walletPublicKey;
        SendAndConfirmTransaction tx ] ++ rest.
Proof.
  intros Hlt. unfold purchaseItem, actions, run. unfold_monad. simp_goal.
  step_goal shop_address. step_goal item_address. step_goal history_address.
  step_goal item_exists. step_goal history_probe. step_goal item_decoded.
  step_goal balance. rewrite Hlt. simp_goal.
  destruct (sendAndConfirmTransaction env 3 _) as [e | signature];
    simp_goal; [do 2 eexists; reflexivity | ].
  match goal with
  | |- context [checkPurchaseHistoryForWallet ?a ?b ?c ?d ?t] =>
      destruct (checkPurchaseHistoryForWallet_shape d t) as (l & Hl & _); rewrite Hl
  end.
  simp_goal. do 2 eexists. reflexivity.
Qed.

End Gate.

Ltac found H :=
  simp H; cbn [In] in H;
  repeat (destruct H as [H | H];
          [first [discriminate H | injection H as <-; do 2 eexists; reflexivity] | ]);
  try contradiction.

Lemma addItemWithMetadata_send_inv (metadata : ItemMetadata) (tx : Transaction) :
  In (SendAndConfirmTransaction tx)
     (actions (addItemWithMetadata rt env programId walletPublicKey metadata)) ->
  exists keys data,
    instructions tx = [SetComputeUnitLimit 1000000; TransactionInstruction keys programId data].
Proof.
  unfold addItemWithMetadata, actions, run.
  destruct (negb (JS.truthy (md_id metadata)) || negb (JS.truthy (md_price metadata)));
    [intros H; absent H | ].
  unfold_monad. intros H. simp H.
  destruct (getShopPDA rt programId) as [e | shopPDA]; [absent H | simp H].
  destruct (getItemPDA rt programId (md_id metadata)) as [e | itemPDA]; [absent H | simp H].
  destruct (getAccountInfo env 0 itemPDA) as [e | [existing | ]];
    [absent H | absent H | simp H].
  destruct (add_item_data rt _ _ _) as [e | data]; [absent H | simp H].
  destruct (sendAndConfirmTransaction env 1 _) as [e | signature]; found H.
Qed.

Lemma initializeShop_send_inv (tx : Transaction) :
  In (SendAndConfirmTransaction tx)
     (actions (initializeShop rt env programId walletPublicKey)) ->
  exists keys data,
    instructions tx = [SetComputeUnitLimit 1000000; TransactionInstruction keys programId data].
Proof.
  unfold initializeShop, actions, run. unfold_monad. intros H. simp H.
  destruct (getShopPDA rt programId) as [e | shopPDA]; [absent H | simp H].
  destruct (getAccountInfo env 0 shopPDA) as [e | [existing | ]];
    [absent H | absent H | simp H].
  destruct (sendAndConfirmTransaction env 1 _) as [e | signature]; found H.
Qed.

Lemma addItem_send_inv (id price : JS.number) (metadataUri : string) (tx : Transaction) :
  In (SendAndConfirmTransaction tx)
     (actions (addItem rt env programId walletPublicKey id price metadataUri)) ->
  exists keys data,
    instructions tx = [SetComputeUnitLimit 1000000; TransactionInstruction keys programId data].
Proof.
  unfold addItem, actions, run. unfold_monad. intros H. simp H.
  destruct (getShopPDA rt programId) as [e | shopPDA]; [absent H | simp H].
  destruct (getItemPDA rt programId id) as [e | itemPDA]; [absent H | simp H].
  destruct (add_item_data rt _ _ _) as [e | data]; [absent H | simp H].
  destruct (sendAndConfirmTransaction env 0 _) as [e | signature]; found H.
Qed.

End ScriptFacts.

(** ** The network banner, run *)

Section NetworkFacts.

Variable env : Env.

Lemma first_match_app (genesisHash : string)
  (a b : list (NetworkProvider * string * NetworkConfig)) (t : nat) :
  first_match env genesisHash t (a ++ b)
  = match first_match env genesisHash t a with
    | Some e => Some e
    | None => first_match env genesisHash (t + List.length a) b
    end.
Proof.
  revert t. induction a as [ | [[p net] config] a IH]; intros t; cbn [app first_match List.length].
  - rewrite Nat.add_0_r. reflexivity.
  - destruct (fingerprint_matches env genesisHash t config); [reflexivity | ].
    rewrite IH. replace (S t + List.length a)%nat with (t + S (List.length a))%nat by lia.
    reflexivity.
Qed.

Lemma probed_app (genesisHash : string)
  (a b : list (NetworkProvider * string * NetworkConfig)) (t : nat) :
  probed env genesisHash t (a ++ b)
  = match first_match env genesisHash t a with
    | Some _ => probed env genesisHash t a
    | None => probed env genesisHash t a ++ probed env genesisHash (t + List.length a) b
    end.
Proof.
  revert t. induction a as [ | [[p net] config] a IH]; intros t;
    cbn [app first_match probed List.length].
  - rewrite Nat.add_0_r. reflexivity.
  - destruct (fingerprint_matches env genesisHash t config); [reflexivity | ].
    rewrite IH. replace (S t + List.length a)%nat with (t + S (List.length a))%nat by lia.
    destruct (first_match env genesisHash (S t) a); reflexivity.
Qed.

(** One loop of [checkNetwork] is a first-match search over its group. *)
Lemma probe_networks_run (p : NetworkProvider) (entries : list (string * NetworkConfig))
  (genesisHash : string) (detected : DetectedNetwork) (t : trace) :
  probe_networks env p entries genesisHash detected t
  = (ok match first_match env genesisHash (List.length t) (map (tag_provider p) entries) with
        | Some e => reported (Some e)
        | None => detected
        end,
     t ++ map GetGenesisHash
            (probed env genesisHash (List.length t) (map (tag_provider p) entries))).
Proof.
  revert t. induction entries as [ | [net config] entries IH]; intros t.
  - cbn. rewrite app_nil_r. reflexivity.
  - cbn [probe_networks map first_match probed tag_provider fst snd].
    unfold fingerprint_matches. unfold_monad.
    destruct (getGenesisHash env (List.length t) (cfg_endpoint config)) as [e | hash];
      unfold ok in *; cbv beta iota.
    + rewrite IH, length_app, Nat.add_comm, <- app_assoc. reflexivity.
    + destruct (String.eqb genesisHash hash); [reflexivity | ].
      rewrite IH, length_app, Nat.add_comm, <- app_assoc. reflexivity.
Qed.

Lemma first_match_provider (genesisHash : string) (p : NetworkProvider)
  (entries : list (string * NetworkConfig)) (t : nat) e :
  first_match env genesisHash t (map (tag_provider p) entries) = Some e ->
  provider (reported (Some e)) = p.
Proof.
  revert t. induction entries as [ | [net config] entries IH]; intros t; [discriminate | ].
  cbn [map first_match tag_provider fst snd].
  destruct (fingerprint_matches env genesisHash t config).
  - intros H. injection H as <-. reflexivity.
  - apply IH.
Qed.

Lemma first_match_named (genesisHash : string) (t : nat) e :
  first_match env genesisHash t network_catalog = Some e ->
  name (reported (Some e)) <> "Unknown Network"%string.
Proof.
  unfold network_catalog, SONIC_NETWORKS, SOLANA_NETWORKS_CONFIG.
  cbn [map app first_match tag_provider fst snd].
  repeat (destruct (fingerprint_matches _ _ _ _);
          [intros H; injection H as <-; cbn; discriminate | ]).
  discriminate.
Qed.

Lemma probed_all (genesisHash : string) (t : nat)
  (catalog : list (NetworkProvider * string * NetworkConfig)) :
  first_match env genesisHash t catalog = None ->
  List.length (probed env genesisHash t catalog) = List.length catalog.
Proof.
  revert t. induction catalog as [ | [[p net] config] catalog IH]; intros t; [reflexivity | ].
  cbn [first_match probed List.length].
  destruct (fingerprint_matches env genesisHash t config); [discriminate | ].
  intros H. rewrite IH by exact H. reflexivity.
Qed.

End NetworkFacts.

(** ** Address derivation *)

Section DerivationFacts.

Variable rt : Runtime.

(** The bump found is the largest one below [n] whose candidate is off the
    curve. *)
Lemma search_bump_spec (n : nat) (seeds : list Buffer) (programId : PublicKey) address bump :
  search_bump rt n seeds programId = Some (address, bump) ->
  (bump < n)%nat /\
  isOnCurve rt (candidate rt seeds programId bump) = false /\
  address = {| bn := be_value (candidate rt seeds programId bump) |} /\
  forall b, (bump < b < n)%nat -> isOnCurve rt (candidate rt seeds programId b) = true.
Proof.
  induction n as [ | n IH]; cbn [search_bump]; [discriminate | ].
  destruct (isOnCurve rt (candidate rt seeds programId n)) eqn:Hcurve.
  - intros H. destruct (IH H) as (Hlt & Hoff & Haddr & Hskip).
    repeat split; [lia | assumption | assumption | ].
    intros b Hb. destruct (Nat.eq_dec b n) as [-> | Hne]; [assumption | apply Hskip; lia].
  - intros H. injection H as <- <-.
    repeat split; [lia | assumption | ].
    intros b Hb. lia.
Qed.

Lemma getItemPDA_seeds (programId : PublicKey) (id : JS.number) (z : Z) :
  JS.BigInt id = ok z -> 0 <= z < 2 ^ 64 ->
  getItemPDA rt programId id
  = rbind (deriveAddress rt [list_byte_of_string "item"; le_bytes 8 z] programId)
          (fun r => ok (fst r)).
Proof.
  intros Hz Hr. unfold getItemPDA, Buf.writeBigUInt64LE. rewrite Hz. cbn [rbind ok].
  replace ((0 <=? z) && (z <? 2 ^ 64)) with true; [reflexivity | ].
  symmetry. apply andb_true_iff. split; [apply Z.leb_le | apply Z.ltb_lt]; lia.
Qed.

End DerivationFacts.

(** * The claims *)

(** C1: purchase-opcode selection.  Whatever the world answers, a
    transaction that [handlePurchase] hands to the wallet carries the
    [firstPurchase] tag when the probe of the buyer's history account (the
    fifth action of the run) found no account, and the [subsequentPurchase]
    tag when it found one, whatever the account holds; the same holds for the
    transaction [purchaseItem] sends, whose probe is its second action and
    whose tag is the coder's encoding of the instruction name. *)
Theorem purchase_opcode_selection :
  forall (rt : Runtime) (env : Env) (wallet : Wallet) (SHOP_PROGRAM_ID : string)
         (programId adminPublicKey walletPublicKey : PublicKey)
         (itemId : JS.number) (tx : Transaction),
    (In (SignTransaction tx) (actions (handlePurchase rt env wallet SHOP_PROGRAM_ID itemId)) ->
     exists buyer programPubkey historyPDA account keys,
       publicKey wallet = Some buyer /\
       PublicKey_of_base58 rt SHOP_PROGRAM_ID = ok programPubkey /\
       getHistoryPDA rt programPubkey buyer = ok historyPDA /\
       getAccountInfo env 4 historyPDA = ok account /\
       instructions tx
       = [ SetComputeUnitLimit 1000000;
           TransactionInstruction keys programPubkey
             (Buffer_from_array
                match account with
                | None => [109; 212; 45; 217; 228; 42; 205; 63]
                | Some _ => [223; 75; 242; 206; 210; 168; 187; 166]
                end) ])
    /\
    (In (SendAndConfirmTransaction tx)
        (actions (purchaseItem rt env programId adminPublicKey walletPublicKey itemId)) ->
     exists historyPDA account keys,
       getHistoryPDA rt programId walletPublicKey = ok historyPDA /\
       getAccountInfo env 1 historyPDA = ok account /\
       instructions tx
       = [ SetComputeUnitLimit 1000000;
           TransactionInstruction keys programId
             (coder_instruction_encode rt
                match account with
                | None => "firstPurchase"
                | Some _ => "subsequentPurchase"
                end) ]).
Proof.
  intros rt env wallet pid programId adminPublicKey walletPublicKey itemId tx. split.
  - intros H. apply handlePurchase_sign_inv in H.
    destruct H as (buyer & programPubkey & shopPDA & itemPDA & historyPDA & shopData
                   & adminPubkey & account & blockhash
                   & _ & Hk & Hp & _ & _ & Hh & _ & _ & Hacc & ->).
    exists buyer, programPubkey, historyPDA, account,
      (purchase_keys buyer shopPDA itemPDA adminPubkey historyPDA).
    repeat (split; [assumption | ]).
    destruct account; reflexivity.
  - intros H. apply purchaseItem_send_inv in H.
    destruct H as (shopPDA & itemPDA & historyPDA & account & _ & _ & Hh & Hacc & ->).
    exists historyPDA, account,
      (script_purchase_keys adminPublicKey walletPublicKey shopPDA itemPDA historyPDA).
    repeat (split; [assumption | ]).
    destruct account; reflexivity.
Qed.

(** The end-to-end scenario of the specification (no history account) and
    its counterpart for a returning buyer, on the page and in the script. *)
Lemma purchase_opcode_selection_witness :
  (In (SignTransaction (Sample.purchase_tx false))
      (actions (handlePurchase Sample.rt Sample.fresh_world Sample.wallet
                  Sample.SHOP_PROGRAM_ID (JS.Number 1)))
   /\ exists buyer programPubkey historyPDA account keys,
       publicKey Sample.wallet = Some buyer /\
       PublicKey_of_base58 Sample.rt Sample.SHOP_PROGRAM_ID = ok programPubkey /\
       getHistoryPDA Sample.rt programPubkey buyer = ok historyPDA /\
       getAccountInfo Sample.fresh_world 4 historyPDA = ok account /\
       instructions (Sample.purchase_tx false)
       = [ SetComputeUnitLimit 1000000;
           TransactionInstruction keys programPubkey
             (Buffer_from_array
                match account with
                | None => [109; 212; 45; 217; 228; 42; 205; 63]
                | Some _ => [223; 75; 242; 206; 210; 168; 187; 166]
                end) ])
  /\
  (In (SendAndConfirmTransaction (Sample.script_tx true))
      (actions (purchaseItem Sample.rt Sample.returning_world Sample.programId
                  Sample.admin Sample.buyer (JS.Number 1)))
   /\ exists historyPDA account keys,
       getHistoryPDA Sample.rt Sample.programId Sample.buyer = ok historyPDA /\
       getAccountInfo Sample.returning_world 1 historyPDA = ok account /\
       instructions (Sample.script_tx true)
       = [ SetComputeUnitLimit 1000000;
           TransactionInstruction keys Sample.programId
             (coder_instruction_encode Sample.rt
                match account with
                | None => "firstPurchase"
                | Some _ => "subsequentPurchase"
                end) ]).
Proof.
  split; split.
  - vm_compute. do 6 right. left. reflexivity.
  - apply (proj1 (purchase_opcode_selection Sample.rt Sample.fresh_world Sample.wallet
                    Sample.SHOP_PROGRAM_ID Sample.programId Sample.admin Sample.buyer
                    (JS.Number 1) (Sample.purchase_tx false))).
    vm_compute. do 6 right. left. reflexivity.
  - vm_compute. do 3 right. left. reflexivity.
  - apply (proj2 (purchase_opcode_selection Sample.rt Sample.returning_world Sample.wallet
                    Sample.SHOP_PROGRAM_ID Sample.programId Sample.admin Sample.buyer
                    (JS.Number 1) (Sample.script_tx true))).
    vm_compute. do 3 right. left. reflexivity.
Defined.

(** C6: account references of a purchase instruction.  The instruction that
    follows the compute-budget directive in a transaction built by
    [handlePurchase] or by [purchaseItem] lists, in this order: the buyer
    (signer, writable), the shop address (read-only), the item address
    (read-only), the admin (writable), the buyer's history address
    (writable) and the system program (read-only).  On the page the admin is
    the key read from bytes 8..40 of the shop account; in the script it is
    the key of the admin wallet file. *)
Theorem purchase_account_order :
  forall (rt : Runtime) (env : Env) (wallet : Wallet) (SHOP_PROGRAM_ID : string)
         (programId adminPublicKey walletPublicKey : PublicKey)
         (itemId : JS.number) (tx : Transaction),
    (In (SignTransaction tx) (actions (handlePurchase rt env wallet SHOP_PROGRAM_ID itemId)) ->
     exists buyer programPubkey shopPDA itemPDA historyPDA shopData adminPubkey data,
       publicKey wallet = Some buyer /\
       PublicKey_of_base58 rt SHOP_PROGRAM_ID = ok programPubkey /\
       getShopPDA rt programPubkey = ok shopPDA /\
       getItemPDA rt programPubkey itemId = ok itemPDA /\
       getHistoryPDA rt programPubkey buyer = ok historyPDA /\
       getAccountInfo env 1 shopPDA = ok (Some shopData) /\
       new_PublicKey (Buf.slice shopData 8 40) = ok adminPubkey /\
       instructions tx
       = [ SetComputeUnitLimit 1000000;
           TransactionInstruction
             [ {| pubkey := buyer; isSigner := true; isWritable := true |};
               {| pubkey := shopPDA; isSigner := false; isWritable := false |};
               {| pubkey := itemPDA; isSigner := false; isWritable := false |};
               {| pubkey := adminPubkey; isSigner := false; isWritable := true |};
               {| pubkey := historyPDA; isSigner := false; isWritable := true |};
               {| pubkey := SystemProgram_programId; isSigner := false;
                  isWritable := false |} ]
             programPubkey data ])
    /\
    (In (SendAndConfirmTransaction tx)
        (actions (purchaseItem rt env programId adminPublicKey walletPublicKey itemId)) ->
     exists shopPDA itemPDA historyPDA data,
       getShopPDA rt programId = ok shopPDA /\
       getItemPDA rt programId itemId = ok itemPDA /\
       getHistoryPDA rt programId walletPublicKey = ok historyPDA /\
       instructions tx
       = [ SetComputeUnitLimit 1000000;
           TransactionInstruction
             [ {| pubkey := walletPublicKey; isSigner := true; isWritable := true |};
               {| pubkey := shopPDA; isSigner := false; isWritable := false |};
               {| pubkey := itemPDA; isSigner := false; isWritable := false |};
               {| pubkey := adminPublicKey; isSigner := false; isWritable := true |};
               {| pubkey := historyPDA; isSigner := false; isWritable := true |};
               {| pubkey := SystemProgram_programId; isSigner := false;
                  isWritable := false |} ]
             programId data ]).
Proof.
  intros rt env wallet pid programId adminPublicKey walletPublicKey itemId tx. split.
  - intros H. apply handlePurchase_sign_inv in H.
    destruct H as (buyer & programPubkey & shopPDA & itemPDA & historyPDA & shopData
                   & adminPubkey & account & blockhash
                   & _ & Hk & Hp & Hs & Hi & Hh & Hshop & Hadmin & _ & ->).
    exists buyer, programPubkey, shopPDA, itemPDA, historyPDA, shopData, adminPubkey.
    eexists. repeat (split; [assumption | ]). reflexivity.
  - intros H. apply purchaseItem_send_inv in H.
    destruct H as (shopPDA & itemPDA & historyPDA & account & Hs & Hi & Hh & _ & ->).
    exists shopPDA, itemPDA, historyPDA.
    eexists. repeat (split; [assumption | ]). reflexivity.
Qed.

(** The two purchase instructions of the sample worlds. *)
Lemma purchase_account_order_witness :
  (In (SignTransaction (Sample.purchase_tx true))
      (actions (handlePurchase Sample.rt Sample.returning_world Sample.wallet
                  Sample.SHOP_PROGRAM_ID (JS.Number 1)))
   /\ exists buyer programPubkey shopPDA itemPDA historyPDA shopData adminPubkey data,
       publicKey Sample.wallet = Some buyer /\
       PublicKey_of_base58 Sample.rt Sample.SHOP_PROGRAM_ID = ok programPubkey /\
       getShopPDA Sample.rt programPubkey = ok shopPDA /\
       getItemPDA Sample.rt programPubkey (JS.Number 1) = ok itemPDA /\
       getHistoryPDA Sample.rt programPubkey buyer = ok historyPDA /\
       getAccountInfo Sample.returning_world 1 shopPDA = ok (Some shopData) /\
       new_PublicKey (Buf.slice shopData 8 40) = ok adminPubkey /\
       instructions (Sample.purchase_tx true)
       = [ SetComputeUnitLimit 1000000;
           TransactionInstruction
             [ {| pubkey := buyer; isSigner := true; isWritable := true |};
               {| pubkey := shopPDA; isSigner := false; isWritable := false |};
               {| pubkey := itemPDA; isSigner := false; isWritable := false |};
               {| pubkey := adminPubkey; isSigner := false; isWritable := true |};
               {| pubkey := historyPDA; isSigner := false; isWritable := true |};
               {| pubkey := SystemProgram_programId; isSigner := false;
                  isWritable := false |} ]
             programPubkey data ])
  /\
  (In (SendAndConfirmTransaction (Sample.script_tx false))
      (actions (purchaseItem Sample.rt Sample.fresh_world Sample.programId
                  Sample.admin Sample.buyer (JS.Number 1)))
   /\ exists shopPDA itemPDA historyPDA data,
       getShopPDA Sample.rt Sample.programId = ok shopPDA /\
       getItemPDA Sample.rt Sample.programId (JS.Number 1) = ok itemPDA /\
       getHistoryPDA Sample.rt Sample.programId Sample.buyer = ok historyPDA /\
       instructions (Sample.script_tx false)
       = [ SetComputeUnitLimit 1000000;
           TransactionInstruction
             [ {| pubkey := Sample.buyer; isSigner := true; isWritable := true |};
               {| pubkey := shopPDA; isSigner := false; isWritable := false |};
               {| pubkey := itemPDA; isSigner := false; isWritable := false |};
               {| pubkey := Sample.admin; isSigner := false; isWritable := true |};
               {| pubkey := historyPDA; isSigner := false; isWritable := true |};
               {| pubkey := SystemProgram_programId; isSigner := false;
                  isWritable := false |} ]
             Sample.programId data ]).
Proof.
  split; split.
  - vm_compute. do 6 right. left. reflexivity.
  - apply (proj1 (purchase_account_order Sample.rt Sample.returning_world Sample.wallet
                    Sample.SHOP_PROGRAM_ID Sample.programId Sample.admin Sample.buyer
                    (JS.Number 1) (Sample.purchase_tx true))).
    vm_compute. do 6 right. left. reflexivity.
  - vm_compute. do 3 right. left. reflexivity.
  - apply (proj2 (purchase_account_order Sample.rt Sample.fresh_world Sample.wallet
                    Sample.SHOP_PROGRAM_ID Sample.programId Sample.admin Sample.buyer
                    (JS.Number 1) (Sample.script_tx false))).
    vm_compute. do 3 right. left. reflexivity.
Defined.

(** C7: the compute-budget directive comes first.  Every transaction that
    [handlePurchase] hands to the wallet, and every transaction that
    [purchaseItem], [addItemWithMetadata], [initializeShop] or [addItem]
    sends, consists of the directive [setComputeUnitLimit(1000000)] followed
    by the one instruction for the shop program. *)
Theorem compute_budget_first :
  forall (rt : Runtime) (env : Env) (wallet : Wallet) (SHOP_PROGRAM_ID : string)
         (programId adminPublicKey walletPublicKey : PublicKey)
         (itemId price : JS.number) (metadataUri : string) (metadata : ItemMetadata)
         (tx : Transaction),
    In (SignTransaction tx) (actions (handlePurchase rt env wallet SHOP_PROGRAM_ID itemId))
    \/ In (SendAndConfirmTransaction tx)
          (actions (purchaseItem rt env programId adminPublicKey walletPublicKey itemId))
    \/ In (SendAndConfirmTransaction tx)
          (actions (addItemWithMetadata rt env programId walletPublicKey metadata))
    \/ In (SendAndConfirmTransaction tx)
          (actions (initializeShop rt env programId walletPublicKey))
    \/ In (SendAndConfirmTransaction tx)
          (actions (addItem rt env programId walletPublicKey itemId price metadataUri)) ->
    exists keys program data,
      instructions tx
      = [ SetComputeUnitLimit 1000000; TransactionInstruction keys program data ].
Proof.
  intros rt env wallet pid programId adminPublicKey walletPublicKey itemId price
         metadataUri metadata tx [H | [H | [H | [H | H]]]].
  - apply handlePurchase_sign_inv in H.
    destruct H as (buyer & programPubkey & shopPDA & itemPDA & historyPDA & shopData
                   & adminPubkey & account & blockhash & _ & _ & _ & _ & _ & _ & _ & _ & _ & ->).
    do 3 eexists. reflexivity.
  - apply purchaseItem_send_inv in H.
    destruct H as (shopPDA & itemPDA & historyPDA & account & _ & _ & _ & _ & ->).
    do 3 eexists. reflexivity.
  - apply addItemWithMetadata_send_inv in H. destruct H as (keys & data & ->).
    do 3 eexists. reflexivity.
  - apply initializeShop_send_inv in H. destruct H as (keys & data & ->).
    do 3 eexists. reflexivity.
  - apply addItem_send_inv in H. destruct H as (keys & data & ->).
    do 3 eexists. reflexivity.
Qed.

(** The purchase of the end-to-end scenario. *)
Lemma compute_budget_first_witness :
  In (SignTransaction (Sample.purchase_tx false))
     (actions (handlePurchase Sample.rt Sample.fresh_world Sample.wallet
                 Sample.SHOP_PROGRAM_ID (JS.Number 1)))
  /\ exists keys program data,
      instructions (Sample.purchase_tx false)
      = [ SetComputeUnitLimit 1000000; TransactionInstruction keys program data ].
Proof.
  split.
  - vm_compute. do 6 right. left. reflexivity.
  - apply (compute_budget_first Sample.rt Sample.fresh_world Sample.wallet
             Sample.SHOP_PROGRAM_ID Sample.programId Sample.admin Sample.buyer
             (JS.Number 1) (JS.Number 1000000000) Sample.uri Sample.metadata
             (Sample.purchase_tx false)).
    left. vm_compute. do 6 right. left. reflexivity.
Defined.
(** C5, as the code has it: the balance gate compares numbers.  The price
    read from the item account and the balance are JavaScript numbers.  A
    balance equal to the price as a number always passes the check.  For
    amounts below 2^53 lamports the comparison is exact: a buyer whose
    balance is the price or more passes the check and the run goes on to
    probe the history account (page) or to send the transaction (script); a
    buyer whose balance is below the price stops there, after the initial
    reads, and nothing is built, signed or sent.  On the page the failure is
    the [InsufficientFunds] error shown by the toaster; the script returns
    [false]. *)
Theorem balance_gate :
  (forall (rt : Runtime) (env : Env) (wallet : Wallet) (SHOP_PROGRAM_ID : string)
          (buyer programPubkey shopPDA itemPDA historyPDA : PublicKey)
          (shopData itemData : Buffer) (itemId : JS.number) (price : Z)
          (buyerBalance : JS.number),
      connected wallet = true ->
      publicKey wallet = Some buyer ->
      PublicKey_of_base58 rt SHOP_PROGRAM_ID = ok programPubkey ->
      getShopPDA rt programPubkey = ok shopPDA ->
      getItemPDA rt programPubkey itemId = ok itemPDA ->
      getHistoryPDA rt programPubkey buyer = ok historyPDA ->
      getAccountInfo env 1 shopPDA = ok (Some shopData) ->
      getAccountInfo env 2 itemPDA = ok (Some itemData) ->
      Buf.readBigUInt64LE itemData 16 = ok price ->
      getBalance env 3 buyer = ok buyerBalance ->
      (buyerBalance = JS.Number price ->
       exists rest,
         actions (handlePurchase rt env wallet SHOP_PROGRAM_ID itemId)
         = [ SetIsPurchasing (Some itemId); GetAccountInfo shopPDA; GetAccountInfo itemPDA;
             GetBalance buyer; GetAccountInfo historyPDA ] ++ rest)
      /\
      (forall balance : Z,
          buyerBalance = JS.Number balance ->
          0 <= price < 2 ^ 53 ->
          0 <= balance < 2 ^ 53 ->
          (price <= balance ->
           exists rest,
             actions (handlePurchase rt env wallet SHOP_PROGRAM_ID itemId)
             = [ SetIsPurchasing (Some itemId); GetAccountInfo shopPDA; GetAccountInfo itemPDA;
                 GetBalance buyer; GetAccountInfo historyPDA ] ++ rest)
          /\
          (balance < price ->
           actions (handlePurchase rt env wallet SHOP_PROGRAM_ID itemId)
           = [ SetIsPurchasing (Some itemId); GetAccountInfo shopPDA; GetAccountInfo itemPDA;
               GetBalance buyer;
               ToastError "Purchase failed"
                 (Some (InsufficientFunds
                          (JS.div (JS.Number price) LAMPORTS_PER_SOL)
                          (JS.div (JS.Number balance) LAMPORTS_PER_SOL)));
               SetIsPurchasing None ])))
  /\
  (forall (rt : Runtime) (env : Env) (programId adminPublicKey walletPublicKey : PublicKey)
          (shopPDA itemPDA historyPDA : PublicKey) (itemData : Buffer)
          (account : option Buffer) (itemId : JS.number) (item_id price : Z)
          (item_uri : string) (buyerBalance : JS.number),
      getShopPDA rt programId = ok shopPDA ->
      getItemPDA rt programId itemId = ok itemPDA ->
      getHistoryPDA rt programId walletPublicKey = ok historyPDA ->
      getAccountInfo env 0 itemPDA = ok (Some itemData) ->
      getAccountInfo env 1 historyPDA = ok account ->
      coder_decode_Item rt itemData = ok (item_id, price, item_uri) ->
      getBalance env 2 walletPublicKey = ok buyerBalance ->
      (buyerBalance = JS.Number price ->
       exists tx rest,
         actions (purchaseItem rt env programId adminPublicKey walletPublicKey itemId)
         = [ GetAccountInfo itemPDA; GetAccountInfo historyPDA; GetBalance walletPublicKey;
             SendAndConfirmTransaction tx ] ++ rest)
      /\
      (forall balance : Z,
          buyerBalance = JS.Number balance ->
          0 <= price < 2 ^ 53 ->
          0 <= balance < 2 ^ 53 ->
          (price <= balance ->
           exists tx rest,
             actions (purchaseItem rt env programId adminPublicKey walletPublicKey itemId)
             = [ GetAccountInfo itemPDA; GetAccountInfo historyPDA;
                 GetBalance walletPublicKey; SendAndConfirmTransaction tx ] ++ rest)
          /\
          (balance < price ->
           run (purchaseItem rt env programId adminPublicKey walletPublicKey itemId)
           = (ok false,
              [ GetAccountInfo itemPDA; GetAccountInfo historyPDA;
                GetBalance walletPublicKey ])))).
Proof.
  split.
  - intros rt env wallet pid buyer programPubkey shopPDA itemPDA historyPDA shopData
           itemData itemId price buyerBalance Hc Hk Hp Hs Hi Hh Hshop Hitem Hprice Hbal.
    split.
    + intros ->.
      apply (handlePurchase_past_gate rt env wallet pid buyer programPubkey shopPDA itemPDA
               historyPDA shopData itemData itemId price (JS.Number price)); try assumption.
      apply lt_irrefl.
    + intros balance -> Hpr Hbr.
      pose proof (lt_Number balance price Hbr Hpr) as Hlt.
      split; intros Hcmp.
      * apply (handlePurchase_past_gate rt env wallet pid buyer programPubkey shopPDA itemPDA
                 historyPDA shopData itemData itemId price (JS.Number balance));
          try assumption.
        rewrite Hlt. apply Z.ltb_ge. exact Hcmp.
      * apply (handlePurchase_stopped_at_gate rt env wallet pid buyer programPubkey shopPDA
                 itemPDA historyPDA shopData itemData itemId price (JS.Number balance));
          try assumption.
        rewrite Hlt. apply Z.ltb_lt. exact Hcmp.
  - intros rt env programId adminPublicKey walletPublicKey shopPDA itemPDA historyPDA
           itemData account itemId item_id price item_uri buyerBalance
           Hs Hi Hh Hitem Hhist Hdec Hbal.
    split.
    + intros ->.
      apply (purchaseItem_past_gate rt env programId adminPublicKey walletPublicKey shopPDA
               itemPDA historyPDA itemData account itemId item_id price item_uri
               (JS.Number price)); try assumption.
      apply lt_irrefl.
    + intros balance -> Hpr Hbr.
      pose proof (lt_Number balance price Hbr Hpr) as Hlt.
      split; intros Hcmp.
      * apply (purchaseItem_past_gate rt env programId adminPublicKey walletPublicKey shopPDA
                 itemPDA historyPDA itemData account itemId item_id price item_uri
                 (JS.Number balance)); try assumption.
        rewrite Hlt. apply Z.ltb_ge. exact Hcmp.
      * apply (purchaseItem_stopped_at_gate rt env programId adminPublicKey walletPublicKey
                 shopPDA itemPDA historyPDA itemData account itemId item_id price item_uri
                 (JS.Number balance)); try assumption.
        rewrite Hlt. apply Z.ltb_lt. exact Hcmp.
Qed.

(** A balance equal to the price of the scenario item passes on the page;
    a balance one lamport below it stops the page and the script. *)
Lemma balance_gate_witness :
  (exists rest,
     actions (handlePurchase Sample.rt Sample.exact_world Sample.wallet
                Sample.SHOP_PROGRAM_ID (JS.Number 1))
     = [ SetIsPurchasing (Some (JS.Number 1)); GetAccountInfo Sample.shopPDA;
         GetAccountInfo Sample.itemPDA; GetBalance Sample.buyer;
         GetAccountInfo Sample.historyPDA ] ++ rest)
  /\ actions (handlePurchase Sample.rt Sample.poor_world Sample.wallet
                Sample.SHOP_PROGRAM_ID (JS.Number 1))
     = [ SetIsPurchasing (Some (JS.Number 1)); GetAccountInfo Sample.shopPDA;
         GetAccountInfo Sample.itemPDA; GetBalance Sample.buyer;
         ToastError "Purchase failed"
           (Some (InsufficientFunds
                    (JS.div (JS.Number 1000000000) LAMPORTS_PER_SOL)
                    (JS.div (JS.Number 999999999) LAMPORTS_PER_SOL)));
         SetIsPurchasing None ]
  /\ run (purchaseItem Sample.rt Sample.poor_world Sample.programId Sample.admin
            Sample.buyer (JS.Number 1))
     = (ok false,
        [ GetAccountInfo Sample.itemPDA; GetAccountInfo Sample.historyPDA;
          GetBalance Sample.buyer ]).
Proof.
  split; [ | split].
  - apply (proj1 (proj1 balance_gate Sample.rt Sample.exact_world Sample.wallet
                    Sample.SHOP_PROGRAM_ID Sample.buyer Sample.programId Sample.shopPDA
                    Sample.itemPDA Sample.historyPDA Sample.shop_account
                    Sample.scenario_item (JS.Number 1) 1000000000 (JS.Number 1000000000)
                    ltac:(vm_compute; reflexivity) ltac:(vm_compute; reflexivity)
                    ltac:(vm_compute; reflexivity) ltac:(vm_compute; reflexivity)
                    ltac:(vm_compute; reflexivity) ltac:(vm_compute; reflexivity)
                    ltac:(vm_compute; reflexivity) ltac:(vm_compute; reflexivity)
                    ltac:(vm_compute; reflexivity) ltac:(vm_compute; reflexivity))).
    reflexivity.
  - apply (proj2 (proj1 balance_gate Sample.rt Sample.poor_world Sample.wallet
                    Sample.SHOP_PROGRAM_ID Sample.buyer Sample.programId Sample.shopPDA
                    Sample.itemPDA Sample.historyPDA Sample.shop_account
                    Sample.scenario_item (JS.Number 1) 1000000000 (JS.Number 999999999)
                    ltac:(vm_compute; reflexivity) ltac:(vm_compute; reflexivity)
                    ltac:(vm_compute; reflexivity) ltac:(vm_compute; reflexivity)
                    ltac:(vm_compute; reflexivity) ltac:(vm_compute; reflexivity)
                    ltac:(vm_compute; reflexivity) ltac:(vm_compute; reflexivity)
                    ltac:(vm_compute; reflexivity) ltac:(vm_compute; reflexivity))
             999999999 eq_refl ltac:(lia) ltac:(lia)).
    lia.
  - apply (proj2 (proj2 balance_gate Sample.rt Sample.poor_world Sample.programId
                    Sample.admin Sample.buyer Sample.shopPDA Sample.itemPDA
                    Sample.historyPDA Sample.scenario_item None (JS.Number 1)
                    1 1000000000 Sample.uri (JS.Number 999999999)
                    ltac:(vm_compute; reflexivity) ltac:(vm_compute; reflexivity)
                    ltac:(vm_compute; reflexivity) ltac:(vm_compute; reflexivity)
                    ltac:(vm_compute; reflexivity) ltac:(vm_compute; reflexivity)
                    ltac:(vm_compute; reflexivity))
             999999999 eq_refl ltac:(lia) ltac:(lia)).
    lia.
Defined.

(** C5 as stated fails above 2^53: the item costs 2^53 + 1 lamports, the
    buyer holds 2^53, one lamport short, and the price read from the account
    rounds to 2^53; the check passes and the page asks the wallet to sign. *)
Lemma balance_gate_counterexample :
  Buf.readBigUInt64LE Sample.pricey_item 16 = ok 9007199254740993
  /\ getBalance Sample.rounding_world 3 Sample.buyer = ok (JS.Number 9007199254740992)
  /\ JS.BigInt (JS.Number 9007199254740992) = ok 9007199254740992
  /\ 9007199254740992 < 9007199254740993
  /\ In (SignTransaction (Sample.purchase_tx false))
        (actions (handlePurchase Sample.rt Sample.rounding_world Sample.wallet
                    Sample.SHOP_PROGRAM_ID (JS.Number 1))).
Proof.
  split; [vm_compute; reflexivity | ].
  split; [vm_compute; reflexivity | ].
  split; [vm_compute; reflexivity | ].
  split; [lia | ].
  vm_compute. do 6 right. left. reflexivity.
Qed.

(** C8: the network verifier reports the first matching catalog entry.
    When the live genesis hash differs from the one the configured endpoint
    answers, [checkNetwork] probes the catalog in order, the Sonic group and
    then the Solana group, one entry per action from the fourth action on,
    up to and including the first entry whose probe answers the live hash (an
    entry whose probe throws is skipped); it then records and announces that
    entry, by name.  It announces "Unknown Network" exactly when no entry
    matches. *)
Theorem checkNetwork_reports_first_match :
  forall (env : Env) (connection live expected : string),
  getGenesisHash env 0 connection = ok live ->
  getGenesisHash env 1 (cfg_endpoint CURRENT_NETWORK) = ok expected ->
  live <> expected ->
  actions (checkNetwork env connection)
  = [ GetGenesisHash connection; GetGenesisHash (cfg_endpoint CURRENT_NETWORK);
      SetIsCorrectNetwork false ]
      ++ map GetGenesisHash (probed env live 3 network_catalog)
      ++ [ SetDetectedNetwork (reported (first_match env live 3 network_catalog));
           ToastWrongNetwork (name (reported (first_match env live 3 network_catalog)))
                             "Sonic Testnet" ]
  /\ (name (reported (first_match env live 3 network_catalog)) = "Unknown Network"%string
      <-> first_match env live 3 network_catalog = None).
Proof.
  intros env connection live expected Hlive Hexp Hneq. split.
  - unfold checkNetwork, actions, run. unfold_monad.
    cbn [List.length app]. rewrite Hlive. unfold ok. cbv beta iota.
    cbn [List.length app]. rewrite Hexp. unfold ok. cbv beta iota.
    replace (String.eqb live expected) with false
      by (symmetry; apply String.eqb_neq; exact Hneq).
    cbn [negb app List.length].
    rewrite probe_networks_run. unfold ok. cbn [List.length].
    unfold network_catalog. rewrite first_match_app, probed_app, length_map.
    change (3 + List.length SONIC_NETWORKS)%nat with 5%nat.
    destruct (first_match env live 3 (map (tag_provider sonic) SONIC_NETWORKS))
      as [e | ] eqn:Hfirst.
    + rewrite (first_match_provider env _ _ _ _ _ Hfirst).
      cbn [app]. rewrite <- !app_assoc. reflexivity.
    + cbn [provider Unknown_Network].
      rewrite probe_networks_run. unfold ok.
      assert (Hlen : List.length
                       ([GetGenesisHash connection;
                         GetGenesisHash (cfg_endpoint CURRENT_NETWORK);
                         SetIsCorrectNetwork false]
                          ++ map GetGenesisHash
                               (probed env live 3 (map (tag_provider sonic) SONIC_NETWORKS)))
                     = 5%nat).
      { rewrite length_app, length_map, (probed_all env _ _ _ Hfirst), length_map. reflexivity. }
      rewrite Hlen. cbn [snd]. rewrite map_app, <- !app_assoc.
      destruct (first_match env live 5 (map (tag_provider solana) SOLANA_NETWORKS_CONFIG));
        reflexivity.
  - split.
    + destruct (first_match env live 3 network_catalog) as [e | ] eqn:Hfirst; [ | reflexivity].
      intros Hname. exfalso. exact (first_match_named env _ _ _ Hfirst Hname).
    + intros ->. reflexivity.
Qed.

(** A wallet on Solana devnet while the application expects Sonic testnet:
    the verifier probes the two Sonic endpoints (the first is unreachable),
    then the Solana ones up to devnet, and reports "Solana Devnet". *)
Lemma checkNetwork_reports_first_match_witness :
  (getGenesisHash Sample.devnet_world 0 SOLANA_RPC_URL = ok "devnet-genesis"%string
   /\ getGenesisHash Sample.devnet_world 1 (cfg_endpoint CURRENT_NETWORK)
      = ok "sonic-testnet-genesis"%string
   /\ "devnet-genesis"%string <> "sonic-testnet-genesis"%string)
  /\ (actions (checkNetwork Sample.devnet_world SOLANA_RPC_URL)
      = [ GetGenesisHash SOLANA_RPC_URL; GetGenesisHash (cfg_endpoint CURRENT_NETWORK);
          SetIsCorrectNetwork false ]
          ++ map GetGenesisHash (probed Sample.devnet_world "devnet-genesis" 3 network_catalog)
          ++ [ SetDetectedNetwork
                 (reported (first_match Sample.devnet_world "devnet-genesis" 3 network_catalog));
               ToastWrongNetwork
                 (name (reported
                          (first_match Sample.devnet_world "devnet-genesis" 3 network_catalog)))
                 "Sonic Testnet" ]
      /\ (name (reported (first_match Sample.devnet_world "devnet-genesis" 3 network_catalog))
          = "Unknown Network"%string
          <-> first_match Sample.devnet_world "devnet-genesis" 3 network_catalog = None))
  /\ reported (first_match Sample.devnet_world "devnet-genesis" 3 network_catalog)
     = {| provider := solana; network := "devnet"; name := "Solana Devnet" |}
  /\ List.length (probed Sample.devnet_world "devnet-genesis" 3 network_catalog) = 5%nat.
Proof.
  split; [ | split; [ | split]].
  - repeat split. discriminate.
  - apply (checkNetwork_reports_first_match Sample.devnet_world SOLANA_RPC_URL
             "devnet-genesis" "sonic-testnet-genesis" eq_refl eq_refl).
    discriminate.
  - reflexivity.
  - reflexivity.
Defined.

(** C10: a history account of another user is discarded.  When the account
    at the buyer's history address holds, in bytes 8..40, a key other than
    the connected wallet's, [checkPurchaseHistory] sets the purchase list to
    the empty list, whatever follows those bytes.  Hence a non-empty list is
    only ever shown for an account whose user field is the wallet's key. *)
Theorem foreign_history_discarded :
  forall (rt : Runtime) (env : Env) (wallet : Wallet) (SHOP_PROGRAM_ID : string)
         (buyer programPubkey historyPDA : PublicKey) (data : Buffer),
    connected wallet = true ->
    publicKey wallet = Some buyer ->
    PublicKey_of_base58 rt SHOP_PROGRAM_ID = ok programPubkey ->
    getHistoryPDA rt programPubkey buyer = ok historyPDA ->
    getAccountInfo env 0 historyPDA = ok (Some data) ->
    (40 <= List.length data)%nat ->
    (Buf.slice data 8 40 <> toBuffer buyer ->
     actions (checkPurchaseHistory rt env wallet SHOP_PROGRAM_ID)
     = [GetAccountInfo historyPDA; SetPurchaseHistory []])
    /\
    (forall purchases,
        In (SetPurchaseHistory purchases)
           (actions (checkPurchaseHistory rt env wallet SHOP_PROGRAM_ID)) ->
        purchases <> [] ->
        Buf.slice data 8 40 = toBuffer buyer).
Proof.
  intros rt env wallet pid buyer programPubkey historyPDA data Hc Hk Hp Hh Hacc Hlen.
  assert (Hforeign :
            Buf.slice data 8 40 <> toBuffer buyer ->
            actions (checkPurchaseHistory rt env wallet pid)
            = [GetAccountInfo historyPDA; SetPurchaseHistory []]).
  { intros Hne. unfold actions, run.
    rewrite (checkPurchaseHistory_run rt env wallet pid buyer programPubkey Hc Hk Hp
               historyPDA data [] Hh Hacc).
    rewrite decode_purchase_history_foreign; [reflexivity | ].
    intros Heq. apply Hne.
    rewrite <- (toBuffer_be_value (Buf.slice data 8 40)) by (apply length_slice; lia).
    unfold toBuffer. cbn [bn]. rewrite Heq. reflexivity. }
  split; [exact Hforeign | ].
  intros purchases Hin Hnonempty.
  destruct (list_eq_dec Byte.byte_eq_dec (Buf.slice data 8 40) (toBuffer buyer))
    as [Heq | Hne]; [exact Heq | exfalso].
  rewrite (Hforeign Hne) in Hin.
  destruct Hin as [Hin | [Hin | []]]; [discriminate Hin | ].
  injection Hin as <-. apply Hnonempty. reflexivity.
Qed.

(** The history account of a stranger at the buyer's history address. *)
Lemma foreign_history_discarded_witness :
  (40 <= List.length Sample.foreign_history)%nat
  /\ Buf.slice Sample.foreign_history 8 40 <> toBuffer Sample.buyer
  /\ actions (checkPurchaseHistory Sample.rt Sample.foreign_world Sample.wallet
                Sample.SHOP_PROGRAM_ID)
     = [GetAccountInfo Sample.historyPDA; SetPurchaseHistory []].
Proof.
  assert (Hlen : (40 <= List.length Sample.foreign_history)%nat) by (vm_compute; lia).
  assert (Hne : Buf.slice Sample.foreign_history 8 40 <> toBuffer Sample.buyer)
    by (vm_compute; discriminate).
  split; [exact Hlen | split; [exact Hne | ]].
  exact (proj1 (foreign_history_discarded Sample.rt Sample.foreign_world Sample.wallet
                  Sample.SHOP_PROGRAM_ID Sample.buyer Sample.programId Sample.historyPDA
                  Sample.foreign_history eq_refl eq_refl
                  ltac:(vm_compute; reflexivity) ltac:(vm_compute; reflexivity)
                  ltac:(vm_compute; reflexivity) Hlen) Hne).
Defined.

(** C4, as the code has it: the two decoders of the shop page catch a
    decode failure where it occurs.  When parsing the history account
    throws, [checkPurchaseHistory] logs the error and sets the purchase
    list to one placeholder record, item 1 at the current time in seconds;
    when parsing an item account throws, [fetchItemDetails] logs the error
    and returns [null].  Neither hands the decode error to its caller.
    This is the page only: [getItem] of the shop client script logs the
    error of a failed read and throws it again, so that there the decode
    error does reach the caller. *)
Theorem decode_failure_placeholder :
  (forall (rt : Runtime) (env : Env) (wallet : Wallet) (SHOP_PROGRAM_ID : string)
          (buyer programPubkey historyPDA : PublicKey) (data : Buffer) (e : exn),
      connected wallet = true ->
      publicKey wallet = Some buyer ->
      PublicKey_of_base58 rt SHOP_PROGRAM_ID = ok programPubkey ->
      getHistoryPDA rt programPubkey buyer = ok historyPDA ->
      getAccountInfo env 0 historyPDA = ok (Some data) ->
      decode_purchase_history buyer data = throw e ->
      run (checkPurchaseHistory rt env wallet SHOP_PROGRAM_ID)
      = (ok tt,
         [ GetAccountInfo historyPDA;
           SetPurchaseHistory
             [ {| item_id := JS.Number 1;
                  timestamp := JS.div (Date_now env 1) (JS.Number 1000) |} ] ]))
  /\
  (forall (rt : Runtime) (env : Env) (programId itemPDA : PublicKey) (id : JS.number)
          (data : Buffer) (e : exn),
      getItemPDA rt programId id = ok itemPDA ->
      getAccountInfo env 0 itemPDA = ok (Some data) ->
      decode_item rt data = throw e ->
      run (fetchItemDetails rt env programId id) = (ok None, [GetAccountInfo itemPDA]))
  /\
  (forall (rt : Runtime) (env : Env) (programId itemPDA : PublicKey) (id : JS.number)
          (data : Buffer) (e : exn),
      getItemPDA rt programId id = ok itemPDA ->
      getAccountInfo env 0 itemPDA = ok (Some data) ->
      getItem_parse rt data = throw e ->
      run (getItem rt env programId id) = (throw e, [GetAccountInfo itemPDA])).
Proof.
  split; [ | split].
  - intros rt env wallet pid buyer programPubkey historyPDA data e Hc Hk Hp Hh Hacc Hdec.
    unfold run.
    rewrite (checkPurchaseHistory_run rt env wallet pid buyer programPubkey Hc Hk Hp
               historyPDA data [] Hh Hacc).
    rewrite Hdec. reflexivity.
  - intros rt env programId itemPDA id data e Hi Hacc Hdec.
    unfold fetchItemDetails, run. unfold_monad. simp_goal.
    step_goal Hi. step_goal Hacc. rewrite Hdec. reflexivity.
  - intros rt env programId itemPDA id data e Hi Hacc Hdec.
    unfold getItem, run. unfold_monad. simp_goal.
    step_goal Hi. step_goal Hacc. rewrite Hdec. reflexivity.
Qed.

(** A history account that declares two records and holds one, and an item
    account cut after the price, read by the page and by the script. *)
Lemma decode_failure_placeholder_witness :
  run (checkPurchaseHistory Sample.rt Sample.short_history_world Sample.wallet
         Sample.SHOP_PROGRAM_ID)
  = (ok tt,
     [ GetAccountInfo Sample.historyPDA;
       SetPurchaseHistory
         [ {| item_id := JS.Number 1;
              timestamp := JS.div (Date_now Sample.short_history_world 1) (JS.Number 1000) |} ] ])
  /\ run (fetchItemDetails Sample.rt
            (Sample.world (firstn 24 Sample.scenario_item) (JS.Number 0) None)
            Sample.programId (JS.Number 1))
     = (ok None, [GetAccountInfo Sample.itemPDA])
  /\ run (getItem Sample.rt
            (Sample.world (firstn 24 Sample.scenario_item) (JS.Number 0) None)
            Sample.programId (JS.Number 1))
     = (throw RangeError, [GetAccountInfo Sample.itemPDA]).
Proof.
  split; [ | split].
  - exact (proj1 decode_failure_placeholder Sample.rt Sample.short_history_world
             Sample.wallet Sample.SHOP_PROGRAM_ID Sample.buyer Sample.programId
             Sample.historyPDA Sample.short_history RangeError eq_refl eq_refl
             ltac:(vm_compute; reflexivity) ltac:(vm_compute; reflexivity)
             ltac:(vm_compute; reflexivity) ltac:(vm_compute; reflexivity)).
  - exact (proj1 (proj2 decode_failure_placeholder) Sample.rt
             (Sample.world (firstn 24 Sample.scenario_item) (JS.Number 0) None)
             Sample.programId Sample.itemPDA (JS.Number 1)
             (firstn 24 Sample.scenario_item) RangeError
             ltac:(vm_compute; reflexivity) ltac:(vm_compute; reflexivity)
             ltac:(vm_compute; reflexivity)).
  - exact (proj2 (proj2 decode_failure_placeholder) Sample.rt
             (Sample.world (firstn 24 Sample.scenario_item) (JS.Number 0) None)
             Sample.programId Sample.itemPDA (JS.Number 1)
             (firstn 24 Sample.scenario_item) RangeError
             ltac:(vm_compute; reflexivity) ltac:(vm_compute; reflexivity)
             ltac:(vm_compute; reflexivity)).
Defined.

(** C4 as stated fails: the buyer's history account declares two records
    and holds one (item 2, bought at 1600000000).  Decoding throws, and the
    page shows a record that is not in the account: item 1, bought now. *)
Lemma decode_failure_counterexample :
  decode_purchase_history Sample.buyer Sample.short_history = throw RangeError
  /\ actions (checkPurchaseHistory Sample.rt Sample.short_history_world Sample.wallet
                Sample.SHOP_PROGRAM_ID)
     = [ GetAccountInfo Sample.historyPDA;
         SetPurchaseHistory
           [ {| item_id := JS.Number 1; timestamp := JS.Number 1700000000 |} ] ].
Proof.
  split; vm_compute; reflexivity.
Qed.

(** C2, as the code has it: what a short buffer does to the decoders.
    The fixed-width reads are checked: an item account of fewer than 28
    bytes makes [decode_item] throw [RangeError], and a history account of
    the connected wallet whose count declares more 16-byte records than
    remain makes [decode_purchase_history] throw [RangeError], so that no
    partial list comes out of it.  The metadata URI is not checked: an item
    account of 28 bytes or more always decodes, the URI is sliced, and a
    declared length that exceeds the bytes that remain yields the bytes that
    remain. *)
Theorem truncated_buffers :
  forall (rt : Runtime),
    (forall data : Buffer,
        (List.length data < 28)%nat -> decode_item rt data = throw RangeError)
    /\
    (forall data : Buffer,
        (28 <= List.length data)%nat -> exists item, decode_item rt data = ok item)
    /\
    (forall (buyer : PublicKey) (data : Buffer) (count : Z),
        be_value (Buf.slice data 8 40) = bn buyer ->
        Buf.readUInt32LE data 40 = ok count ->
        (List.length data < 44 + 16 * Z.to_nat count)%nat ->
        decode_purchase_history buyer data = throw RangeError)
    /\
    (forall (discriminator remaining : Buffer) (id price declared : Z),
        List.length discriminator = 8%nat ->
        0 <= id < 2 ^ 64 -> 0 <= price < 2 ^ 64 -> 0 <= declared < 2 ^ 32 ->
        (List.length remaining < Z.to_nat declared)%nat ->
        decode_item rt (discriminator ++ le_bytes 8 id ++ le_bytes 8 price
                          ++ le_bytes 4 declared ++ remaining)
        = ok {| id := JS.Number id;
                price := JS.div (JS.Number price) LAMPORTS_PER_SOL;
                metadataUri := toString_utf8 rt remaining |}).
Proof.
  intros rt. split; [ | split; [ | split]].
  - apply decode_item_short.
  - apply decode_item_total.
  - apply decode_purchase_history_short.
  - intros disc remaining idz pz n Hd Hi Hp Hn Hshort.
    rewrite decode_item_layout by assumption.
    rewrite firstn_all2 by lia. reflexivity.
Qed.

(** An item account cut after the price, the short history account, and the
    item account whose URI is shorter than declared. *)
Lemma truncated_buffers_witness :
  decode_item Sample.rt (firstn 24 Sample.scenario_item) = throw RangeError
  /\ decode_purchase_history Sample.buyer Sample.short_history = throw RangeError
  /\ decode_item Sample.rt Sample.truncated_item
     = ok {| id := JS.Number 1;
             price := JS.div (JS.Number 1000000000) LAMPORTS_PER_SOL;
             metadataUri := "abc" |}.
Proof.
  split; [ | split].
  - apply (proj1 (truncated_buffers Sample.rt)). vm_compute. lia.
  - apply (proj1 (proj2 (proj2 (truncated_buffers Sample.rt)))
             Sample.buyer Sample.short_history 2).
    + vm_compute. reflexivity.
    + vm_compute. reflexivity.
    + vm_compute. lia.
  - apply (proj2 (proj2 (proj2 (truncated_buffers Sample.rt)))
             Sample.discriminator (list_byte_of_string "abc") 1 1000000000 10).
    + reflexivity.
    + lia.
    + lia.
    + lia.
    + vm_compute. lia.
Defined.

(** C2 as stated fails: the item account declares a URI of 10 bytes, 3
    bytes remain, and [decode_item] returns an item whose URI is those 3
    bytes instead of failing. *)
Lemma truncated_buffers_counterexample :
  Buf.readUInt32LE Sample.truncated_item 24 = ok 10
  /\ List.length Sample.truncated_item = 31%nat
  /\ decode_item Sample.rt Sample.truncated_item
     = ok {| id := JS.Number 1; price := JS.Number 1; metadataUri := "abc" |}.
Proof.
  repeat split.
Qed.

(** C3, as the code has it: what decoding returns for an encoded record.
    [add_item_data] lays an item out as an 8-byte tag, id and price as u64,
    the 4-byte length of the URI and its bytes; [decode_item] reads that
    layout back as: the id as a number, the price as a number divided by
    1_000_000_000 (SOL, the unit the page displays), and the URI; the
    scripts' [getItem] and [getItemDetails] read the same layout back with
    the price in lamports.  An id or a price below 2^53 comes back as the
    same integer.  A PurchaseHistory of the
    connected wallet decodes to its records, in order, ids and timestamps as
    numbers; of a Shop the page reads the admin key back. *)
Theorem decode_encoded_layout :
  forall (rt : Runtime),
    (forall (id price : JS.number) (metadataUri : string) (bigId bigPrice : Z),
        JS.BigInt id = ok bigId ->
        JS.BigInt price = ok bigPrice ->
        0 <= bigId < 2 ^ 64 ->
        0 <= bigPrice < 2 ^ 64 ->
        Z.of_nat (List.length (Buffer_from_string rt metadataUri)) < 2 ^ 32 ->
        toString_utf8 rt (Buffer_from_string rt metadataUri) = metadataUri ->
        exists data,
          add_item_data rt id price metadataUri = ok data /\
          decode_item rt data
          = ok {| id := JS.Number bigId;
                  price := JS.div (JS.Number bigPrice) LAMPORTS_PER_SOL;
                  metadataUri := metadataUri |} /\
          getItem_parse rt data
          = ok {| id := JS.Number bigId; price := JS.Number bigPrice;
                  metadataUri := metadataUri |} /\
          getItemDetails_parse rt data
          = ok {| id := JS.Number bigId; price := JS.Number bigPrice;
                  metadataUri := metadataUri |} /\
          (bigId < 2 ^ 53 -> JS.BigInt (JS.Number bigId) = ok bigId) /\
          (bigPrice < 2 ^ 53 -> JS.BigInt (JS.Number bigPrice) = ok bigPrice))
    /\
    (forall (discriminator : Buffer) (user : PublicKey) (records : list (Z * Z)),
        List.length discriminator = 8%nat ->
        0 <= bn user < 2 ^ 256 ->
        Z.of_nat (List.length records) < 2 ^ 32 ->
        Forall record_in_range records ->
        decode_purchase_history user (encode_purchase_history discriminator user records)
        = ok (map (fun r => {| item_id := JS.Number (fst r);
                               timestamp := JS.Number (snd r) |}) records))
    /\
    (forall (discriminator : Buffer) (admin : PublicKey) (item_count : Z),
        List.length discriminator = 8%nat ->
        0 <= bn admin < 2 ^ 256 ->
        new_PublicKey (Buf.slice (encode_shop discriminator admin item_count) 8 40)
        = ok admin).
Proof.
  intros rt. split; [ | split].
  - intros id price uri bigId bigPrice Hid Hprice Hir Hpr Hlen Hutf.
    unfold add_item_data, Buf.writeBigUInt64LE, Buf.writeUInt32LE.
    rewrite Hid, Hprice. cbn [rbind ok].
    replace ((0 <=? bigId) && (bigId <? 2 ^ 64)) with true
      by (symmetry; apply andb_true_iff; split; [apply Z.leb_le | apply Z.ltb_lt]; lia).
    replace ((0 <=? bigPrice) && (bigPrice <? 2 ^ 64)) with true
      by (symmetry; apply andb_true_iff; split; [apply Z.leb_le | apply Z.ltb_lt]; lia).
    replace ((0 <=? Z.of_nat (List.length (Buffer_from_string rt uri)))
             && (Z.of_nat (List.length (Buffer_from_string rt uri)) <? 2 ^ 32)) with true
      by (symmetry; apply andb_true_iff; split; [apply Z.leb_le | apply Z.ltb_lt]; lia).
    eexists. split; [reflexivity | ].
    cbn [List.concat]. rewrite app_nil_r.
    split; [ | split; [ | split; [ | split]]].
    + rewrite decode_item_layout; [ | reflexivity | assumption | assumption | lia].
      rewrite Nat2Z.id, firstn_all, Hutf. reflexivity.
    + rewrite getItem_parse_layout; [ | reflexivity | assumption | assumption | lia].
      rewrite Nat2Z.id, firstn_all, Hutf. reflexivity.
    + rewrite getItemDetails_parse_layout; [ | reflexivity | assumption | assumption | lia].
      rewrite Nat2Z.id, firstn_all, Hutf. reflexivity.
    + intros Hsafe. apply BigInt_Number. lia.
    + intros Hsafe. apply BigInt_Number. lia.
  - intros disc user records Hd Hu Hn Hr.
    rewrite decode_purchase_history_layout by assumption. reflexivity.
  - apply decode_shop_admin.
Qed.

(** The item of the end-to-end scenario, a history of two purchases (the
    second stamped before 1970) and the sample shop. *)
Lemma decode_encoded_layout_witness :
  (exists data,
      add_item_data Sample.rt (JS.Number 1) (JS.Number 1000000000) Sample.uri = ok data /\
      decode_item Sample.rt data
      = ok {| id := JS.Number 1;
              price := JS.div (JS.Number 1000000000) LAMPORTS_PER_SOL;
              metadataUri := Sample.uri |} /\
      getItem_parse Sample.rt data
      = ok {| id := JS.Number 1; price := JS.Number 1000000000;
              metadataUri := Sample.uri |} /\
      getItemDetails_parse Sample.rt data
      = ok {| id := JS.Number 1; price := JS.Number 1000000000;
              metadataUri := Sample.uri |} /\
      (1 < 2 ^ 53 -> JS.BigInt (JS.Number 1) = ok 1) /\
      (1000000000 < 2 ^ 53 -> JS.BigInt (JS.Number 1000000000) = ok 1000000000))
  /\ decode_purchase_history Sample.buyer
       (encode_purchase_history Sample.discriminator Sample.buyer
          [(2, 1600000000); (3, -5)])
     = ok [ {| item_id := JS.Number 2; timestamp := JS.Number 1600000000 |};
            {| item_id := JS.Number 3; timestamp := JS.Number (-5) |} ]
  /\ new_PublicKey (Buf.slice (encode_shop Sample.discriminator Sample.admin 1) 8 40)
     = ok Sample.admin.
Proof.
  split; [ | split].
  - apply (proj1 (decode_encoded_layout Sample.rt)
             (JS.Number 1) (JS.Number 1000000000) Sample.uri 1 1000000000).
    + reflexivity.
    + reflexivity.
    + lia.
    + lia.
    + vm_compute. reflexivity.
    + reflexivity.
  - apply (proj1 (proj2 (decode_encoded_layout Sample.rt))
             Sample.discriminator Sample.buyer [(2, 1600000000); (3, -5)]).
    + reflexivity.
    + cbn. lia.
    + cbn. lia.
    + repeat constructor; cbn; lia.
  - apply (proj2 (proj2 (decode_encoded_layout Sample.rt))).
    + reflexivity.
    + cbn. lia.
Defined.

(** C3 as stated fails: the item of the end-to-end scenario is encoded with
    price 1_000_000_000 lamports and decoded with price 1. *)
Lemma decode_encoded_layout_counterexample :
  rbind (add_item_data Sample.rt (JS.Number 1) (JS.Number 1000000000) Sample.uri)
        (decode_item Sample.rt)
  = ok {| id := JS.Number 1; price := JS.Number 1; metadataUri := Sample.uri |}
  /\ JS.Number 1 <> JS.Number 1000000000.
Proof.
  split; [vm_compute; reflexivity | vm_compute; discriminate].
Qed.

(** C9: address derivation is a function of its inputs.  Two calls of
    [deriveAddress] with the same seeds and the same program identifier give
    the same (address, bump) pair.  The shop, item and history addresses are
    [deriveAddress] on the seeds ["shop"], ["item", id as 8 little-endian
    bytes] and ["history", the buyer's 32 bytes].  And the three addresses a
    purchase instruction refers to are fixed by the runtime, the wallet, the
    program identifier and the item alone: they are the same in every world
    in which [handlePurchase] gets as far as signing. *)
Theorem deriveAddress_deterministic :
  forall (rt : Runtime),
    (forall (seeds1 seeds2 : list Buffer) (programId1 programId2 : PublicKey),
        seeds1 = seeds2 -> programId1 = programId2 ->
        deriveAddress rt seeds1 programId1 = deriveAddress rt seeds2 programId2)
    /\
    (forall programId : PublicKey,
        getShopPDA rt programId
        = rbind (deriveAddress rt [list_byte_of_string "shop"] programId)
                (fun r => ok (fst r)))
    /\
    (forall (programId : PublicKey) (id : JS.number) (bigId : Z),
        JS.BigInt id = ok bigId -> 0 <= bigId < 2 ^ 64 ->
        getItemPDA rt programId id
        = rbind (deriveAddress rt [list_byte_of_string "item"; le_bytes 8 bigId] programId)
                (fun r => ok (fst r)))
    /\
    (forall programId buyer : PublicKey,
        getHistoryPDA rt programId buyer
        = rbind (deriveAddress rt [list_byte_of_string "history"; toBuffer buyer] programId)
                (fun r => ok (fst r)))
    /\
    (forall (wallet : Wallet) (SHOP_PROGRAM_ID : string) (itemId : JS.number),
      exists shopPDA itemPDA historyPDA : PublicKey,
      forall (env : Env) (tx : Transaction),
        In (SignTransaction tx) (actions (handlePurchase rt env wallet SHOP_PROGRAM_ID itemId)) ->
        exists buyer admin program data,
          instructions tx
          = [ SetComputeUnitLimit 1000000;
              TransactionInstruction
                [ {| pubkey := buyer; isSigner := true; isWritable := true |};
                  {| pubkey := shopPDA; isSigner := false; isWritable := false |};
                  {| pubkey := itemPDA; isSigner := false; isWritable := false |};
                  {| pubkey := admin; isSigner := false; isWritable := true |};
                  {| pubkey := historyPDA; isSigner := false; isWritable := true |};
                  {| pubkey := SystemProgram_programId; isSigner := false;
                     isWritable := false |} ]
                program data ]).
Proof.
  intros rt. split; [ | split; [ | split; [ | split]]].
  - intros seeds1 seeds2 programId1 programId2 -> ->. reflexivity.
  - reflexivity.
  - apply getItemPDA_seeds.
  - reflexivity.
  - intros wallet pid itemId.
    assert (Hnone :
              forall P : Prop,
                (forall env tx,
                    In (SignTransaction tx) (actions (handlePurchase rt env wallet pid itemId)) ->
                    P) ->
                exists shopPDA itemPDA historyPDA : PublicKey,
                forall (env : Env) (tx : Transaction),
                  In (SignTransaction tx) (actions (handlePurchase rt env wallet pid itemId)) ->
                  P).
    { intros P HP. exists SystemProgram_programId, SystemProgram_programId,
        SystemProgram_programId. exact HP. }
    destruct (publicKey wallet) as [buyer | ] eqn:Hk.
    2:{ destruct (Hnone False) as (a & b & c & Hfalse).
        - intros env tx H. apply handlePurchase_sign_inv in H.
          destruct H as (? & ? & ? & ? & ? & ? & ? & ? & ? & _ & Hk' & _). congruence.
        - exists a, b, c. intros env tx H. destruct (Hfalse env tx H). }
    destruct (PublicKey_of_base58 rt pid) as [e | programPubkey] eqn:Hp.
    { destruct (Hnone False) as (a & b & c & Hfalse).
      - intros env tx H. apply handlePurchase_sign_inv in H.
        destruct H as (? & ? & ? & ? & ? & ? & ? & ? & ? & _ & _ & Hp' & _).
        unfold ok in *. congruence.
      - exists a, b, c. intros env tx H. destruct (Hfalse env tx H). }
    destruct (getShopPDA rt programPubkey) as [e | shopPDA] eqn:Hs.
    { destruct (Hnone False) as (a & b & c & Hfalse).
      - intros env tx H. apply handlePurchase_sign_inv in H.
        destruct H as (? & ? & ? & ? & ? & ? & ? & ? & ? & _ & _ & Hp' & Hs' & _).
        unfold ok in *. congruence.
      - exists a, b, c. intros env tx H. destruct (Hfalse env tx H). }
    destruct (getItemPDA rt programPubkey itemId) as [e | itemPDA] eqn:Hi.
    { destruct (Hnone False) as (a & b & c & Hfalse).
      - intros env tx H. apply handlePurchase_sign_inv in H.
        destruct H as (? & ? & ? & ? & ? & ? & ? & ? & ? & _ & _ & Hp' & _ & Hi' & _).
        unfold ok in *. congruence.
      - exists a, b, c. intros env tx H. destruct (Hfalse env tx H). }
    destruct (getHistoryPDA rt programPubkey buyer) as [e | historyPDA] eqn:Hh.
    { destruct (Hnone False) as (a & b & c & Hfalse).
      - intros env tx H. apply handlePurchase_sign_inv in H.
        destruct H as (? & ? & ? & ? & ? & ? & ? & ? & ? & _ & Hk' & Hp' & _ & _ & Hh' & _).
        unfold ok in *. congruence.
      - exists a, b, c. intros env tx H. destruct (Hfalse env tx H). }
    exists shopPDA, itemPDA, historyPDA. intros env tx H.
    apply handlePurchase_sign_inv in H.
    destruct H as (buyer' & programPubkey' & shopPDA' & itemPDA' & historyPDA' & shopData
                   & adminPubkey & account & blockhash
                   & _ & Hk' & Hp' & Hs' & Hi' & Hh' & _ & _ & _ & ->).
    unfold ok in *.
    assert (buyer' = buyer) by congruence. subst buyer'.
    assert (programPubkey' = programPubkey) by congruence. subst programPubkey'.
    assert (shopPDA' = shopPDA) by congruence.
    assert (itemPDA' = itemPDA) by congruence.
    assert (historyPDA' = historyPDA) by congruence.
    subst. do 4 eexists. reflexivity.
Qed.

(** The addresses of the sample program. *)
Lemma deriveAddress_deterministic_witness :
  deriveAddress Sample.rt [list_byte_of_string "shop"] Sample.programId
  = deriveAddress Sample.rt [list_byte_of_string "shop"] Sample.programId
  /\ getItemPDA Sample.rt Sample.programId (JS.Number 1)
     = rbind (deriveAddress Sample.rt [list_byte_of_string "item"; le_bytes 8 1]
                Sample.programId)
             (fun r => ok (fst r))
  /\ exists buyer admin program data,
      instructions (Sample.purchase_tx false)
      = [ SetComputeUnitLimit 1000000;
          TransactionInstruction
            [ {| pubkey := buyer; isSigner := true; isWritable := true |};
              {| pubkey := Sample.shopPDA; isSigner := false; isWritable := false |};
              {| pubkey := Sample.itemPDA; isSigner := false; isWritable := false |};
              {| pubkey := admin; isSigner := false; isWritable := true |};
              {| pubkey := Sample.historyPDA; isSigner := false; isWritable := true |};
              {| pubkey := SystemProgram_programId; isSigner := false;
                 isWritable := false |} ]
            program data ].
Proof.
  split; [ | split].
  - exact (proj1 (deriveAddress_deterministic Sample.rt) _ _ _ _ eq_refl eq_refl).
  - apply (proj1 (proj2 (proj2 (deriveAddress_deterministic Sample.rt)))).
    + reflexivity.
    + lia.
  - do 4 eexists. reflexivity.
Defined.

(** * Further properties of the code

    The lemmas below cover the remaining functions of the shop page, the
    two command-line scripts and the network banner. *)

(** ** Reads at an offset *)

Lemma bytes_at_within (data : Buffer) (offset n : nat) :
  (offset + n <= List.length data)%nat ->
  Buf.bytes_at data offset n = ok (Buf.slice data offset (offset + n)).
Proof.
  intros H. unfold Buf.bytes_at.
  replace (offset + n <=? List.length data)%nat with true by (symmetry; apply Nat.leb_le; exact H).
  reflexivity.
Qed.

Lemma bytes_at_beyond (data : Buffer) (offset n : nat) :
  (List.length data < offset + n)%nat ->
  Buf.bytes_at data offset n = throw RangeError.
Proof.
  intros H. unfold Buf.bytes_at.
  replace (offset + n <=? List.length data)%nat with false by (symmetry; apply Nat.leb_gt; exact H).
  reflexivity.
Qed.

Lemma slice_skipn (data : Buffer) (k start stop : nat) :
  Buf.slice (skipn k data) start stop = Buf.slice data (k + start) (k + stop).
Proof.
  unfold Buf.slice. rewrite skipn_skipn.
  replace (k + stop - (k + start))%nat with (stop - start)%nat by lia.
  rewrite (Nat.add_comm start k). reflexivity.
Qed.

(** Reading after [data.slice(k)] is reading [k] bytes further on. *)
Lemma bytes_at_skipn (data : Buffer) (k offset n : nat) :
  (0 < n)%nat ->
  Buf.bytes_at (skipn k data) offset n = Buf.bytes_at data (k + offset) n.
Proof.
  intros Hn.
  destruct (le_lt_dec (k + offset + n) (List.length data)) as [Hin | Hout].
  - rewrite !bytes_at_within by (rewrite ?length_skipn; lia).
    rewrite slice_skipn. do 2 f_equal. lia.
  - rewrite !bytes_at_beyond by (rewrite ?length_skipn; lia). reflexivity.
Qed.

(** Reading past a prefix does not see it. *)
Lemma slice_past_prefix (prefix rest : Buffer) (start stop : nat) :
  (List.length prefix <= start)%nat ->
  Buf.slice (prefix ++ rest) start stop
  = Buf.slice rest (start - List.length prefix) (stop - List.length prefix).
Proof.
  intros H. unfold Buf.slice.
  rewrite skipn_app, skipn_all2 by exact H. cbn [app].
  f_equal. lia.
Qed.

Lemma bytes_at_past_prefix (prefix rest : Buffer) (offset n : nat) :
  (List.length prefix <= offset)%nat ->
  Buf.bytes_at (prefix ++ rest) offset n = Buf.bytes_at rest (offset - List.length prefix) n.
Proof.
  intros H.
  destruct (le_lt_dec (offset + n) (List.length (prefix ++ rest))) as [Hin | Hout].
  - rewrite length_app in Hin.
    rewrite !bytes_at_within by (rewrite ?length_app; lia).
    rewrite slice_past_prefix by exact H. do 2 f_equal. lia.
  - rewrite length_app in Hout.
    rewrite !bytes_at_beyond by (rewrite ?length_app; lia). reflexivity.
Qed.

(** Bytes that follow do not change a read that lies inside the buffer. *)
Lemma slice_app_within (data padding : Buffer) (start stop : nat) :
  (stop <= List.length data)%nat ->
  Buf.slice (data ++ padding) start stop = Buf.slice data start stop.
Proof.
  intros H. unfold Buf.slice.
  rewrite skipn_app, firstn_app, length_skipn.
  replace (stop - start - (List.length data - start))%nat with 0%nat by lia.
  cbn [firstn]. apply app_nil_r.
Qed.

Lemma bytes_at_app_within (data padding : Buffer) (offset n : nat) :
  (offset + n <= List.length data)%nat ->
  Buf.bytes_at (data ++ padding) offset n = Buf.bytes_at data offset n.
Proof.
  intros H. rewrite !bytes_at_within by (rewrite ?length_app; lia).
  rewrite slice_app_within by lia. reflexivity.
Qed.

Lemma bytes_at_ok_length (data : Buffer) (offset n : nat) (bs : Buffer) :
  Buf.bytes_at data offset n = ok bs -> (offset + n <= List.length data)%nat.
Proof.
  unfold Buf.bytes_at. destruct (offset + n <=? List.length data)%nat eqn:H; [ | discriminate].
  intros _. apply Nat.leb_le. exact H.
Qed.

Lemma readUInt32LE_ok_length (data : Buffer) (offset : nat) (v : Z) :
  Buf.readUInt32LE data offset = ok v -> (offset + 4 <= List.length data)%nat.
Proof.
  unfold Buf.readUInt32LE. destruct (Buf.bytes_at data offset 4) as [e | bs] eqn:H; [discriminate | ].
  intros _. exact (bytes_at_ok_length _ _ _ _ H).
Qed.

(** The record loop on a buffer that holds the declared records. *)
Lemma read_purchases_within (data : Buffer) (n offset : nat) :
  (offset + 16 * n <= List.length data)%nat ->
  exists purchases,
    read_purchases data n offset = ok purchases /\
    List.length purchases = n /\
    forall i, (i < n)%nat ->
      exists a b,
        Buf.readBigUInt64LE data (offset + 16 * i) = ok a /\
        Buf.readBigInt64LE data (offset + 16 * i + 8) = ok b /\
        nth_error purchases i = Some {| item_id := JS.Number a; timestamp := JS.Number b |}.
Proof.
  revert offset. induction n as [ | n IH]; intros offset H.
  - exists []. repeat split. intros i Hi. lia.
  - destruct (IH (offset + 16)%nat ltac:(lia)) as (rest & Hrest & Hlen & Hnth).
    cbn [read_purchases].
    unfold Buf.readBigUInt64LE, Buf.readBigInt64LE in *.
    rewrite !bytes_at_within by lia. cbn [rbind ok].
    rewrite Hrest. cbn [rbind ok].
    eexists. split; [reflexivity | ]. split; [cbn [List.length]; lia | ].
    intros [ | i] Hi.
    + rewrite Nat.mul_0_r, Nat.add_0_r.
      rewrite !bytes_at_within by lia. cbn [rbind ok].
      do 2 eexists. repeat split.
    + destruct (Hnth i ltac:(lia)) as (a & b & Ha & Hb & Hi').
      replace (offset + 16 * S i)%nat with (offset + 16 + 16 * i)%nat by lia.
      exists a, b. repeat split; assumption.
Qed.

(** The record loop does not see bytes that follow the records. *)
Lemma read_purchases_app (data padding : Buffer) (n offset : nat) (purchases : list PurchaseRecord) :
  (offset <= List.length data)%nat ->
  read_purchases data n offset = ok purchases ->
  read_purchases (data ++ padding) n offset = ok purchases.
Proof.
  intros Hoff H.
  destruct (le_lt_dec (offset + 16 * n) (List.length data)) as [Hin | Hout].
  - clear Hoff. revert offset purchases H Hin.
    induction n as [ | n IH]; intros offset purchases H Hin; [exact H | ].
    cbn [read_purchases] in *.
    unfold Buf.readBigUInt64LE, Buf.readBigInt64LE in *.
    rewrite !bytes_at_app_within by lia.
    destruct (Buf.bytes_at data offset 8) as [e | bs1]; [discriminate | ]. cbn [rbind ok] in *.
    destruct (Buf.bytes_at data (offset + 8) 8) as [e | bs2]; [discriminate | ].
    cbn [rbind ok] in *.
    destruct (read_purchases data n (offset + 16)) as [e | rest] eqn:Hrest; [discriminate | ].
    rewrite (IH _ _ Hrest) by lia. exact H.
  - rewrite read_purchases_short in H by lia. discriminate.
Qed.

Lemma read_purchases_past_prefix (prefix rest : Buffer) (n offset : nat) :
  (List.length prefix <= offset)%nat ->
  read_purchases (prefix ++ rest) n offset
  = read_purchases rest n (offset - List.length prefix).
Proof.
  revert offset. induction n as [ | n IH]; intros offset H; [reflexivity | ].
  cbn [read_purchases]. unfold Buf.readBigUInt64LE, Buf.readBigInt64LE.
  rewrite !bytes_at_past_prefix by lia.
  rewrite IH by lia.
  replace (offset + 8 - List.length prefix)%nat with (offset - List.length prefix + 8)%nat by lia.
  replace (offset + 16 - List.length prefix)%nat with (offset - List.length prefix + 16)%nat by lia.
  reflexivity.
Qed.


Section DecoderFacts.

Variable rt : Runtime.

(** [getItem] reads the same fields as [getItemDetails], on every buffer. *)
Lemma getItem_parse_as_details (data : Buffer) :
  getItem_parse rt data = getItemDetails_parse rt data.
Proof.
  unfold getItem_parse, getItemDetails_parse, Buf.readBigUInt64LE, Buf.readUInt32LE.
  rewrite !bytes_at_skipn by lia. cbn [Nat.add].
  destruct (Buf.bytes_at data 8 8) as [e | rawId]; [reflexivity | ]. cbn [rbind ok].
  destruct (Buf.bytes_at data 16 8) as [e | rawPrice]; [reflexivity | ]. cbn [rbind ok].
  destruct (Buf.bytes_at data 24 4) as [e | len]; [reflexivity | ]. cbn [rbind ok].
  rewrite slice_skipn. reflexivity.
Qed.

(** The page reads the same fields and divides the price. *)
Lemma decode_item_as_details (data : Buffer) :
  decode_item rt data
  = rbind (getItemDetails_parse rt data)
          (fun item =>
             ok {| id := id item;
                   price := JS.div (price item) LAMPORTS_PER_SOL;
                   metadataUri := metadataUri item |}).
Proof.
  unfold decode_item, getItemDetails_parse, Buf.readBigUInt64LE, Buf.readUInt32LE.
  destruct (Buf.bytes_at data 8 8) as [e | rawId]; [reflexivity | ]. cbn [rbind ok].
  destruct (Buf.bytes_at data (8 + 8) 8) as [e | rawPrice]; [reflexivity | ]. cbn [rbind ok].
  destruct (Buf.bytes_at data (8 + 8 + 8) 4) as [e | len]; reflexivity.
Qed.

(** The readers never look at the first eight bytes. *)
Lemma getItemDetails_parse_tag (tag1 tag2 rest : Buffer) :
  List.length tag1 = 8%nat -> List.length tag2 = 8%nat ->
  getItemDetails_parse rt (tag1 ++ rest) = getItemDetails_parse rt (tag2 ++ rest).
Proof.
  intros H1 H2. unfold getItemDetails_parse, Buf.readBigUInt64LE, Buf.readUInt32LE.
  rewrite !bytes_at_past_prefix by lia. rewrite H1, H2.
  destruct (Buf.bytes_at rest (8 - 8) 8) as [e | rawId]; [reflexivity | ]. cbn [rbind ok].
  destruct (Buf.bytes_at rest (8 + 8 - 8) 8) as [e | rawPrice]; [reflexivity | ].
  cbn [rbind ok].
  destruct (Buf.bytes_at rest (8 + 8 + 8 - 8) 4) as [e | len]; [reflexivity | ].
  cbn [rbind ok].
  rewrite !slice_past_prefix by lia. rewrite H1, H2. reflexivity.
Qed.

(** The readers do not see bytes that follow the declared URI. *)
Lemma getItemDetails_parse_app (data padding : Buffer) (n : Z) :
  Buf.readUInt32LE data 24 = ok n ->
  (28 + Z.to_nat n <= List.length data)%nat ->
  getItemDetails_parse rt (data ++ padding) = getItemDetails_parse rt data.
Proof.
  intros Hn Hlen. pose proof (readUInt32LE_ok_length _ _ _ Hn) as H28.
  unfold getItemDetails_parse, Buf.readBigUInt64LE in *.
  unfold Buf.readUInt32LE in *.
  rewrite !bytes_at_app_within by lia. cbn [Nat.add] in *.
  destruct (Buf.bytes_at data 8 8) as [e | rawId]; [reflexivity | ]. cbn [rbind ok].
  destruct (Buf.bytes_at data 16 8) as [e | rawPrice]; [reflexivity | ].
  cbn [rbind ok].
  destruct (Buf.bytes_at data 24 4) as [e | len]; [reflexivity | ].
  cbn [rbind ok] in *. injection Hn as Hn. rewrite Hn.
  rewrite slice_app_within by lia. reflexivity.
Qed.

End DecoderFacts.

Lemma decode_purchase_history_tag (buyer : PublicKey) (tag1 tag2 rest : Buffer) :
  List.length tag1 = 8%nat -> List.length tag2 = 8%nat ->
  decode_purchase_history buyer (tag1 ++ rest) = decode_purchase_history buyer (tag2 ++ rest).
Proof.
  intros H1 H2. unfold decode_purchase_history, Buf.readUInt32LE.
  rewrite !slice_past_prefix, !bytes_at_past_prefix by lia. rewrite H1, H2.
  destruct (new_PublicKey _) as [e | userPubkey]; [reflexivity | ]. cbn [rbind ok].
  destruct (negb (equals userPubkey buyer)); [reflexivity | ].
  destruct (Buf.bytes_at rest (40 - 8) 4) as [e | len]; [reflexivity | ]. cbn [rbind ok].
  rewrite !read_purchases_past_prefix by lia. rewrite H1, H2. reflexivity.
Qed.

Lemma decode_purchase_history_app (buyer : PublicKey) (data padding : Buffer)
  (purchases : list PurchaseRecord) :
  (40 <= List.length data)%nat ->
  decode_purchase_history buyer data = ok purchases ->
  decode_purchase_history buyer (data ++ padding) = ok purchases.
Proof.
  intros Hlen. unfold decode_purchase_history.
  rewrite slice_app_within by lia.
  destruct (new_PublicKey _) as [e | userPubkey]; [discriminate | ]. cbn [rbind ok].
  destruct (negb (equals userPubkey buyer)); [intros H; exact H | ].
  destruct (Buf.readUInt32LE data 40) as [e | len] eqn:Hcount; [discriminate | ].
  pose proof (readUInt32LE_ok_length _ _ _ Hcount) as H44.
  unfold Buf.readUInt32LE in *. rewrite bytes_at_app_within by lia.
  destruct (Buf.bytes_at data 40 4) as [e | bs]; [discriminate | ].
  cbn [rbind ok] in *. injection Hcount as ->.
  apply read_purchases_app. lia.
Qed.

(** * Further properties *)

(** X1: the three item readers agree on every buffer.  [getItem] of the
    shop client and [getItemDetails] of the delete-item script return the
    same fields, or fail alike, whatever the account holds; the page's
    reader returns the same identifier and URI, with the price divided by
    1_000_000_000, and fails on the same buffers. *)
Theorem item_decoders_agree :
  forall (rt : Runtime) (data : Buffer),
    getItem_parse rt data = getItemDetails_parse rt data
    /\ decode_item rt data
       = rbind (getItemDetails_parse rt data)
               (fun item =>
                  ok {| id := id item;
                        price := JS.div (price item) LAMPORTS_PER_SOL;
                        metadataUri := metadataUri item |}).
Proof.
  intros rt data. split.
  - apply getItem_parse_as_details.
  - apply decode_item_as_details.
Qed.

(** X2: the readers never check the account tag.  The first eight bytes of
    an account (its discriminator) have no influence on what the item
    readers, the history reader of the page and the admin and price reads of
    [handlePurchase] return: two accounts that differ only there are read
    alike. *)
Theorem account_tag_never_checked :
  forall (rt : Runtime) (buyer : PublicKey) (tag1 tag2 rest : Buffer),
    List.length tag1 = 8%nat ->
    List.length tag2 = 8%nat ->
    decode_item rt (tag1 ++ rest) = decode_item rt (tag2 ++ rest)
    /\ getItem_parse rt (tag1 ++ rest) = getItem_parse rt (tag2 ++ rest)
    /\ getItemDetails_parse rt (tag1 ++ rest) = getItemDetails_parse rt (tag2 ++ rest)
    /\ decode_purchase_history buyer (tag1 ++ rest)
       = decode_purchase_history buyer (tag2 ++ rest)
    /\ new_PublicKey (Buf.slice (tag1 ++ rest) 8 40)
       = new_PublicKey (Buf.slice (tag2 ++ rest) 8 40)
    /\ Buf.readBigUInt64LE (tag1 ++ rest) 16 = Buf.readBigUInt64LE (tag2 ++ rest) 16.
Proof.
  intros rt buyer tag1 tag2 rest H1 H2.
  pose proof (getItemDetails_parse_tag rt tag1 tag2 rest H1 H2) as Hd.
  split; [ | split; [ | split; [ | split; [ | split]]]].
  - rewrite !decode_item_as_details, Hd. reflexivity.
  - rewrite !getItem_parse_as_details. exact Hd.
  - exact Hd.
  - apply decode_purchase_history_tag; assumption.
  - rewrite !slice_past_prefix by lia. rewrite H1, H2. reflexivity.
  - unfold Buf.readBigUInt64LE. rewrite !bytes_at_past_prefix by lia.
    rewrite H1, H2. reflexivity.
Qed.

(** The item of the end-to-end scenario under the tag of another account
    type. *)
Lemma account_tag_never_checked_witness :
  decode_item Sample.rt (Buffer_from_array [1; 2; 3; 4; 5; 6; 7; 8]
                           ++ skipn 8 Sample.scenario_item)
  = decode_item Sample.rt (Sample.discriminator ++ skipn 8 Sample.scenario_item)
  /\ decode_purchase_history Sample.buyer
       (Buffer_from_array [1; 2; 3; 4; 5; 6; 7; 8] ++ skipn 8 Sample.buyer_history)
     = decode_purchase_history Sample.buyer
         (Sample.discriminator ++ skipn 8 Sample.buyer_history)
  /\ decode_item Sample.rt (Sample.discriminator ++ skipn 8 Sample.scenario_item)
     = ok {| id := JS.Number 1; price := JS.Number 1; metadataUri := Sample.uri |}.
Proof.
  split; [ | split].
  - exact (proj1 (account_tag_never_checked Sample.rt Sample.buyer
                    (Buffer_from_array [1; 2; 3; 4; 5; 6; 7; 8]) Sample.discriminator
                    (skipn 8 Sample.scenario_item) eq_refl eq_refl)).
  - exact (proj1 (proj2 (proj2 (proj2
             (account_tag_never_checked Sample.rt Sample.buyer
                (Buffer_from_array [1; 2; 3; 4; 5; 6; 7; 8]) Sample.discriminator
                (skipn 8 Sample.buyer_history) eq_refl eq_refl))))).
  - vm_compute. reflexivity.
Defined.

(** X3: padding after the data is ignored.  An item account that holds
    the declared URI is read alike, by the three item readers, whatever
    bytes follow it; a history account of at least 40 bytes that the page
    decodes is decoded to the same list whatever bytes follow it. *)
Theorem account_padding_ignored :
  forall (rt : Runtime) (buyer : PublicKey) (data padding : Buffer),
    (forall n : Z,
        Buf.readUInt32LE data 24 = ok n ->
        (28 + Z.to_nat n <= List.length data)%nat ->
        decode_item rt (data ++ padding) = decode_item rt data
        /\ getItem_parse rt (data ++ padding) = getItem_parse rt data
        /\ getItemDetails_parse rt (data ++ padding) = getItemDetails_parse rt data)
    /\
    (forall purchases : list PurchaseRecord,
        (40 <= List.length data)%nat ->
        decode_purchase_history buyer data = ok purchases ->
        decode_purchase_history buyer (data ++ padding) = ok purchases).
Proof.
  intros rt buyer data padding. split.
  - intros n Hn Hlen.
    pose proof (getItemDetails_parse_app rt data padding n Hn Hlen) as Hd.
    split; [ | split].
    + rewrite !decode_item_as_details, Hd. reflexivity.
    + rewrite !getItem_parse_as_details. exact Hd.
    + exact Hd.
  - intros purchases Hlen H. apply decode_purchase_history_app; assumption.
Qed.

(** The item of the end-to-end scenario in an account of 228 bytes, the
    size the purchase script filters on, and the buyer's history followed by
    room for more records. *)
Lemma account_padding_ignored_witness :
  List.length (Sample.scenario_item ++ repeat x00 179) = 228%nat
  /\ decode_item Sample.rt (Sample.scenario_item ++ repeat x00 179)
     = decode_item Sample.rt Sample.scenario_item
  /\ decode_purchase_history Sample.buyer (Sample.buyer_history ++ repeat x00 160)
     = ok [ {| item_id := JS.Number 2; timestamp := JS.Number 1600000000 |} ].
Proof.
  split; [reflexivity | split].
  - apply (proj1 (account_padding_ignored Sample.rt Sample.buyer Sample.scenario_item
                    (repeat x00 179)) 21).
    + vm_compute. reflexivity.
    + vm_compute. lia.
  - apply (proj2 (account_padding_ignored Sample.rt Sample.buyer Sample.buyer_history
                    (repeat x00 160))).
    + vm_compute. lia.
    + vm_compute. reflexivity.
Defined.

(** X4: a history account that holds its records is decoded in full.  For
    an account of the connected wallet whose 4-byte count is [count] and
    that holds [count] records of 16 bytes after byte 44, the page's decoder
    succeeds, returns exactly [count] records, and record [i] is the u64 at
    byte [44 + 16 i] and the signed 64-bit integer at byte [52 + 16 i], both
    as numbers. *)
Theorem history_decode_complete :
  forall (buyer : PublicKey) (data : Buffer) (count : Z),
    be_value (Buf.slice data 8 40) = bn buyer ->
    Buf.readUInt32LE data 40 = ok count ->
    (44 + 16 * Z.to_nat count <= List.length data)%nat ->
    exists purchases,
      decode_purchase_history buyer data = ok purchases /\
      List.length purchases = Z.to_nat count /\
      forall i, (i < Z.to_nat count)%nat ->
        exists a b,
          Buf.readBigUInt64LE data (44 + 16 * i) = ok a /\
          Buf.readBigInt64LE data (44 + 16 * i + 8) = ok b /\
          nth_error purchases i = Some {| item_id := JS.Number a; timestamp := JS.Number b |}.
Proof.
  intros buyer data count Huser Hcount Hlen.
  destruct (read_purchases_within data (Z.to_nat count) 44 Hlen)
    as (purchases & Hread & Hn & Hnth).
  exists purchases. split; [ | split; assumption].
  unfold decode_purchase_history.
  rewrite new_PublicKey_slice. cbn [rbind ok].
  unfold equals. cbn [bn]. rewrite Huser, Z.eqb_refl. cbn [negb].
  rewrite Hcount. cbn [rbind ok]. exact Hread.
Qed.

(** A history of two purchases, the second stamped before 1970. *)
Lemma history_decode_complete_witness :
  exists purchases,
    decode_purchase_history Sample.buyer
      (encode_purchase_history Sample.discriminator Sample.buyer [(2, 1600000000); (3, -5)])
    = ok purchases /\
    List.length purchases = Z.to_nat 2 /\
    forall i, (i < Z.to_nat 2)%nat ->
      exists a b,
        Buf.readBigUInt64LE
          (encode_purchase_history Sample.discriminator Sample.buyer
             [(2, 1600000000); (3, -5)]) (44 + 16 * i) = ok a /\
        Buf.readBigInt64LE
          (encode_purchase_history Sample.discriminator Sample.buyer
             [(2, 1600000000); (3, -5)]) (44 + 16 * i + 8) = ok b /\
        nth_error purchases i = Some {| item_id := JS.Number a; timestamp := JS.Number b |}.
Proof.
  apply (history_decode_complete Sample.buyer
           (encode_purchase_history Sample.discriminator Sample.buyer
              [(2, 1600000000); (3, -5)]) 2).
  - vm_compute. reflexivity.
  - vm_compute. reflexivity.
  - vm_compute. lia.
Defined.

(** ** What a workflow may do *)

Section Emits.

Variable P : event -> Prop.

Lemma emits_ret {A} (a : A) : emits P (ret a).
Proof. intros t. exists []. rewrite app_nil_r. split; [reflexivity | constructor]. Qed.

Lemma emits_raise {A} (e : exn) : emits P (@raise A e).
Proof. intros t. exists []. rewrite app_nil_r. split; [reflexivity | constructor]. Qed.

Lemma emits_lift {A} (r : result A) : emits P (lift r).
Proof. intros t. exists []. rewrite app_nil_r. split; [reflexivity | constructor]. Qed.

Lemma emits_pure {A} (f : trace -> result A) : emits P (fun t => (f t, t)).
Proof. intros t. exists []. rewrite app_nil_r. split; [reflexivity | constructor]. Qed.

Lemma emits_emit (e : event) : P e -> emits P (emit e).
Proof. intros H t. exists [e]. split; [reflexivity | repeat constructor; exact H]. Qed.

Lemma emits_call {A} (e : event) (answer : nat -> result A) : P e -> emits P (call e answer).
Proof. intros H t. exists [e]. split; [reflexivity | repeat constructor; exact H]. Qed.

Lemma emits_bind {A B} (m : M A) (k : A -> M B) :
  emits P m -> (forall a, emits P (k a)) -> emits P (bind m k).
Proof.
  intros Hm Hk t. unfold bind.
  destruct (Hm t) as (s & Hs & Fs). destruct (m t) as [[e | a] t']; cbn [snd] in Hs; subst t'.
  - exists s. split; [reflexivity | exact Fs].
  - destruct (Hk a (t ++ s)) as (s' & Hs' & Fs').
    exists (s ++ s'). rewrite Hs', app_assoc. split; [reflexivity | ].
    apply Forall_app. split; assumption.
Qed.

Lemma emits_try_catch {A} (m : M A) (h : exn -> M A) :
  emits P m -> (forall e, emits P (h e)) -> emits P (try_catch m h).
Proof.
  intros Hm Hh t. unfold try_catch.
  destruct (Hm t) as (s & Hs & Fs). destruct (m t) as [[e | a] t']; cbn [snd] in Hs; subst t'.
  - destruct (Hh e (t ++ s)) as (s' & Hs' & Fs').
    exists (s ++ s'). rewrite Hs', app_assoc. split; [reflexivity | ].
    apply Forall_app. split; assumption.
  - exists s. split; [reflexivity | exact Fs].
Qed.

Lemma emits_finally {A} (m : M A) (f : M unit) :
  emits P m -> emits P f -> emits P (finally m f).
Proof.
  intros Hm Hf t. unfold finally.
  destruct (Hm t) as (s & Hs & Fs). destruct (m t) as [r t']; cbn [snd] in Hs; subst t'.
  destruct (Hf (t ++ s)) as (s' & Hs' & Fs').
  exists (s ++ s'). split; [ | apply Forall_app; split; assumption].
  destruct (f (t ++ s)) as [[e | u] t'']; cbn [snd] in *; subst t''; symmetry; apply app_assoc.
Qed.

Lemma emits_attempt {A} (m : M A) : emits P m -> emits P (attempt m).
Proof.
  intros Hm t. unfold attempt.
  destruct (Hm t) as (s & Hs & Fs). destruct (m t) as [r t']; cbn [snd] in Hs; subst t'.
  exists s. split; [reflexivity | exact Fs].
Qed.

(** The actions of a run from a fresh invocation. *)
Lemma emits_actions {A} (m : M A) : emits P m -> Forall P (actions m).
Proof.
  intros Hm. unfold actions, run. destruct (Hm []) as (s & Hs & Fs).
  rewrite Hs. exact Fs.
Qed.

End Emits.

(** Decomposes a workflow into its steps; [solve_event] proves that an
    action is allowed. *)
Ltac emits_with solve_event :=
  repeat
    first
      [ apply emits_ret
      | apply emits_raise
      | apply emits_lift
      | apply emits_emit; solve_event
      | apply emits_call; solve_event
      | apply emits_bind; [ | intros ? ]
      | apply emits_try_catch; [ | intros ? ]
      | apply emits_finally
      | apply emits_attempt
      | apply emits_pure
      | match goal with
        | |- emits _ (match ?x with _ => _ end) => destruct x
        | |- emits _ (fun t => emit _ t) => intros t; apply emits_emit; solve_event
        end ].

Section PageEmits.

Variable rt : Runtime.
Variable env : Env.
Variable wallet : Wallet.
Variable SHOP_PROGRAM_ID : string.

Lemma checkPurchaseHistory_emits (P : event -> Prop) :
  (forall k, P (GetAccountInfo k)) ->
  (forall l, P (SetPurchaseHistory l)) ->
  emits P (checkPurchaseHistory rt env wallet SHOP_PROGRAM_ID).
Proof.
  intros Hget Hset. unfold checkPurchaseHistory.
  emits_with ltac:(first [apply Hget | apply Hset]).
Qed.

End PageEmits.

Section PurchaseEmits.

Variable rt : Runtime.
Variable env : Env.
Variable wallet : Wallet.
Variable SHOP_PROGRAM_ID : string.

Lemma handlePurchase_body_emits (P : event -> Prop) (buyer : PublicKey) (itemId : JS.number) :
  (forall e, (forall o, e <> SetIsPurchasing o) -> P e) ->
  emits P (handlePurchase_body rt env wallet SHOP_PROGRAM_ID buyer itemId).
Proof.
  intros HP. unfold handlePurchase_body, checkPurchaseHistory.
  emits_with ltac:(apply HP; intros ?; discriminate).
Qed.

(** [handlePurchase] brackets its body between the two updates of
    [isPurchasing] and turns an error into a toast. *)
Lemma handlePurchase_frame (buyer : PublicKey) (itemId : JS.number) :
  connected wallet = true ->
  publicKey wallet = Some buyer ->
  run (handlePurchase rt env wallet SHOP_PROGRAM_ID itemId)
  = match handlePurchase_body rt env wallet SHOP_PROGRAM_ID buyer itemId
            [SetIsPurchasing (Some itemId)] with
    | (inl e, t) => (ok tt, t ++ [ToastError "Purchase failed" (Some e); SetIsPurchasing None])
    | (inr u, t) => (ok u, t ++ [SetIsPurchasing None])
    end.
Proof.
  intros Hc Hk. unfold handlePurchase, run. rewrite Hc, Hk.
  unfold finally, try_catch, bind, emit. cbn [app].
  destruct (handlePurchase_body rt env wallet SHOP_PROGRAM_ID buyer itemId _) as [[e | u] t].
  - rewrite <- app_assoc. reflexivity.
  - reflexivity.
Qed.

End PurchaseEmits.

(** X5: a purchase always settles.  [handlePurchase] never throws.  With a
    connected wallet its first action marks the item as being purchased, its
    last action clears that mark, whatever failed in between, and the mark
    is not touched in between; without a connected wallet it only shows the
    "Wallet not connected" toast. *)
Theorem handlePurchase_settles :
  forall (rt : Runtime) (env : Env) (wallet : Wallet) (SHOP_PROGRAM_ID : string)
         (itemId : JS.number),
    fst (run (handlePurchase rt env wallet SHOP_PROGRAM_ID itemId)) = ok tt
    /\ (forall buyer : PublicKey,
          connected wallet = true ->
          publicKey wallet = Some buyer ->
          exists between,
            actions (handlePurchase rt env wallet SHOP_PROGRAM_ID itemId)
            = SetIsPurchasing (Some itemId) :: between ++ [SetIsPurchasing None]
            /\ forall o, ~ In (SetIsPurchasing o) between)
    /\ (connected wallet = false \/ publicKey wallet = None ->
        actions (handlePurchase rt env wallet SHOP_PROGRAM_ID itemId)
        = [ToastError "Wallet not connected" None]).
Proof.
  intros rt env wallet pid itemId.
  assert (Hframe :
            forall buyer,
              connected wallet = true -> publicKey wallet = Some buyer ->
              fst (run (handlePurchase rt env wallet pid itemId)) = ok tt
              /\ exists between,
                  actions (handlePurchase rt env wallet pid itemId)
                  = SetIsPurchasing (Some itemId) :: between ++ [SetIsPurchasing None]
                  /\ forall o, ~ In (SetIsPurchasing o) between).
  { intros buyer Hc Hk. unfold actions.
    rewrite (handlePurchase_frame rt env wallet pid buyer itemId Hc Hk).
    destruct (handlePurchase_body_emits rt env wallet pid
                (fun e => forall o, e <> SetIsPurchasing o) buyer itemId
                (fun e H => H) [SetIsPurchasing (Some itemId)]) as (s & Hs & Fs).
    destruct (handlePurchase_body rt env wallet pid buyer itemId _) as [[e | []] t];
      cbn [snd fst] in *; subst t; (split; [reflexivity | ]).
    - exists (s ++ [ToastError "Purchase failed" (Some e)]).
      split; [cbn [app]; rewrite <- !app_assoc; reflexivity | ].
      intros o Hin. apply in_app_or in Hin. destruct Hin as [Hin | [Hin | []]].
      + rewrite Forall_forall in Fs. exact (Fs _ Hin o eq_refl).
      + discriminate Hin.
    - exists s. split; [reflexivity | ].
      intros o Hin. rewrite Forall_forall in Fs. exact (Fs _ Hin o eq_refl). }
  split; [ | split].
  - destruct (connected wallet) eqn:Hc; [ | unfold handlePurchase; rewrite Hc; reflexivity].
    destruct (publicKey wallet) as [buyer | ] eqn:Hk;
      [ | unfold handlePurchase; rewrite Hc, Hk; reflexivity].
    exact (proj1 (Hframe buyer eq_refl eq_refl)).
  - intros buyer Hc Hk. exact (proj2 (Hframe buyer Hc Hk)).
  - intros [Hc | Hk]; unfold handlePurchase.
    + rewrite Hc. reflexivity.
    + rewrite Hk. destruct (connected wallet); reflexivity.
Qed.

(** The purchase that stops at the balance check, and a click without a
    wallet. *)
Lemma handlePurchase_settles_witness :
  (exists between,
      actions (handlePurchase Sample.rt Sample.poor_world Sample.wallet
                 Sample.SHOP_PROGRAM_ID (JS.Number 1))
      = SetIsPurchasing (Some (JS.Number 1)) :: between ++ [SetIsPurchasing None]
      /\ forall o, ~ In (SetIsPurchasing o) between)
  /\ actions (handlePurchase Sample.rt Sample.fresh_world
                {| connected := false; publicKey := None; has_signTransaction := true |}
                Sample.SHOP_PROGRAM_ID (JS.Number 1))
     = [ToastError "Wallet not connected" None].
Proof.
  split.
  - exact (proj1 (proj2 (handlePurchase_settles Sample.rt Sample.poor_world Sample.wallet
                           Sample.SHOP_PROGRAM_ID (JS.Number 1)))
             Sample.buyer eq_refl eq_refl).
  - exact (proj2 (proj2 (handlePurchase_settles Sample.rt Sample.fresh_world
                           {| connected := false; publicKey := None;
                              has_signTransaction := true |}
                           Sample.SHOP_PROGRAM_ID (JS.Number 1)))
             (or_introl eq_refl)).
Defined.

Section PurchaseSend.

Variable rt : Runtime.
Variable env : Env.
Variable wallet : Wallet.
Variable SHOP_PROGRAM_ID : string.

(** [checkPurchaseHistory] never throws; it reads one account at most and
    sets the purchase list at most once. *)
Lemma checkPurchaseHistory_quiet (t : trace) :
  exists l,
    checkPurchaseHistory rt env wallet SHOP_PROGRAM_ID t = (ok tt, t ++ l) /\
    Forall (fun e => submits e = false) l.
Proof.
  destruct (checkPurchaseHistory_shape rt env wallet SHOP_PROGRAM_ID t) as (l & Hl & _).
  exists l. split; [exact Hl | ].
  destruct (checkPurchaseHistory_emits rt env wallet SHOP_PROGRAM_ID
              (fun e => submits e = false) (fun _ => eq_refl) (fun _ => eq_refl) t)
    as (l' & Hl' & Fl').
  rewrite Hl in Hl'. cbn [snd] in Hl'. apply app_inv_head in Hl'. subst l'. exact Fl'.
Qed.

End PurchaseSend.

Ltac quiet :=
  repeat first [ apply Forall_nil
               | apply Forall_cons; [reflexivity | ]
               | apply Forall_app; split
               | assumption ].

(** X6: what is sent is what the wallet signed.  Whenever [handlePurchase]
    sends a raw transaction, it is the value the wallet returned for the
    signing request made just before, as the seventh action of the run; and
    that request and that submission are the only ones of the run. *)
Theorem handlePurchase_sends_what_was_signed :
  forall (rt : Runtime) (env : Env) (wallet : Wallet) (SHOP_PROGRAM_ID : string)
         (itemId : JS.number) (signed : Transaction),
    In (SendRawTransaction signed)
       (actions (handlePurchase rt env wallet SHOP_PROGRAM_ID itemId)) ->
    exists tx before after,
      actions (handlePurchase rt env wallet SHOP_PROGRAM_ID itemId)
      = before ++ [SignTransaction tx; SendRawTransaction signed] ++ after
      /\ List.length before = 6%nat
      /\ signTransaction env 6 tx = ok signed
      /\ Forall (fun e => submits e = false) (before ++ after).
Proof.
  intros rt env wallet pid itemId stx.
  unfold handlePurchase, actions, run.
  destruct (connected wallet) eqn:Hc; [ | intros H; absent H].
  destruct (publicKey wallet) as [buyer | ] eqn:Hk; [ | intros H; absent H].
  unfold handlePurchase_body. unfold_monad.
  intros H. simp H. simp_goal.
  destruct (PublicKey_of_base58 rt pid) as [e | programPubkey]; [absent H | simp H; simp_goal].
  destruct (getShopPDA rt programPubkey) as [e | shopPDA]; [absent H | simp H; simp_goal].
  destruct (getItemPDA rt programPubkey itemId) as [e | itemPDA];
    [absent H | simp H; simp_goal].
  destruct (getHistoryPDA rt programPubkey buyer) as [e | historyPDA];
    [absent H | simp H; simp_goal].
  destruct (getAccountInfo env 1 shopPDA) as [e | [shopData | ]];
    [absent H | simp H; simp_goal | absent H].
  destruct (new_PublicKey (Buf.slice shopData 8 40)) as [e | adminPubkey];
    [absent H | simp H; simp_goal].
  destruct (getAccountInfo env 2 itemPDA) as [e | [itemData | ]];
    [absent H | simp H; simp_goal | absent H].
  destruct (Buf.readBigUInt64LE itemData 16) as [e | rawPrice]; [absent H | simp H; simp_goal].
  destruct (getBalance env 3 buyer) as [e | buyerBalance]; [absent H | simp H; simp_goal].
  destruct (JS.lt buyerBalance (JS.Number rawPrice)); [absent H | simp H; simp_goal].
  destruct (getAccountInfo env 4 historyPDA) as [e | account]; [absent H | simp H; simp_goal].
  destruct (getLatestBlockhash env 5) as [e | blockhash]; [absent H | simp H; simp_goal].
  destruct (has_signTransaction wallet); [simp H; simp_goal | absent H].
  match type of H with
  | context [signTransaction env 6 ?tx] => set (transaction := tx) in *
  end.
  destruct (signTransaction env 6 transaction) as [e | signed] eqn:Hsign;
    [absent H | simp H; simp_goal].
  exists transaction,
    [ SetIsPurchasing (Some itemId); GetAccountInfo shopPDA; GetAccountInfo itemPDA;
      GetBalance buyer; GetAccountInfo historyPDA; GetLatestBlockhash ].
  destruct (sendRawTransaction env 7 signed) as [e | signature]; simp H; simp_goal.
  { cbn [In] in H.
    repeat (destruct H as [H | H]; [first [discriminate H | injection H as <-] | ]);
      [ | contradiction].
    eexists. split; [reflexivity | ]. split; [reflexivity | ]. split; [exact Hsign | quiet]. }
  destruct (confirmTransaction env 8 signature) as [e | []]; simp H; simp_goal.
  { cbn [In] in H.
    repeat (destruct H as [H | H]; [first [discriminate H | injection H as <-] | ]);
      [ | contradiction].
    eexists. split; [reflexivity | ]. split; [reflexivity | ]. split; [exact Hsign | quiet]. }
  match goal with
  | |- context [checkPurchaseHistory ?a ?b ?c ?d ?t] =>
      destruct (checkPurchaseHistory_quiet a b c d t) as (l & Hl & Fl); rewrite Hl in *
  end.
  simp H. simp_goal. cbn [In] in H.
  assert (Hsigned : stx = signed).
  { repeat (destruct H as [H | H]; [first [discriminate H | injection H as <-; reflexivity] | ]).
    rewrite !in_app_iff in H. cbn [In] in H.
    destruct H as [[H | H] | H].
    - rewrite Forall_forall in Fl. apply Fl in H. discriminate H.
    - repeat (destruct H as [H | H]; [discriminate H | ]). contradiction.
    - repeat (destruct H as [H | H]; [discriminate H | ]). contradiction. }
  subst stx.
  exists ([ConfirmTransaction signature; ToastSuccess itemId] ++ l
          ++ [ToastInfo signature; SetIsPurchasing None]).
  split; [cbn [app]; rewrite <- ?app_assoc; reflexivity | ].
  split; [reflexivity | ]. split; [exact Hsign | quiet].
Qed.

(** The purchase of the end-to-end scenario: the wallet returns the
    transaction it was given. *)
Lemma handlePurchase_sends_what_was_signed_witness :
  In (SendRawTransaction (Sample.purchase_tx false))
     (actions (handlePurchase Sample.rt Sample.fresh_world Sample.wallet
                 Sample.SHOP_PROGRAM_ID (JS.Number 1)))
  /\ exists tx before after,
      actions (handlePurchase Sample.rt Sample.fresh_world Sample.wallet
                 Sample.SHOP_PROGRAM_ID (JS.Number 1))
      = before ++ [SignTransaction tx; SendRawTransaction (Sample.purchase_tx false)] ++ after
      /\ List.length before = 6%nat
      /\ signTransaction Sample.fresh_world 6 tx = ok (Sample.purchase_tx false)
      /\ Forall (fun e => submits e = false) (before ++ after).
Proof.
  assert (H : In (SendRawTransaction (Sample.purchase_tx false))
                 (actions (handlePurchase Sample.rt Sample.fresh_world Sample.wallet
                             Sample.SHOP_PROGRAM_ID (JS.Number 1)))).
  { vm_compute. do 7 right. left. reflexivity. }
  split; [exact H | ].
  exact (handlePurchase_sends_what_was_signed Sample.rt Sample.fresh_world Sample.wallet
           Sample.SHOP_PROGRAM_ID (JS.Number 1) (Sample.purchase_tx false) H).
Defined.

(** X7: the wallet is asked to sign only after every check passed.  A
    signing request of [handlePurchase] implies that the wallet is connected
    and able to sign, that the shop and item accounts were found, that the
    price could be read from the item account, that the balance was not
    below the price as numbers, and that a blockhash was obtained; the
    transaction names the buyer as fee payer and carries that blockhash. *)
Theorem handlePurchase_signs_after_checks :
  forall (rt : Runtime) (env : Env) (wallet : Wallet) (SHOP_PROGRAM_ID : string)
         (itemId : JS.number) (tx : Transaction),
    In (SignTransaction tx) (actions (handlePurchase rt env wallet SHOP_PROGRAM_ID itemId)) ->
    exists buyer programPubkey shopPDA itemPDA shopData itemData rawPrice buyerBalance
           blockhash,
      connected wallet = true /\
      publicKey wallet = Some buyer /\
      has_signTransaction wallet = true /\
      PublicKey_of_base58 rt SHOP_PROGRAM_ID = ok programPubkey /\
      getShopPDA rt programPubkey = ok shopPDA /\
      getItemPDA rt programPubkey itemId = ok itemPDA /\
      getAccountInfo env 1 shopPDA = ok (Some shopData) /\
      getAccountInfo env 2 itemPDA = ok (Some itemData) /\
      Buf.readBigUInt64LE itemData 16 = ok rawPrice /\
      getBalance env 3 buyer = ok buyerBalance /\
      JS.lt buyerBalance (JS.Number rawPrice) = false /\
      getLatestBlockhash env 5 = ok blockhash /\
      recentBlockhash tx = Some blockhash /\
      feePayer tx = Some buyer.
Proof.
  intros rt env wallet pid itemId tx.
  unfold handlePurchase, actions, run.
  destruct (connected wallet) eqn:Hc; [ | intros H; absent H].
  destruct (publicKey wallet) as [buyer | ] eqn:Hk; [ | intros H; absent H].
  unfold handlePurchase_body. unfold_monad.
  intros H. simp H.
  destruct (PublicKey_of_base58 rt pid) as [e | programPubkey] eqn:Hp; [absent H | simp H].
  destruct (getShopPDA rt programPubkey) as [e | shopPDA] eqn:Hs; [absent H | simp H].
  destruct (getItemPDA rt programPubkey itemId) as [e | itemPDA] eqn:Hi; [absent H | simp H].
  destruct (getHistoryPDA rt programPubkey buyer) as [e | historyPDA] eqn:Hh;
    [absent H | simp H].
  destruct (getAccountInfo env 1 shopPDA) as [e | [shopData | ]] eqn:Ha1;
    [absent H | simp H | absent H].
  destruct (new_PublicKey (Buf.slice shopData 8 40)) as [e | adminPubkey] eqn:Hadm;
    [absent H | simp H].
  destruct (getAccountInfo env 2 itemPDA) as [e | [itemData | ]] eqn:Ha2;
    [absent H | simp H | absent H].
  destruct (Buf.readBigUInt64LE itemData 16) as [e | rawPrice] eqn:Hprice;
    [absent H | simp H].
  destruct (getBalance env 3 buyer) as [e | buyerBalance] eqn:Hbal; [absent H | simp H].
  destruct (JS.lt buyerBalance (JS.Number rawPrice)) eqn:Hlt; [absent H | simp H].
  destruct (getAccountInfo env 4 historyPDA) as [e | account] eqn:Ha4; [absent H | simp H].
  destruct (getLatestBlockhash env 5) as [e | blockhash] eqn:Hbh; [absent H | simp H].
  destruct (has_signTransaction wallet) eqn:Hsig; [simp H | absent H].
  exists buyer, programPubkey, shopPDA, itemPDA, shopData, itemData, rawPrice, buyerBalance,
    blockhash.
  repeat (split; [reflexivity || assumption | ]).
  match type of H with
  | context [signTransaction env 6 ?t] => set (transaction := t) in *
  end.
  assert (Htx : tx = transaction); [ | rewrite Htx; split; reflexivity].
  destruct (signTransaction env 6 transaction) as [e | signed].
  { simp H. cbn [In] in H.
    repeat (destruct H as [H | H]; [first [discriminate H | injection H as <-; reflexivity] | ]).
    contradiction. }
  simp H.
  destruct (sendRawTransaction env 7 signed) as [e | signature].
  { simp H. cbn [In] in H.
    repeat (destruct H as [H | H]; [first [discriminate H | injection H as <-; reflexivity] | ]).
    contradiction. }
  simp H.
  destruct (confirmTransaction env 8 signature) as [e | []].
  { simp H. cbn [In] in H.
    repeat (destruct H as [H | H]; [first [discriminate H | injection H as <-; reflexivity] | ]).
    contradiction. }
  simp H.
  match type of H with
  | context [checkPurchaseHistory ?a ?b ?c ?d ?t] =>
      destruct (checkPurchaseHistory_quiet a b c d t) as (l & Hl & Fl); rewrite Hl in H
  end.
  simp H. cbn [In] in H.
  repeat (destruct H as [H | H]; [first [discriminate H | injection H as <-; reflexivity] | ]).
  rewrite !in_app_iff in H. cbn [In] in H.
  destruct H as [[H | H] | H].
  - rewrite Forall_forall in Fl. apply Fl in H. discriminate H.
  - repeat (destruct H as [H | H]; [discriminate H | ]). contradiction.
  - repeat (destruct H as [H | H]; [discriminate H | ]). contradiction.
Qed.

(** The purchase of the end-to-end scenario. *)
Lemma handlePurchase_signs_after_checks_witness :
  In (SignTransaction (Sample.purchase_tx false))
     (actions (handlePurchase Sample.rt Sample.fresh_world Sample.wallet
                 Sample.SHOP_PROGRAM_ID (JS.Number 1)))
  /\ exists buyer programPubkey shopPDA itemPDA shopData itemData rawPrice buyerBalance
            blockhash,
      connected Sample.wallet = true /\
      publicKey Sample.wallet = Some buyer /\
      has_signTransaction Sample.wallet = true /\
      PublicKey_of_base58 Sample.rt Sample.SHOP_PROGRAM_ID = ok programPubkey /\
      getShopPDA Sample.rt programPubkey = ok shopPDA /\
      getItemPDA Sample.rt programPubkey (JS.Number 1) = ok itemPDA /\
      getAccountInfo Sample.fresh_world 1 shopPDA = ok (Some shopData) /\
      getAccountInfo Sample.fresh_world 2 itemPDA = ok (Some itemData) /\
      Buf.readBigUInt64LE itemData 16 = ok rawPrice /\
      getBalance Sample.fresh_world 3 buyer = ok buyerBalance /\
      JS.lt buyerBalance (JS.Number rawPrice) = false /\
      getLatestBlockhash Sample.fresh_world 5 = ok blockhash /\
      recentBlockhash (Sample.purchase_tx false) = Some blockhash /\
      feePayer (Sample.purchase_tx false) = Some buyer.
Proof.
  assert (H : In (SignTransaction (Sample.purchase_tx false))
                 (actions (handlePurchase Sample.rt Sample.fresh_world Sample.wallet
                             Sample.SHOP_PROGRAM_ID (JS.Number 1)))).
  { vm_compute. do 6 right. left. reflexivity. }
  split; [exact H | ].
  exact (handlePurchase_signs_after_checks Sample.rt Sample.fresh_world Sample.wallet
           Sample.SHOP_PROGRAM_ID (JS.Number 1) (Sample.purchase_tx false) H).
Defined.

(** X8: failures before the balance check.  With a connected wallet,
    [handlePurchase] stops with the "Purchase failed" toast, and asks the
    node for nothing further, when the program identifier is not a valid
    key (before any request), when the shop account does not exist or the
    node fails on it (after that one request), when the item account does
    not exist, and when the item account is too short to hold a price. *)
Theorem handlePurchase_early_failures :
  forall (rt : Runtime) (env : Env) (wallet : Wallet) (SHOP_PROGRAM_ID : string)
         (buyer : PublicKey) (itemId : JS.number),
    connected wallet = true ->
    publicKey wallet = Some buyer ->
    (forall e,
        PublicKey_of_base58 rt SHOP_PROGRAM_ID = throw e ->
        actions (handlePurchase rt env wallet SHOP_PROGRAM_ID itemId)
        = [ SetIsPurchasing (Some itemId); ToastError "Purchase failed" (Some e);
            SetIsPurchasing None ])
    /\
    (forall programPubkey shopPDA itemPDA historyPDA,
        PublicKey_of_base58 rt SHOP_PROGRAM_ID = ok programPubkey ->
        getShopPDA rt programPubkey = ok shopPDA ->
        getItemPDA rt programPubkey itemId = ok itemPDA ->
        getHistoryPDA rt programPubkey buyer = ok historyPDA ->
        (getAccountInfo env 1 shopPDA = ok None ->
         actions (handlePurchase rt env wallet SHOP_PROGRAM_ID itemId)
         = [ SetIsPurchasing (Some itemId); GetAccountInfo shopPDA;
             ToastError "Purchase failed" (Some ShopNotInitialized); SetIsPurchasing None ])
        /\
        (forall e,
            getAccountInfo env 1 shopPDA = throw e ->
            actions (handlePurchase rt env wallet SHOP_PROGRAM_ID itemId)
            = [ SetIsPurchasing (Some itemId); GetAccountInfo shopPDA;
                ToastError "Purchase failed" (Some e); SetIsPurchasing None ])
        /\
        (forall shopData,
            getAccountInfo env 1 shopPDA = ok (Some shopData) ->
            getAccountInfo env 2 itemPDA = ok None ->
            actions (handlePurchase rt env wallet SHOP_PROGRAM_ID itemId)
            = [ SetIsPurchasing (Some itemId); GetAccountInfo shopPDA; GetAccountInfo itemPDA;
                ToastError "Purchase failed" (Some ItemNotFound); SetIsPurchasing None ])
        /\
        (forall shopData itemData,
            getAccountInfo env 1 shopPDA = ok (Some shopData) ->
            getAccountInfo env 2 itemPDA = ok (Some itemData) ->
            (List.length itemData < 24)%nat ->
            actions (handlePurchase rt env wallet SHOP_PROGRAM_ID itemId)
            = [ SetIsPurchasing (Some itemId); GetAccountInfo shopPDA; GetAccountInfo itemPDA;
                ToastError "Purchase failed" (Some RangeError); SetIsPurchasing None ])).
Proof.
  intros rt env wallet pid buyer itemId Hc Hk. split.
  - intros e Hp. unfold handlePurchase, actions, run. rewrite Hc, Hk.
    unfold handlePurchase_body. unfold_monad. simp_goal.
    rewrite Hp. reflexivity.
  - intros programPubkey shopPDA itemPDA historyPDA Hp Hs Hi Hh.
    assert (Hstart :
              forall (P : trace -> Prop),
                P (snd (finally
                          (try_catch
                             (handlePurchase_body rt env wallet pid buyer itemId)
                             (fun error => emit (ToastError "Purchase failed" (Some error))))
                          (emit (SetIsPurchasing None))
                          [SetIsPurchasing (Some itemId)])) ->
                P (actions (handlePurchase rt env wallet pid itemId))).
    { intros P H. unfold handlePurchase, actions, run. rewrite Hc, Hk. exact H. }
    split; [ | split; [ | split]].
    + intros Hshop. apply Hstart.
      unfold handlePurchase_body. unfold_monad. simp_goal.
      step_goal Hp. step_goal Hs. step_goal Hi. step_goal Hh. step_goal Hshop. reflexivity.
    + intros e Hshop. apply Hstart.
      unfold handlePurchase_body. unfold_monad. simp_goal.
      step_goal Hp. step_goal Hs. step_goal Hi. step_goal Hh. step_goal Hshop. reflexivity.
    + intros shopData Hshop Hitem. apply Hstart.
      unfold handlePurchase_body. unfold_monad. simp_goal.
      step_goal Hp. step_goal Hs. step_goal Hi. step_goal Hh. step_goal Hshop.
      rewrite new_PublicKey_slice. simp_goal. step_goal Hitem. reflexivity.
    + intros shopData itemData Hshop Hitem Hshort. apply Hstart.
      unfold handlePurchase_body. unfold_monad. simp_goal.
      step_goal Hp. step_goal Hs. step_goal Hi. step_goal Hh. step_goal Hshop.
      rewrite new_PublicKey_slice. simp_goal. step_goal Hitem.
      unfold Buf.readBigUInt64LE. rewrite bytes_at_beyond by lia. reflexivity.
Qed.

(** A program identifier that is no key, a world without the shop account,
    a world without the item account, and an item account cut after twenty
    bytes. *)
Lemma handlePurchase_early_failures_witness :
  actions (handlePurchase Sample.rt Sample.fresh_world Sample.wallet
             "a-program-identifier-of-more-than-32-bytes" (JS.Number 1))
  = [ SetIsPurchasing (Some (JS.Number 1));
      ToastError "Purchase failed" (Some InvalidPublicKey); SetIsPurchasing None ]
  /\ actions (handlePurchase Sample.rt (Sample.without Sample.shopPDA Sample.fresh_world)
                Sample.wallet Sample.SHOP_PROGRAM_ID (JS.Number 1))
     = [ SetIsPurchasing (Some (JS.Number 1)); GetAccountInfo Sample.shopPDA;
         ToastError "Purchase failed" (Some ShopNotInitialized); SetIsPurchasing None ]
  /\ actions (handlePurchase Sample.rt (Sample.without Sample.itemPDA Sample.fresh_world)
                Sample.wallet Sample.SHOP_PROGRAM_ID (JS.Number 1))
     = [ SetIsPurchasing (Some (JS.Number 1)); GetAccountInfo Sample.shopPDA;
         GetAccountInfo Sample.itemPDA;
         ToastError "Purchase failed" (Some ItemNotFound); SetIsPurchasing None ]
  /\ actions (handlePurchase Sample.rt
                (Sample.world (firstn 20 Sample.scenario_item) (JS.Number 2000000000) None)
                Sample.wallet Sample.SHOP_PROGRAM_ID (JS.Number 1))
     = [ SetIsPurchasing (Some (JS.Number 1)); GetAccountInfo Sample.shopPDA;
         GetAccountInfo Sample.itemPDA;
         ToastError "Purchase failed" (Some RangeError); SetIsPurchasing None ].
Proof.
  split; [ | split; [ | split]].
  - apply (proj1 (handlePurchase_early_failures Sample.rt Sample.fresh_world Sample.wallet
                    "a-program-identifier-of-more-than-32-bytes" Sample.buyer (JS.Number 1)
                    eq_refl eq_refl)).
    vm_compute. reflexivity.
  - apply (proj1 (proj2 (handlePurchase_early_failures Sample.rt
                           (Sample.without Sample.shopPDA Sample.fresh_world) Sample.wallet
                           Sample.SHOP_PROGRAM_ID Sample.buyer (JS.Number 1) eq_refl eq_refl)
                    Sample.programId Sample.shopPDA Sample.itemPDA Sample.historyPDA
                    ltac:(vm_compute; reflexivity) ltac:(vm_compute; reflexivity)
                    ltac:(vm_compute; reflexivity) ltac:(vm_compute; reflexivity))).
    vm_compute. reflexivity.
  - apply (proj1 (proj2 (proj2 (proj2 (handlePurchase_early_failures Sample.rt
                           (Sample.without Sample.itemPDA Sample.fresh_world) Sample.wallet
                           Sample.SHOP_PROGRAM_ID Sample.buyer (JS.Number 1) eq_refl eq_refl)
                    Sample.programId Sample.shopPDA Sample.itemPDA Sample.historyPDA
                    ltac:(vm_compute; reflexivity) ltac:(vm_compute; reflexivity)
                    ltac:(vm_compute; reflexivity) ltac:(vm_compute; reflexivity))))
             Sample.shop_account).
    + vm_compute. reflexivity.
    + vm_compute. reflexivity.
  - apply (proj2 (proj2 (proj2 (proj2 (handlePurchase_early_failures Sample.rt
                           (Sample.world (firstn 20 Sample.scenario_item)
                              (JS.Number 2000000000) None) Sample.wallet
                           Sample.SHOP_PROGRAM_ID Sample.buyer (JS.Number 1) eq_refl eq_refl)
                    Sample.programId Sample.shopPDA Sample.itemPDA Sample.historyPDA
                    ltac:(vm_compute; reflexivity) ltac:(vm_compute; reflexivity)
                    ltac:(vm_compute; reflexivity) ltac:(vm_compute; reflexivity))))
             Sample.shop_account (firstn 20 Sample.scenario_item)).
    + vm_compute. reflexivity.
    + vm_compute. reflexivity.
    + vm_compute. lia.
Defined.

(** X9: the purchase script reports what happened.  [purchaseItem] never
    throws; it returns [true] exactly when it submitted a transaction, as
    its fourth action, and the submission was confirmed.  A failure of the
    history listing that follows does not change the result. *)
Theorem purchaseItem_reports_success :
  forall (rt : Runtime) (env : Env) (programId adminPublicKey walletPublicKey : PublicKey)
         (itemId : JS.number),
    exists success,
      fst (run (purchaseItem rt env programId adminPublicKey walletPublicKey itemId))
      = ok success
      /\ (success = true <->
          exists tx signature,
            In (SendAndConfirmTransaction tx)
               (actions (purchaseItem rt env programId adminPublicKey walletPublicKey itemId))
            /\ sendAndConfirmTransaction env 3 tx = ok signature).
Proof.
  intros rt env programId adminPublicKey walletPublicKey itemId.
  assert (Hfalse :
            forall l : trace,
              (forall tx, ~ In (SendAndConfirmTransaction tx) l) ->
              exists success,
                fst (@inr exn bool false, l) = ok success
                /\ (success = true <->
                    exists tx signature,
                      In (SendAndConfirmTransaction tx) (snd (@inr exn bool false, l))
                      /\ sendAndConfirmTransaction env 3 tx = ok signature)).
  { intros l Hl. exists false. split; [reflexivity | ]. split; [discriminate | ].
    intros (tx & signature & Hin & _). exfalso. exact (Hl tx Hin). }
  unfold purchaseItem, actions, run. unfold_monad. simp_goal.
  destruct (getShopPDA rt programId) as [e | shopPDA];
    [apply Hfalse; intros tx H; absent H | simp_goal].
  destruct (getItemPDA rt programId itemId) as [e | itemPDA];
    [apply Hfalse; intros tx H; absent H | simp_goal].
  destruct (getHistoryPDA rt programId walletPublicKey) as [e | historyPDA];
    [apply Hfalse; intros tx H; absent H | simp_goal].
  destruct (getAccountInfo env 0 itemPDA) as [e | [itemData | ]];
    [apply Hfalse; intros tx H; absent H | simp_goal | apply Hfalse; intros tx H; absent H].
  destruct (getAccountInfo env 1 historyPDA) as [e | account];
    [apply Hfalse; intros tx H; absent H | simp_goal].
  destruct (coder_decode_Item rt itemData) as [e | [[item_id item_price] item_uri]];
    [apply Hfalse; intros tx H; absent H | simp_goal].
  destruct (getBalance env 2 walletPublicKey) as [e | buyerBalance];
    [apply Hfalse; intros tx H; absent H | simp_goal].
  destruct (JS.lt buyerBalance (JS.Number item_price));
    [apply Hfalse; intros tx H; absent H | simp_goal].
  match goal with
  | |- context [sendAndConfirmTransaction env 3 ?t] => set (transaction := t) in *
  end.
  destruct (sendAndConfirmTransaction env 3 transaction) as [e | signature] eqn:Hsend;
    simp_goal.
  - exists false. split; [reflexivity | ]. split; [discriminate | ].
    intros (tx & signature & Hin & Hok). exfalso. cbn [snd In] in Hin.
    repeat (destruct Hin as [Hin | Hin]; [first [discriminate Hin | injection Hin as <-] | ]);
      [ | contradiction].
    rewrite Hsend in Hok. discriminate Hok.
  - match goal with
    | |- context [checkPurchaseHistoryForWallet ?a ?b ?c ?d ?t] =>
        destruct (checkPurchaseHistoryForWallet_shape a b c d t) as (l & Hl & _); rewrite Hl
    end.
    simp_goal. exists true. split; [reflexivity | ]. split; [ | reflexivity].
    intros _. exists transaction, signature. split; [ | exact Hsend].
    cbn [snd In]. do 3 right. left. reflexivity.
Qed.

Section AddItemFacts.

Variable rt : Runtime.

(** What [add_item_data] lays out, when it succeeds. *)
Lemma add_item_data_inv (id price : JS.number) (metadataUri : string) (data : Buffer) :
  add_item_data rt id price metadataUri = ok data ->
  exists bigId bigPrice,
    JS.BigInt id = ok bigId /\ 0 <= bigId < 2 ^ 64 /\
    JS.BigInt price = ok bigPrice /\ 0 <= bigPrice < 2 ^ 64 /\
    Z.of_nat (List.length (Buffer_from_string rt metadataUri)) < 2 ^ 32 /\
    data = Buffer_from_array [225; 38; 79; 147; 116; 142; 147; 57]
             ++ le_bytes 8 bigId ++ le_bytes 8 bigPrice
             ++ le_bytes 4 (Z.of_nat (List.length (Buffer_from_string rt metadataUri)))
             ++ Buffer_from_string rt metadataUri.
Proof.
  unfold add_item_data, Buf.writeBigUInt64LE, Buf.writeUInt32LE.
  destruct (JS.BigInt id) as [e | bigId]; [discriminate | ]. cbn [rbind ok].
  destruct ((0 <=? bigId) && (bigId <? 2 ^ 64)) eqn:Hid; [ | discriminate]. cbn [rbind ok].
  destruct (JS.BigInt price) as [e | bigPrice]; [discriminate | ]. cbn [rbind ok].
  destruct ((0 <=? bigPrice) && (bigPrice <? 2 ^ 64)) eqn:Hprice; [ | discriminate].
  cbn [rbind ok].
  destruct ((0 <=? Z.of_nat (List.length (Buffer_from_string rt metadataUri)))
            && (Z.of_nat (List.length (Buffer_from_string rt metadataUri)) <? 2 ^ 32)) eqn:Hlen;
    [ | discriminate].
  cbn [rbind ok]. intros H. injection H as <-.
  apply andb_true_iff in Hid, Hprice, Hlen.
  destruct Hid as [Hid1 Hid2], Hprice as [Hp1 Hp2], Hlen as [_ Hl2].
  apply Z.leb_le in Hid1, Hp1. apply Z.ltb_lt in Hid2, Hp2, Hl2.
  exists bigId, bigPrice.
  repeat (split; [first [reflexivity | assumption | lia] | ]).
  cbn [List.concat]. rewrite app_nil_r. reflexivity.
Qed.

End AddItemFacts.

(** X10: [addItemWithMetadata] adds an item once.  A metadata file whose
    [id] or [price] is falsy (zero, or not a number) is refused before any
    request; for an item whose account already exists nothing is sent and
    its address is returned.  A transaction is submitted only for truthy
    [id] and [price] and after the lookup found no account. *)
Theorem addItemWithMetadata_guards :
  forall (rt : Runtime) (env : Env) (programId walletPublicKey : PublicKey)
         (metadata : ItemMetadata),
    (JS.truthy (md_id metadata) = false \/ JS.truthy (md_price metadata) = false ->
     run (addItemWithMetadata rt env programId walletPublicKey metadata) = (ok None, []))
    /\
    (forall (shopPDA itemPDA : PublicKey) (existing : Buffer),
        JS.truthy (md_id metadata) = true ->
        JS.truthy (md_price metadata) = true ->
        getShopPDA rt programId = ok shopPDA ->
        getItemPDA rt programId (md_id metadata) = ok itemPDA ->
        getAccountInfo env 0 itemPDA = ok (Some existing) ->
        run (addItemWithMetadata rt env programId walletPublicKey metadata)
        = (ok (Some itemPDA), [GetAccountInfo itemPDA]))
    /\
    (forall tx : Transaction,
        In (SendAndConfirmTransaction tx)
           (actions (addItemWithMetadata rt env programId walletPublicKey metadata)) ->
        JS.truthy (md_id metadata) = true /\
        JS.truthy (md_price metadata) = true /\
        exists itemPDA,
          getItemPDA rt programId (md_id metadata) = ok itemPDA /\
          getAccountInfo env 0 itemPDA = ok None /\
          actions (addItemWithMetadata rt env programId walletPublicKey metadata)
          = [GetAccountInfo itemPDA; SendAndConfirmTransaction tx]).
Proof.
  intros rt env programId walletPublicKey metadata. split; [ | split].
  - intros H. unfold addItemWithMetadata, run.
    replace (negb (JS.truthy (md_id metadata)) || negb (JS.truthy (md_price metadata)))
      with true; [reflexivity | ].
    symmetry. apply orb_true_iff. destruct H as [H | H]; rewrite H; auto.
  - intros shopPDA itemPDA existing Hid Hprice Hs Hi Hacc.
    unfold addItemWithMetadata, run. rewrite Hid, Hprice. cbn [negb orb].
    unfold_monad. simp_goal. step_goal Hs. step_goal Hi. step_goal Hacc. reflexivity.
  - intros tx. unfold addItemWithMetadata, actions, run.
    destruct (JS.truthy (md_id metadata)); [ | intros H; absent H].
    destruct (JS.truthy (md_price metadata)); [ | intros H; absent H].
    cbn [negb orb]. unfold_monad. intros H. simp H. simp_goal.
    destruct (getShopPDA rt programId) as [e | shopPDA]; [absent H | simp H; simp_goal].
    destruct (getItemPDA rt programId (md_id metadata)) as [e | itemPDA];
      [absent H | simp H; simp_goal].
    destruct (getAccountInfo env 0 itemPDA) as [e | [existing | ]] eqn:Hacc;
      [absent H | absent H | simp H; simp_goal].
    destruct (add_item_data rt _ _ _) as [e | data]; [absent H | simp H; simp_goal].
    repeat (split; [reflexivity | ]). exists itemPDA.
    repeat (split; [reflexivity || assumption | ]).
    destruct (sendAndConfirmTransaction env 1 _) as [e | signature];
      simp H; simp_goal; cbn [In] in H;
      repeat (destruct H as [H | H]; [first [discriminate H | injection H as <-] | ]);
      first [reflexivity | contradiction].
Qed.

(** A metadata file with price 0, and the metadata of item 1 in a world
    that already holds item 1. *)
Lemma addItemWithMetadata_guards_witness :
  run (addItemWithMetadata Sample.rt Sample.fresh_world Sample.programId Sample.admin
         {| md_id := JS.Number 5; md_price := JS.Number 0; md_image_url := None |})
  = (ok None, [])
  /\ run (addItemWithMetadata Sample.rt Sample.fresh_world Sample.programId Sample.admin
            Sample.metadata)
     = (ok (Some Sample.itemPDA), [GetAccountInfo Sample.itemPDA]).
Proof.
  split.
  - apply (proj1 (addItemWithMetadata_guards Sample.rt Sample.fresh_world Sample.programId
                    Sample.admin
                    {| md_id := JS.Number 5; md_price := JS.Number 0; md_image_url := None |})).
    right. reflexivity.
  - apply (proj1 (proj2 (addItemWithMetadata_guards Sample.rt Sample.fresh_world
                           Sample.programId Sample.admin Sample.metadata))
             Sample.shopPDA Sample.itemPDA Sample.scenario_item).
    + reflexivity.
    + reflexivity.
    + vm_compute. reflexivity.
    + vm_compute. reflexivity.
    + vm_compute. reflexivity.
Defined.

(** X11: the [add_item] instruction.  The one action of [addItem] is the
    submission of a transaction, with no lookup before it: the compute
    budget directive, then the instruction for the shop program, whose
    accounts are the signing wallet (signer, writable), the shop address
    (writable), the item address (writable) and the system program
    (read-only), and whose data is the 8-byte tag of [add_item], the id and
    the price as u64 little-endian, the 4-byte length of the URI and its
    bytes.  The id and the price are integers in the u64 range.  And
    [addItemWithMetadata] submits the very transaction [addItem] submits for
    the URI ["image:" + image_url]. *)
Theorem add_item_instruction :
  forall (rt : Runtime) (env : Env) (programId walletPublicKey : PublicKey),
    (forall (id price : JS.number) (metadataUri : string) (tx : Transaction),
        In (SendAndConfirmTransaction tx)
           (actions (addItem rt env programId walletPublicKey id price metadataUri)) ->
        exists shopPDA itemPDA bigId bigPrice,
          getShopPDA rt programId = ok shopPDA /\
          getItemPDA rt programId id = ok itemPDA /\
          JS.BigInt id = ok bigId /\ 0 <= bigId < 2 ^ 64 /\
          JS.BigInt price = ok bigPrice /\ 0 <= bigPrice < 2 ^ 64 /\
          actions (addItem rt env programId walletPublicKey id price metadataUri)
          = [SendAndConfirmTransaction tx] /\
          tx = {| instructions :=
                    [ SetComputeUnitLimit 1000000;
                      TransactionInstruction
                        [ {| pubkey := walletPublicKey; isSigner := true; isWritable := true |};
                          {| pubkey := shopPDA; isSigner := false; isWritable := true |};
                          {| pubkey := itemPDA; isSigner := false; isWritable := true |};
                          {| pubkey := SystemProgram_programId; isSigner := false;
                             isWritable := false |} ]
                        programId
                        (Buffer_from_array [225; 38; 79; 147; 116; 142; 147; 57]
                           ++ le_bytes 8 bigId ++ le_bytes 8 bigPrice
                           ++ le_bytes 4 (Z.of_nat (List.length
                                                      (Buffer_from_string rt metadataUri)))
                           ++ Buffer_from_string rt metadataUri) ];
                  recentBlockhash := None;
                  feePayer := None |})
    /\
    (forall (metadata : ItemMetadata) (tx : Transaction) (env' : Env),
        In (SendAndConfirmTransaction tx)
           (actions (addItemWithMetadata rt env programId walletPublicKey metadata)) ->
        actions (addItem rt env' programId walletPublicKey (md_id metadata) (md_price metadata)
                   ("image:" ++ match md_image_url metadata with
                                | Some u => u
                                | None => ""
                                end))
        = [SendAndConfirmTransaction tx]).
Proof.
  intros rt env programId walletPublicKey. split.
  - intros id price metadataUri tx.
    unfold addItem, actions, run. unfold_monad. intros H. simp H. simp_goal.
    destruct (getShopPDA rt programId) as [e | shopPDA]; [absent H | simp H; simp_goal].
    destruct (getItemPDA rt programId id) as [e | itemPDA]; [absent H | simp H; simp_goal].
    destruct (add_item_data rt id price metadataUri) as [e | data] eqn:Hdata;
      [absent H | simp H; simp_goal].
    destruct (add_item_data_inv rt id price metadataUri data Hdata)
      as (bigId & bigPrice & Hid & Hidr & Hprice & Hpr & _ & ->).
    exists shopPDA, itemPDA, bigId, bigPrice.
    repeat (split; [reflexivity || assumption | ]).
    destruct (sendAndConfirmTransaction env 0 _) as [e | signature];
      simp H; simp_goal; cbn [In] in H;
      repeat (destruct H as [H | H]; [first [discriminate H | injection H as <-] | ]);
      first [split; reflexivity | contradiction].
  - intros metadata tx env'.
    unfold addItemWithMetadata, addItem, actions, run.
    destruct (negb (JS.truthy (md_id metadata)) || negb (JS.truthy (md_price metadata)));
      [intros H; absent H | ].
    unfold_monad. intros H. simp H. simp_goal.
    destruct (getShopPDA rt programId) as [e | shopPDA]; [absent H | simp H; simp_goal].
    destruct (getItemPDA rt programId (md_id metadata)) as [e | itemPDA];
      [absent H | simp H; simp_goal].
    destruct (getAccountInfo env 0 itemPDA) as [e | [existing | ]];
      [absent H | absent H | simp H].
    destruct (add_item_data rt _ _ _) as [e | data]; [absent H | simp H; simp_goal].
    assert (Htx : tx = {| instructions :=
                            [ SetComputeUnitLimit 1000000;
                              TransactionInstruction
                                (add_item_keys walletPublicKey shopPDA itemPDA)
                                programId data ];
                          recentBlockhash := None; feePayer := None |}).
    { destruct (sendAndConfirmTransaction env 1 _) as [e | signature];
        simp H; cbn [In] in H;
        repeat (destruct H as [H | H];
                [first [discriminate H | injection H as <-; reflexivity] | ]);
        contradiction. }
    rewrite Htx.
    destruct (sendAndConfirmTransaction env' 0 _) as [e | signature]; reflexivity.
Qed.

(** Item 1 of the end-to-end scenario, added by either script. *)
Lemma add_item_instruction_witness :
  In (SendAndConfirmTransaction
        {| instructions :=
             [ SetComputeUnitLimit 1000000;
               TransactionInstruction
                 (add_item_keys Sample.admin Sample.shopPDA Sample.itemPDA)
                 Sample.programId
                 (Buffer_from_array [225; 38; 79; 147; 116; 142; 147; 57]
                    ++ skipn 8 Sample.scenario_item) ];
           recentBlockhash := None;
           feePayer := None |})
     (actions (addItemWithMetadata Sample.rt
                 (Sample.without Sample.itemPDA Sample.fresh_world)
                 Sample.programId Sample.admin Sample.metadata))
  /\ actions (addItem Sample.rt Sample.fresh_world Sample.programId Sample.admin
                (JS.Number 1) (JS.Number 1000000000) Sample.uri)
     = [ SendAndConfirmTransaction
           {| instructions :=
                [ SetComputeUnitLimit 1000000;
                  TransactionInstruction
                    (add_item_keys Sample.admin Sample.shopPDA Sample.itemPDA)
                    Sample.programId
                    (Buffer_from_array [225; 38; 79; 147; 116; 142; 147; 57]
                       ++ skipn 8 Sample.scenario_item) ];
              recentBlockhash := None;
              feePayer := None |} ].
Proof.
  assert (H : In (SendAndConfirmTransaction
                    {| instructions :=
                         [ SetComputeUnitLimit 1000000;
                           TransactionInstruction
                             (add_item_keys Sample.admin Sample.shopPDA Sample.itemPDA)
                             Sample.programId
                             (Buffer_from_array [225; 38; 79; 147; 116; 142; 147; 57]
                                ++ skipn 8 Sample.scenario_item) ];
                       recentBlockhash := None;
                       feePayer := None |})
                 (actions (addItemWithMetadata Sample.rt
                             (Sample.without Sample.itemPDA Sample.fresh_world)
                             Sample.programId Sample.admin Sample.metadata))).
  { vm_compute. right. left. reflexivity. }
  split; [exact H | ].
  exact (proj2 (add_item_instruction Sample.rt
                  (Sample.without Sample.itemPDA Sample.fresh_world)
                  Sample.programId Sample.admin)
           Sample.metadata _ Sample.fresh_world H).
Defined.

(** X12: the shop is initialized once.  [initializeShop] first looks the
    shop account up.  If it exists, nothing is sent and the shop address is
    returned; if the lookup fails, its error is thrown and nothing is sent.
    If the account does not exist, one transaction is submitted: the compute
    budget directive, then the [initialize_shop] instruction, whose accounts
    are the signing wallet (signer, writable), the shop address (writable)
    and the system program (read-only) and whose data is the 8-byte tag
    alone; the shop address is returned when the submission is confirmed,
    and its error is thrown otherwise. *)
Theorem initializeShop_once :
  forall (rt : Runtime) (env : Env) (programId walletPublicKey shopPDA : PublicKey),
    getShopPDA rt programId = ok shopPDA ->
    (forall existing : Buffer,
        getAccountInfo env 0 shopPDA = ok (Some existing) ->
        run (initializeShop rt env programId walletPublicKey)
        = (ok shopPDA, [GetAccountInfo shopPDA]))
    /\
    (forall e : exn,
        getAccountInfo env 0 shopPDA = throw e ->
        run (initializeShop rt env programId walletPublicKey)
        = (throw e, [GetAccountInfo shopPDA]))
    /\
    (getAccountInfo env 0 shopPDA = ok None ->
     forall tx : Transaction,
       tx = {| instructions :=
                 [ SetComputeUnitLimit 1000000;
                   TransactionInstruction
                     [ {| pubkey := walletPublicKey; isSigner := true; isWritable := true |};
                       {| pubkey := shopPDA; isSigner := false; isWritable := true |};
                       {| pubkey := SystemProgram_programId; isSigner := false;
                          isWritable := false |} ]
                     programId
                     (Buffer_from_array [76; 158; 246; 22; 47; 236; 107; 186]) ];
               recentBlockhash := None;
               feePayer := None |} ->
       run (initializeShop rt env programId walletPublicKey)
       = (match sendAndConfirmTransaction env 1 tx with
          | inr _ => ok shopPDA
          | inl e => throw e
          end,
          [GetAccountInfo shopPDA; SendAndConfirmTransaction tx])).
Proof.
  intros rt env programId walletPublicKey shopPDA Hs. split; [ | split].
  - intros existing Hacc. unfold initializeShop, run. unfold_monad. simp_goal.
    step_goal Hs. step_goal Hacc. reflexivity.
  - intros e Hacc. unfold initializeShop, run. unfold_monad. simp_goal.
    step_goal Hs. step_goal Hacc. reflexivity.
  - intros Hacc tx ->. unfold initializeShop, run. unfold_monad. simp_goal.
    step_goal Hs. step_goal Hacc.
    destruct (sendAndConfirmTransaction env 1 _) as [e | signature]; reflexivity.
Qed.

(** The sample world, where the shop exists, and the same world before the
    shop was created. *)
Lemma initializeShop_once_witness :
  run (initializeShop Sample.rt Sample.fresh_world Sample.programId Sample.admin)
  = (ok Sample.shopPDA, [GetAccountInfo Sample.shopPDA])
  /\ run (initializeShop Sample.rt (Sample.without Sample.shopPDA Sample.fresh_world)
            Sample.programId Sample.admin)
     = (ok Sample.shopPDA,
        [ GetAccountInfo Sample.shopPDA;
          SendAndConfirmTransaction
            {| instructions :=
                 [ SetComputeUnitLimit 1000000;
                   TransactionInstruction
                     [ {| pubkey := Sample.admin; isSigner := true; isWritable := true |};
                       {| pubkey := Sample.shopPDA; isSigner := false; isWritable := true |};
                       {| pubkey := SystemProgram_programId; isSigner := false;
                          isWritable := false |} ]
                     Sample.programId
                     (Buffer_from_array [76; 158; 246; 22; 47; 236; 107; 186]) ];
               recentBlockhash := None;
               feePayer := None |} ]).
Proof.
  split.
  - apply (proj1 (initializeShop_once Sample.rt Sample.fresh_world Sample.programId
                    Sample.admin Sample.shopPDA ltac:(vm_compute; reflexivity))
             Sample.shop_account).
    vm_compute. reflexivity.
  - apply (proj2 (proj2 (initializeShop_once Sample.rt
                           (Sample.without Sample.shopPDA Sample.fresh_world)
                           Sample.programId Sample.admin Sample.shopPDA
                           ltac:(vm_compute; reflexivity)))
             ltac:(vm_compute; reflexivity) _ eq_refl).
Defined.

(** X13: the delete-item script changes nothing.  [markItemInactive] only
    reads: every action of it is a lookup of the item account, there are at
    most two, and no transaction is ever signed or submitted.  It returns
    [null] when the first lookup finds no account and the item address when
    it finds one, whatever the account holds. *)
Theorem markItemInactive_only_reads :
  forall (rt : Runtime) (env : Env) (programId : PublicKey) (id : JS.number),
    Forall (fun e => reads e = true) (actions (markItemInactive rt env programId id))
    /\ (List.length (actions (markItemInactive rt env programId id)) <= 2)%nat
    /\ (forall itemPDA : PublicKey,
          getItemPDA rt programId id = ok itemPDA ->
          (getAccountInfo env 0 itemPDA = ok None ->
           run (markItemInactive rt env programId id) = (ok None, [GetAccountInfo itemPDA]))
          /\
          (forall data : Buffer,
              getAccountInfo env 0 itemPDA = ok (Some data) ->
              run (markItemInactive rt env programId id)
              = (ok (Some itemPDA), [GetAccountInfo itemPDA; GetAccountInfo itemPDA]))).
Proof.
  intros rt env programId id.
  assert (Hfound :
            forall itemPDA data,
              getItemPDA rt programId id = ok itemPDA ->
              getAccountInfo env 0 itemPDA = ok (Some data) ->
              run (markItemInactive rt env programId id)
              = (ok (Some itemPDA), [GetAccountInfo itemPDA; GetAccountInfo itemPDA])).
  { intros itemPDA data Hi Hacc. unfold markItemInactive, getItemDetails, run.
    unfold_monad. simp_goal. step_goal Hi. step_goal Hacc.
    destruct (getAccountInfo env 1 itemPDA) as [e | [data' | ]]; simp_goal;
      [reflexivity | | reflexivity].
    destruct (getItemDetails_parse rt data'); reflexivity. }
  assert (Hrun :
            exists r l, run (markItemInactive rt env programId id) = (r, l)
                        /\ Forall (fun e => reads e = true) l /\ (List.length l <= 2)%nat).
  { destruct (getItemPDA rt programId id) as [e | itemPDA] eqn:Hi.
    - exists (throw e), []. unfold markItemInactive, run. unfold_monad. rewrite Hi.
      repeat split; [constructor | cbn; lia].
    - destruct (getAccountInfo env 0 itemPDA) as [e | [data | ]] eqn:Hacc.
      + exists (throw e), [GetAccountInfo itemPDA].
        unfold markItemInactive, run. unfold_monad. simp_goal. step_goal Hi. step_goal Hacc.
        repeat split; [repeat constructor | cbn; lia].
      + do 2 eexists. split; [exact (Hfound itemPDA data eq_refl Hacc) | ].
        split; [repeat constructor | cbn; lia].
      + exists (ok None), [GetAccountInfo itemPDA].
        unfold markItemInactive, run. unfold_monad. simp_goal. step_goal Hi. step_goal Hacc.
        repeat split; [repeat constructor | cbn; lia]. }
  destruct Hrun as (r & l & Hrun & Hreads & Hlen).
  unfold actions. rewrite Hrun. cbn [snd].
  split; [exact Hreads | split; [exact Hlen | ]].
  intros itemPDA Hi. split.
  - intros Hacc. rewrite <- Hrun. unfold markItemInactive, run. unfold_monad. simp_goal.
    step_goal Hi. step_goal Hacc. reflexivity.
  - intros data Hacc. rewrite <- Hrun. exact (Hfound itemPDA data Hi Hacc).
Qed.

(** Item 1 of the sample world, and an item that does not exist. *)
Lemma markItemInactive_only_reads_witness :
  run (markItemInactive Sample.rt (Sample.without Sample.itemPDA Sample.fresh_world)
         Sample.programId (JS.Number 1))
  = (ok None, [GetAccountInfo Sample.itemPDA])
  /\ run (markItemInactive Sample.rt Sample.fresh_world Sample.programId (JS.Number 1))
     = (ok (Some Sample.itemPDA), [GetAccountInfo Sample.itemPDA; GetAccountInfo Sample.itemPDA]).
Proof.
  split.
  - apply (proj1 (proj2 (proj2 (markItemInactive_only_reads Sample.rt
                                  (Sample.without Sample.itemPDA Sample.fresh_world)
                                  Sample.programId (JS.Number 1)))
                    Sample.itemPDA ltac:(vm_compute; reflexivity))).
    vm_compute. reflexivity.
  - apply (proj2 (proj2 (proj2 (markItemInactive_only_reads Sample.rt Sample.fresh_world
                                  Sample.programId (JS.Number 1)))
                    Sample.itemPDA ltac:(vm_compute; reflexivity))
             Sample.scenario_item).
    vm_compute. reflexivity.
Defined.

(** X14: [getItemDetails] is [getItem] with every error turned into
    [null].  For the same item address both scripts make the same single
    lookup; where [getItem] returns a value, [getItemDetails] returns the
    same value, and where [getItem] throws (the node fails, or the account
    is too short to be read) [getItemDetails] returns [null]. *)
Theorem getItemDetails_swallows_errors :
  forall (rt : Runtime) (env : Env) (programId itemPDA : PublicKey) (id : JS.number),
    getItemPDA rt programId id = ok itemPDA ->
    actions (getItem rt env programId id) = [GetAccountInfo itemPDA]
    /\ actions (getItemDetails rt env itemPDA) = [GetAccountInfo itemPDA]
    /\ fst (run (getItemDetails rt env itemPDA))
       = ok match fst (run (getItem rt env programId id)) with
            | inr item => item
            | inl _ => None
            end.
Proof.
  intros rt env programId itemPDA id Hi.
  unfold getItem, getItemDetails, actions, run. unfold_monad. simp_goal.
  step_goal Hi.
  destruct (getAccountInfo env 0 itemPDA) as [e | [data | ]]; simp_goal;
    [repeat split | | repeat split].
  rewrite getItem_parse_as_details.
  destruct (getItemDetails_parse rt data) as [e | item]; repeat split.
Qed.

(** Item 1 of the sample world, and the same item in an account cut after
    twenty bytes. *)
Lemma getItemDetails_swallows_errors_witness :
  (fst (run (getItem Sample.rt Sample.fresh_world Sample.programId (JS.Number 1)))
   = ok (Some {| id := JS.Number 1; price := JS.Number 1000000000;
                 metadataUri := Sample.uri |})
   /\ fst (run (getItemDetails Sample.rt Sample.fresh_world Sample.itemPDA))
      = ok (Some {| id := JS.Number 1; price := JS.Number 1000000000;
                    metadataUri := Sample.uri |}))
  /\ (fst (run (getItem Sample.rt
                  (Sample.world (firstn 20 Sample.scenario_item) (JS.Number 0) None)
                  Sample.programId (JS.Number 1)))
      = throw RangeError
      /\ fst (run (getItemDetails Sample.rt
                     (Sample.world (firstn 20 Sample.scenario_item) (JS.Number 0) None)
                     Sample.itemPDA))
         = ok match fst (run (getItem Sample.rt
                                (Sample.world (firstn 20 Sample.scenario_item)
                                   (JS.Number 0) None)
                                Sample.programId (JS.Number 1))) with
              | inr item => item
              | inl _ => None
              end).
Proof.
  split; split.
  - vm_compute. reflexivity.
  - vm_compute. reflexivity.
  - vm_compute. reflexivity.
  - exact (proj2 (proj2 (getItemDetails_swallows_errors Sample.rt
                           (Sample.world (firstn 20 Sample.scenario_item) (JS.Number 0) None)
                           Sample.programId Sample.itemPDA (JS.Number 1)
                           ltac:(vm_compute; reflexivity)))).
Defined.

Section NetworkRun.

Variable env : Env.
Variable connection : string.

(** The run of [checkNetwork] on the wrong network. *)
Lemma checkNetwork_mismatch (live expected : string) :
  getGenesisHash env 0 connection = ok live ->
  getGenesisHash env 1 (cfg_endpoint CURRENT_NETWORK) = ok expected ->
  live <> expected ->
  run (checkNetwork env connection)
  = (ok tt,
     [ GetGenesisHash connection; GetGenesisHash (cfg_endpoint CURRENT_NETWORK);
       SetIsCorrectNetwork false ]
       ++ map GetGenesisHash (probed env live 3 network_catalog)
       ++ [ SetDetectedNetwork (reported (first_match env live 3 network_catalog));
            ToastWrongNetwork (name (reported (first_match env live 3 network_catalog)))
                              (cfg_name CURRENT_NETWORK) ]).
Proof.
  intros Hlive Hexp Hneq.
  unfold checkNetwork, run. unfold_monad.
  cbn [List.length app]. rewrite Hlive. unfold ok. cbv beta iota.
  cbn [List.length app]. rewrite Hexp. unfold ok. cbv beta iota.
  replace (String.eqb live expected) with false
    by (symmetry; apply String.eqb_neq; exact Hneq).
  cbn [negb app List.length].
  rewrite probe_networks_run. unfold ok. cbn [List.length].
  unfold network_catalog. rewrite first_match_app, probed_app, length_map.
  change (3 + List.length SONIC_NETWORKS)%nat with 5%nat.
  destruct (first_match env live 3 (map (tag_provider sonic) SONIC_NETWORKS))
    as [e | ] eqn:Hfirst.
  - rewrite (first_match_provider env _ _ _ _ _ Hfirst).
    cbn [app]. rewrite <- !app_assoc. reflexivity.
  - cbn [provider Unknown_Network].
    rewrite probe_networks_run. unfold ok.
    assert (Hlen : List.length
                     ([GetGenesisHash connection;
                       GetGenesisHash (cfg_endpoint CURRENT_NETWORK);
                       SetIsCorrectNetwork false]
                        ++ map GetGenesisHash
                             (probed env live 3 (map (tag_provider sonic) SONIC_NETWORKS)))
                   = 5%nat).
    { rewrite length_app, length_map, (probed_all env _ _ _ Hfirst), length_map. reflexivity. }
    rewrite Hlen. cbn [snd]. rewrite map_app, <- !app_assoc.
    destruct (first_match env live 5 (map (tag_provider solana) SOLANA_NETWORKS_CONFIG));
      reflexivity.
Qed.

(** The verifier never throws. *)
Lemma checkNetwork_total : fst (run (checkNetwork env connection)) = ok tt.
Proof.
  unfold checkNetwork, run, try_catch.
  match goal with
  | |- fst (match ?m with _ => _ end) = _ => destruct m as [[e | []] t]
  end; reflexivity.
Qed.

Lemma checkNetwork_match (h : string) :
  getGenesisHash env 0 connection = ok h ->
  getGenesisHash env 1 (cfg_endpoint CURRENT_NETWORK) = ok h ->
  actions (checkNetwork env connection)
  = [ GetGenesisHash connection; GetGenesisHash (cfg_endpoint CURRENT_NETWORK);
      SetIsCorrectNetwork true ].
Proof.
  intros Hlive Hexp. unfold checkNetwork, actions, run. unfold_monad.
  cbn [List.length app]. rewrite Hlive. unfold ok. cbv beta iota.
  cbn [List.length app]. rewrite Hexp. unfold ok. cbv beta iota.
  rewrite String.eqb_refl. reflexivity.
Qed.

Lemma checkNetwork_live_fails (e : exn) :
  getGenesisHash env 0 connection = throw e ->
  actions (checkNetwork env connection) = [GetGenesisHash connection].
Proof.
  intros Hlive. unfold checkNetwork, actions, run. unfold_monad.
  cbn [List.length app]. rewrite Hlive. reflexivity.
Qed.

Lemma checkNetwork_expected_fails (h : string) (e : exn) :
  getGenesisHash env 0 connection = ok h ->
  getGenesisHash env 1 (cfg_endpoint CURRENT_NETWORK) = throw e ->
  actions (checkNetwork env connection)
  = [GetGenesisHash connection; GetGenesisHash (cfg_endpoint CURRENT_NETWORK)].
Proof.
  intros Hlive Hexp. unfold checkNetwork, actions, run. unfold_monad.
  cbn [List.length app]. rewrite Hlive. unfold ok. cbv beta iota.
  cbn [List.length app]. rewrite Hexp. reflexivity.
Qed.

(** With a configured endpoint that answers its second probe as its first,
    the entry found for a live hash that differs from the expected one is
    never the configured network. *)
Lemma first_match_not_expected (live expected : string) :
  getGenesisHash env 4 (cfg_endpoint CURRENT_NETWORK) = ok expected ->
  live <> expected ->
  name (reported (first_match env live 3 network_catalog)) <> cfg_name CURRENT_NETWORK.
Proof.
  intros Hsteady Hneq.
  unfold network_catalog, SONIC_NETWORKS, SOLANA_NETWORKS_CONFIG.
  cbn [map app first_match tag_provider fst snd].
  destruct (fingerprint_matches env live 3 _); [cbn; discriminate | ].
  assert (Hmiss : fingerprint_matches env live 4
                    {| cfg_name := "Sonic Testnet";
                       cfg_endpoint := "https://api.testnet.sonic.game";
                       cfg_explorerUrl := "https://explorer.testnet.sonic.game" |} = false).
  { unfold fingerprint_matches. cbn [cfg_endpoint].
    change "https://api.testnet.sonic.game"%string with (cfg_endpoint CURRENT_NETWORK).
    rewrite Hsteady. apply String.eqb_neq. exact Hneq. }
  rewrite Hmiss.
  repeat (destruct (fingerprint_matches _ _ _ _); [cbn; discriminate | ]).
  cbn. discriminate.
Qed.

End NetworkRun.

(** X15: the network verifier stays quiet unless it has seen a mismatch.
    [checkNetwork] never throws.  When the live genesis hash is the
    expected one it records that the network is correct and does nothing
    more: no catalog entry is probed and no toast is shown.  When the live
    node, or the configured endpoint, fails to answer, it stops there and
    changes no state. *)
Theorem checkNetwork_quiet :
  forall (env : Env) (connection : string),
    fst (run (checkNetwork env connection)) = ok tt
    /\ (forall h,
          getGenesisHash env 0 connection = ok h ->
          getGenesisHash env 1 (cfg_endpoint CURRENT_NETWORK) = ok h ->
          actions (checkNetwork env connection)
          = [ GetGenesisHash connection; GetGenesisHash (cfg_endpoint CURRENT_NETWORK);
              SetIsCorrectNetwork true ])
    /\ (forall e,
          getGenesisHash env 0 connection = throw e ->
          actions (checkNetwork env connection) = [GetGenesisHash connection])
    /\ (forall h e,
          getGenesisHash env 0 connection = ok h ->
          getGenesisHash env 1 (cfg_endpoint CURRENT_NETWORK) = throw e ->
          actions (checkNetwork env connection)
          = [GetGenesisHash connection; GetGenesisHash (cfg_endpoint CURRENT_NETWORK)]).
Proof.
  intros env connection. split; [apply checkNetwork_total | ].
  split; [ | split].
  - apply checkNetwork_match.
  - apply checkNetwork_live_fails.
  - apply checkNetwork_expected_fails.
Qed.

(** A wallet on the expected network, and a world in which no node
    answers. *)
Lemma checkNetwork_quiet_witness :
  actions (checkNetwork (Sample.network_world "genesis" "genesis" (fun _ => ok "other"%string))
             SOLANA_RPC_URL)
  = [ GetGenesisHash SOLANA_RPC_URL; GetGenesisHash (cfg_endpoint CURRENT_NETWORK);
      SetIsCorrectNetwork true ]
  /\ actions (checkNetwork Sample.unreachable_world SOLANA_RPC_URL)
     = [GetGenesisHash SOLANA_RPC_URL].
Proof.
  split.
  - apply (proj1 (proj2 (checkNetwork_quiet
                           (Sample.network_world "genesis" "genesis"
                              (fun _ => ok "other"%string)) SOLANA_RPC_URL))
             "genesis"%string); reflexivity.
  - apply (proj1 (proj2 (proj2 (checkNetwork_quiet Sample.unreachable_world SOLANA_RPC_URL)))
             (External "fetch failed")).
    reflexivity.
Defined.

(** X16: the wrong-network toast never blames the expected network.  When
    the configured endpoint answers its second probe (the fifth action) as
    it answered the first, the network named in the toast as the one the
    wallet is connected to is never the network the toast asks to connect
    to ("Sonic Testnet"). *)
Theorem checkNetwork_never_blames_expected :
  forall (env : Env) (connection detected expected : string),
    getGenesisHash env 4 (cfg_endpoint CURRENT_NETWORK)
    = getGenesisHash env 1 (cfg_endpoint CURRENT_NETWORK) ->
    In (ToastWrongNetwork detected expected) (actions (checkNetwork env connection)) ->
    expected = "Sonic Testnet"%string /\ detected <> expected.
Proof.
  intros env connection detected expected Hsteady.
  destruct (getGenesisHash env 0 connection) as [e | live] eqn:Hlive.
  { rewrite (checkNetwork_live_fails env connection e Hlive).
    intros [H | []]. discriminate H. }
  destruct (getGenesisHash env 1 (cfg_endpoint CURRENT_NETWORK)) as [e | hash] eqn:Hexp.
  { rewrite (checkNetwork_expected_fails env connection live e Hlive Hexp).
    intros [H | [H | []]]; discriminate H. }
  destruct (String.eqb_spec live hash) as [-> | Hneq].
  { rewrite (checkNetwork_match env connection hash Hlive Hexp).
    intros [H | [H | [H | []]]]; discriminate H. }
  unfold actions. rewrite (checkNetwork_mismatch env connection live hash Hlive Hexp Hneq).
  cbn [snd]. intros H.
  cbn [app In] in H.
  repeat (destruct H as [H | H]; [discriminate H | ]).
  rewrite in_app_iff in H. destruct H as [H | H].
  { apply in_map_iff in H. destruct H as (x & Hx & _). discriminate Hx. }
  cbn [In] in H. destruct H as [H | [H | []]]; [discriminate H | ].
  injection H as <- <-. split; [reflexivity | ].
  apply first_match_not_expected with (expected := hash); assumption.
Qed.

(** The wallet's node is on Solana devnet and every node answers steadily:
    the toast names "Solana Devnet". *)
Lemma checkNetwork_never_blames_expected_witness :
  In (ToastWrongNetwork "Solana Devnet" "Sonic Testnet")
     (actions (checkNetwork Sample.steady_network_world "https://wallet.example"))
  /\ ("Sonic Testnet"%string = "Sonic Testnet"%string
      /\ "Solana Devnet"%string <> "Sonic Testnet"%string).
Proof.
  assert (H : In (ToastWrongNetwork "Solana Devnet" "Sonic Testnet")
                 (actions (checkNetwork Sample.steady_network_world
                             "https://wallet.example"))).
  { vm_compute. do 9 right. left. reflexivity. }
  split; [exact H | ].
  exact (checkNetwork_never_blames_expected Sample.steady_network_world
           "https://wallet.example" "Solana Devnet" "Sonic Testnet" eq_refl H).
Defined.

(** ** Strings *)

Lemma prefix_app (p s : string) : String.prefix p (p ++ s) = true.
Proof.
  induction p as [ | c p IH]; cbn.
  - destruct s; reflexivity.
  - destruct (Ascii.ascii_dec c c) as [_ | Hne]; [exact IH | contradiction].
Qed.

Lemma prefix_split (p s : string) :
  String.prefix p s = true -> exists rest, s = (p ++ rest)%string.
Proof.
  revert s. induction p as [ | c p IH]; intros s H.
  - exists s. reflexivity.
  - destruct s as [ | d s]; [discriminate H | ].
    cbn in H. destruct (Ascii.ascii_dec c d) as [<- | Hne]; [ | discriminate H].
    destruct (IH s H) as (rest & ->). exists rest. reflexivity.
Qed.

Lemma substring_from_app (p s : string) :
  Str.substring_from (String.length p) (p ++ s) = s.
Proof.
  induction p as [ | c p IH]; cbn.
  - destruct s; reflexivity.
  - exact IH.
Qed.

Lemma replace_unfold (s p r : string) :
  Str.replace s p r
  = if String.prefix p s then (r ++ Str.substring_from (String.length p) s)%string
    else match s with
         | EmptyString => EmptyString
         | String c rest => String c (Str.replace rest p r)
         end.
Proof. destruct s; reflexivity. Qed.

Lemma replace_prefix (p r s : string) : Str.replace (p ++ s) p r = (r ++ s)%string.
Proof. rewrite replace_unfold, prefix_app, substring_from_app. reflexivity. Qed.

(** [ipfsToHttp] on the three kinds of input. *)
Lemma ipfsToHttp_ipfs (cid : string) :
  ipfsToHttp ("ipfs://" ++ cid) = ("https://ipfs.io/ipfs/" ++ cid)%string.
Proof.
  unfold ipfsToHttp, Str.startsWith.
  rewrite prefix_app, replace_prefix. reflexivity.
Qed.

Lemma ipfsToHttp_other (s : string) :
  Str.startsWith s "ipfs://" = false -> ipfsToHttp s = s.
Proof.
  intros H. unfold ipfsToHttp. rewrite H.
  destruct (String.eqb_spec s ""); [congruence | reflexivity].
Qed.

Lemma ipfsToHttp_not_ipfs (s : string) : Str.startsWith (ipfsToHttp s) "ipfs://" = false.
Proof.
  destruct (Str.startsWith s "ipfs://") eqn:H.
  - destruct (prefix_split _ _ H) as (cid & ->). rewrite ipfsToHttp_ipfs. reflexivity.
  - rewrite ipfsToHttp_other by exact H. exact H.
Qed.

(** X17: [ipfsToHttp] maps to the gateway, once.  A URI of the form
    [ipfs://<cid>] becomes [https://ipfs.io/ipfs/<cid>]; every other string
    is returned as it is; the result never starts with [ipfs://]; and
    converting twice is converting once. *)
Theorem ipfsToHttp_gateway :
  (forall cid : string,
      ipfsToHttp ("ipfs://" ++ cid) = ("https://ipfs.io/ipfs/" ++ cid)%string)
  /\ (forall s : string, Str.startsWith s "ipfs://" = false -> ipfsToHttp s = s)
  /\ (forall s : string, Str.startsWith (ipfsToHttp s) "ipfs://" = false)
  /\ (forall s : string, ipfsToHttp (ipfsToHttp s) = ipfsToHttp s).
Proof.
  split; [exact ipfsToHttp_ipfs | ].
  split; [exact ipfsToHttp_other | ].
  split; [exact ipfsToHttp_not_ipfs | ].
  intros s. apply ipfsToHttp_other. apply ipfsToHttp_not_ipfs.
Qed.

(** A gateway URL is left alone. *)
Lemma ipfsToHttp_gateway_witness :
  ipfsToHttp "https://ipfs.io/ipfs/cid" = "https://ipfs.io/ipfs/cid"%string
  /\ ipfsToHttp "ipfs://cid" = "https://ipfs.io/ipfs/cid"%string.
Proof.
  split.
  - apply (proj1 (proj2 ipfsToHttp_gateway)). reflexivity.
  - apply (proj1 ipfsToHttp_gateway "cid"%string).
Defined.

Section PresentFacts.

Variable toLowerCase : string -> string.
Variable Number_toString : JS.number -> string.

(** An item whose URI is ["image:" + url] is shown with that image, or with
    the default image when [url] is empty. *)
Lemma present_image (http : string -> result Response) (shown itemId itemPrice : JS.number)
  (url : string) :
  let item := present toLowerCase Number_toString http shown
                {| id := itemId; price := itemPrice; metadataUri := "image:" ++ url |} in
  ShopItem.id item = itemId
  /\ ShopItem.price item = itemPrice
  /\ ShopItem.metadataUri item = ("image:" ++ url)%string
  /\ ShopItem.image item = (if String.eqb url "" then placeholder_default else url).
Proof.
  cbv zeta. unfold present, Str.startsWith.
  rewrite prefix_app.
  change 6%nat with (String.length "image:"). rewrite substring_from_app.
  destruct (String.eqb url ""); cbn [negb].
  - repeat split.
  - destruct (known_item shown _ _) as [name description]. repeat split.
Qed.

End PresentFacts.

(** X18: the image of the metadata file is the image the page shows.
    Take the instruction data that [addItemWithMetadata] builds for the URI
    ["image:" + url] (through [add_item_data], with a URI text that
    survives the UTF-8 conversions), and an item account that holds, after
    any 8-byte tag, the same id, price, length and URI bytes, followed by
    any padding.  The page decodes the account to the URI
    ["image:" + url] and presents the item with [url] as its image, or with
    the default placeholder image when [url] is empty, whatever the network
    would answer to a metadata request and whatever identifier was asked
    for. *)
Theorem image_url_is_shown :
  forall (rt : Runtime) (toLowerCase : string -> string)
         (Number_toString : JS.number -> string) (http : string -> result Response)
         (shown id price : JS.number) (url : string) (data tag padding : Buffer),
    add_item_data rt id price ("image:" ++ url) = ok data ->
    toString_utf8 rt (Buffer_from_string rt ("image:" ++ url)) = ("image:" ++ url)%string ->
    List.length tag = 8%nat ->
    exists fields,
      decode_item rt (tag ++ skipn 8 data ++ padding) = ok fields
      /\ metadataUri fields = ("image:" ++ url)%string
      /\ ShopItem.metadataUri (present toLowerCase Number_toString http shown fields)
         = ("image:" ++ url)%string
      /\ ShopItem.image (present toLowerCase Number_toString http shown fields)
         = (if String.eqb url "" then placeholder_default else url).
Proof.
  intros rt toLowerCase Number_toString http shown id price url data tag padding
         Hdata Hutf Htag.
  destruct (add_item_data_inv rt id price _ data Hdata)
    as (bigId & bigPrice & _ & Hidr & _ & Hpr & Hlen & ->).
  cbn [Buffer_from_array map app skipn].
  rewrite <- !app_assoc.
  rewrite decode_item_layout by (assumption || lia).
  rewrite Nat2Z.id, firstn_app, firstn_all, Nat.sub_diag. cbn [firstn]. rewrite app_nil_r.
  rewrite Hutf.
  eexists. split; [reflexivity | ]. split; [reflexivity | ].
  pose proof (present_image toLowerCase Number_toString http shown (JS.Number bigId)
                (JS.div (JS.Number bigPrice) LAMPORTS_PER_SOL) url) as H.
  cbv zeta in H. destruct H as (_ & _ & Huri & Himage).
  split; assumption.
Qed.

(** The metadata of item 1, stored in an account of 228 bytes under the
    tag of the sample accounts; and a metadata file without an image. *)
Lemma image_url_is_shown_witness :
  (exists fields,
      decode_item Sample.rt Sample.padded_item = ok fields
      /\ metadataUri fields = "image:https://x/y.png"%string
      /\ ShopItem.metadataUri
           (present (fun s => s) (fun _ => "1"%string) (fun _ => throw (External "offline"))
              (JS.Number 1) fields)
         = "image:https://x/y.png"%string
      /\ ShopItem.image
           (present (fun s => s) (fun _ => "1"%string) (fun _ => throw (External "offline"))
              (JS.Number 1) fields)
         = "https://x/y.png"%string)
  /\ ShopItem.image
       (present (fun s => s) (fun _ => "7"%string) (fun _ => throw (External "offline"))
          (JS.Number 7)
          {| id := JS.Number 7; price := JS.Number 1; metadataUri := "image:" |})
     = placeholder_default.
Proof.
  split.
  - exact (image_url_is_shown Sample.rt (fun s => s) (fun _ => "1"%string)
             (fun _ => throw (External "offline")) (JS.Number 1)
             (JS.Number 1) (JS.Number 1000000000) "https://x/y.png"
             (Buffer_from_array [225; 38; 79; 147; 116; 142; 147; 57]
                ++ skipn 8 Sample.scenario_item)
             Sample.discriminator (repeat x00 179)
             ltac:(vm_compute; reflexivity) ltac:(vm_compute; reflexivity) eq_refl).
  - vm_compute. reflexivity.
Defined.

Section ListingFacts.

Variable rt : Runtime.
Variable env : Env.
Variable SHOP_PROGRAM_ID : string.
Variable toLowerCase : string -> string.
Variable Number_toString : JS.number -> string.
Variable fetch : nat -> string -> result Response.

(** One lookup of the listing: it never throws. *)
Lemma fetchShopItem_run (programId itemPDA : PublicKey) (id : JS.number) (t : trace) :
  getItemPDA rt programId id = ok itemPDA ->
  fetchShopItem rt env toLowerCase Number_toString fetch programId id t
  = (ok match getAccountInfo env (List.length t) itemPDA with
        | inr (Some data) =>
            match decode_item rt data with
            | inr fields =>
                Some (present toLowerCase Number_toString (fetch (S (List.length t))) id fields)
            | inl _ => None
            end
        | _ => None
        end,
     t ++ [GetAccountInfo itemPDA]).
Proof.
  intros Hi. unfold fetchShopItem. unfold_monad. rewrite Hi. simp_goal.
  destruct (getAccountInfo env (List.length t) itemPDA) as [e | [data | ]]; simp_goal;
    [reflexivity | | reflexivity].
  destruct (decode_item rt data) as [e | fields]; simp_goal; [reflexivity | ].
  rewrite length_app, Nat.add_comm. reflexivity.
Qed.

(** The loop of [fetchItems]: every identifier is looked up, in order, and
    the items found are appended. *)
Lemma fetch_loop_run (programPubkey : PublicKey) (pda : Z -> PublicKey) (ids : list Z) :
  (forall i, In i ids -> getItemPDA rt programPubkey (JS.Number i) = ok (pda i)) ->
  forall (items : list ShopItem.t) (t : trace),
  exists found,
    fetch_loop rt env toLowerCase Number_toString fetch programPubkey ids items t
    = (ok (items ++ found), t ++ map (fun i => GetAccountInfo (pda i)) ids)
    /\ forall item,
        In item found <->
        exists j i data fields,
          nth_error ids j = Some i /\
          getAccountInfo env (List.length t + j) (pda i) = ok (Some data) /\
          decode_item rt data = ok fields /\
          item = present toLowerCase Number_toString (fetch (S (List.length t + j)))
                   (JS.Number i) fields.
Proof.
  induction ids as [ | i rest IH]; intros Hpda items t.
  - exists []. rewrite !app_nil_r. split; [reflexivity | ].
    intros item. split; [intros [] | ].
    intros (j & i & data & fields & Hj & _). destruct j; discriminate Hj.
  - cbn [fetch_loop map]. unfold bind, attempt.
    rewrite (fetchShopItem_run programPubkey (pda i) (JS.Number i) t)
      by (apply Hpda; left; reflexivity).
    unfold ok. cbv beta iota.
    assert (Hrest : forall k, In k rest ->
                              getItemPDA rt programPubkey (JS.Number k) = ok (pda k))
      by (intros k Hk; apply Hpda; right; exact Hk).
    assert (Hlen : List.length (t ++ [GetAccountInfo (pda i)]) = S (List.length t))
      by (rewrite length_app, Nat.add_comm; reflexivity).
    assert (Hshift :
              forall (found : list ShopItem.t) (here : list ShopItem.t),
                (forall item,
                    In item here <->
                    exists data fields,
                      getAccountInfo env (List.length t) (pda i) = inr (Some data) /\
                      decode_item rt data = inr fields /\
                      item = present toLowerCase Number_toString
                               (fetch (S (List.length t))) (JS.Number i) fields) ->
                (forall item,
                    In item found <->
                    exists j k data fields,
                      nth_error rest j = Some k /\
                      getAccountInfo env (S (List.length t) + j) (pda k) = ok (Some data) /\
                      decode_item rt data = ok fields /\
                      item = present toLowerCase Number_toString
                               (fetch (S (S (List.length t) + j))) (JS.Number k) fields) ->
                forall item,
                  In item (here ++ found) <->
                  exists j k data fields,
                    nth_error (i :: rest) j = Some k /\
                    getAccountInfo env (List.length t + j) (pda k) = ok (Some data) /\
                    decode_item rt data = ok fields /\
                    item = present toLowerCase Number_toString
                             (fetch (S (List.length t + j))) (JS.Number k) fields).
    { intros found here Hhere Hfound item. rewrite in_app_iff, Hhere, Hfound. split.
      - intros [(data & fields & Ha & Hd & ->) | (j & k & data & fields & Hj & Ha & Hd & ->)].
        + exists 0%nat, i, data, fields. rewrite !Nat.add_0_r. repeat split; assumption.
        + exists (S j), k, data, fields.
          replace (List.length t + S j)%nat with (S (List.length t) + j)%nat by lia.
          repeat split; assumption.
      - intros (j & k & data & fields & Hj & Ha & Hd & ->). destruct j as [ | j].
        + left. cbn in Hj. injection Hj as <-. rewrite !Nat.add_0_r in *.
          exists data, fields. repeat split; assumption.
        + right. exists j, k, data, fields.
          replace (S (List.length t) + j)%nat with (List.length t + S j)%nat by lia.
          repeat split; assumption. }
    destruct (getAccountInfo env (List.length t) (pda i)) as [e | [data | ]] eqn:Hacc.
    + destruct (IH Hrest items (t ++ [GetAccountInfo (pda i)])) as (found & Hrun & Hfound).
      exists found. rewrite Hrun, <- app_assoc. split; [reflexivity | ].
      rewrite Hlen in Hfound.
      apply (Hshift found []); [ | exact Hfound].
      intros item. split; [intros [] | intros (d & f & Ha & _); discriminate Ha].
    + destruct (decode_item rt data) as [e | fields] eqn:Hdec.
      * destruct (IH Hrest items (t ++ [GetAccountInfo (pda i)])) as (found & Hrun & Hfound).
        exists found. rewrite Hrun, <- app_assoc. split; [reflexivity | ].
        rewrite Hlen in Hfound.
        apply (Hshift found []); [ | exact Hfound].
        intros item. split; [intros [] | ].
        intros (d & f & Ha & Hd & _). injection Ha as <-. rewrite Hdec in Hd. discriminate Hd.
      * destruct (IH Hrest
                    (items ++ [present toLowerCase Number_toString (fetch (S (List.length t)))
                                 (JS.Number i) fields])
                    (t ++ [GetAccountInfo (pda i)])) as (found & Hrun & Hfound).
        exists ([present toLowerCase Number_toString (fetch (S (List.length t)))
                   (JS.Number i) fields] ++ found).
        rewrite Hrun, <- !app_assoc. split; [reflexivity | ].
        rewrite Hlen in Hfound.
        apply (Hshift found); [ | exact Hfound].
        intros item. split.
        -- intros [<- | []]. exists data, fields. repeat split. exact Hdec.
        -- intros (d & f & Ha & Hd & ->). injection Ha as <-. rewrite Hdec in Hd.
           injection Hd as <-. left. reflexivity.
    + destruct (IH Hrest items (t ++ [GetAccountInfo (pda i)])) as (found & Hrun & Hfound).
      exists found. rewrite Hrun, <- app_assoc. split; [reflexivity | ].
      rewrite Hlen in Hfound.
      apply (Hshift found []); [ | exact Hfound].
      intros item. split; [intros [] | intros (d & f & Ha & _); discriminate Ha].
Qed.

(** Presentation keeps the three fields read from the account. *)
Lemma present_fields (http : string -> result Response) (shown : JS.number)
  (fields : ItemFields) :
  ShopItem.id (present toLowerCase Number_toString http shown fields) = id fields
  /\ ShopItem.price (present toLowerCase Number_toString http shown fields) = price fields
  /\ ShopItem.metadataUri (present toLowerCase Number_toString http shown fields)
     = metadataUri fields.
Proof.
  destruct fields as [itemId itemPrice uri]. unfold present.
  destruct (Str.startsWith uri "image:").
  - destruct (negb (String.eqb (Str.substring_from 6 uri) "")); [ | repeat split].
    destruct (known_item shown _ _); repeat split.
  - destruct (negb (String.eqb uri "")); [ | repeat split].
    destruct (fetchMetadata http uri); repeat split.
Qed.

End ListingFacts.

(** X19: the shop lists the items 1 to 10, and nothing stops the listing.
    [fetchItems] never throws and always ends with [isLoading] cleared.  If
    the program identifier is not a valid key it sets the error message,
    keeps the items it had and asks the node for nothing.  Otherwise it
    keeps the error it had and looks up the ten addresses of the items 1 to
    10, each exactly once and in order, whatever the node answers: a missing
    account, an account that cannot be decoded or a failing node never stop
    the loop.  The items shown are exactly those among the ten whose
    account exists and decodes, each with the id, price and URI read from
    its account. *)
Theorem fetchItems_lists_ten :
  forall (rt : Runtime) (env : Env) (SHOP_PROGRAM_ID : string)
         (toLowerCase : string -> string) (Number_toString : JS.number -> string)
         (fetch : nat -> string -> result Response) (s : ListingState),
    (exists s',
        fst (run (fetchItems rt env SHOP_PROGRAM_ID toLowerCase Number_toString fetch s))
        = ok s'
        /\ isLoading s' = false)
    /\
    (forall e,
        PublicKey_of_base58 rt SHOP_PROGRAM_ID = throw e ->
        run (fetchItems rt env SHOP_PROGRAM_ID toLowerCase Number_toString fetch s)
        = (ok {| shopItems := shopItems s; isLoading := false;
                 error := Some "Failed to load shop items. Please try again later."%string |},
           []))
    /\
    (forall (programPubkey : PublicKey) (pda : Z -> PublicKey),
        PublicKey_of_base58 rt SHOP_PROGRAM_ID = ok programPubkey ->
        (forall i, 1 <= i <= 10 ->
                   getItemPDA rt programPubkey (JS.Number i) = ok (pda i)) ->
        exists items,
          run (fetchItems rt env SHOP_PROGRAM_ID toLowerCase Number_toString fetch s)
          = (ok {| shopItems := items; isLoading := false; error := error s |},
             map (fun i => GetAccountInfo (pda i)) [1; 2; 3; 4; 5; 6; 7; 8; 9; 10])
          /\ forall item,
              In item items <->
              exists i data fields,
                1 <= i <= 10 /\
                getAccountInfo env (Z.to_nat (i - 1)) (pda i) = ok (Some data) /\
                decode_item rt data = ok fields /\
                item = present toLowerCase Number_toString (fetch (Z.to_nat i))
                         (JS.Number i) fields /\
                ShopItem.id item = id fields /\
                ShopItem.price item = price fields /\
                ShopItem.metadataUri item = metadataUri fields).
Proof.
  intros rt env pid toLowerCase Number_toString fetch s. split; [ | split].
  - unfold fetchItems, run.
    match goal with
    | |- context [bind (try_catch ?m ?h) ?k] =>
        assert (H : exists a t, try_catch m h [] = (ok a, t))
          by (unfold try_catch; destruct (m []) as [[e | a] t];
              do 2 eexists; reflexivity);
        destruct H as (a & t & H); unfold bind at 1; rewrite H
    end.
    eexists. split; reflexivity.
  - intros e Hp. unfold fetchItems, run. unfold_monad. rewrite Hp. reflexivity.
  - intros programPubkey pda Hp Hpda.
    destruct (fetch_loop_run rt env toLowerCase Number_toString fetch programPubkey pda
                [1; 2; 3; 4; 5; 6; 7; 8; 9; 10]
                ltac:(intros i Hi; apply Hpda; cbn [In] in Hi; lia) [] [])
      as (found & Hrun & Hfound).
    exists found. unfold fetchItems, run. unfold_monad. rewrite Hp. simp_goal.
    rewrite Hrun. simp_goal. split; [reflexivity | ].
    intros item. rewrite Hfound. cbn [List.length Nat.add]. split.
    + intros (j & i & data & fields & Hj & Ha & Hd & ->).
      exists i, data, fields.
      pose proof (present_fields toLowerCase Number_toString (fetch (S j)) (JS.Number i) fields)
        as (Hf1 & Hf2 & Hf3).
      do 10 (destruct j as [ | j];
             [cbn in Hj; injection Hj as <-; repeat split; (lia || assumption) | ]).
      destruct j; discriminate Hj.
    + intros (i & data & fields & Hi & Ha & Hd & -> & _).
      exists (Z.to_nat (i - 1)), i, data, fields.
      replace (S (Z.to_nat (i - 1))) with (Z.to_nat i) by lia.
      repeat split; try assumption.
      assert (Hcases : i = 1 \/ i = 2 \/ i = 3 \/ i = 4 \/ i = 5 \/ i = 6 \/ i = 7 \/ i = 8
                       \/ i = 9 \/ i = 10) by lia.
      repeat (destruct Hcases as [-> | Hcases]; [reflexivity | ]). subst i. reflexivity.
Qed.

(** The sample shop, which holds item 1 alone; and a page configured with
    a program identifier that is no key. *)
Lemma fetchItems_lists_ten_witness :
  (exists items,
      run (fetchItems Sample.rt Sample.fresh_world Sample.SHOP_PROGRAM_ID (fun s => s)
             (fun _ => "1"%string) (fun _ _ => throw (External "offline"))
             {| shopItems := []; isLoading := true; error := None |})
      = (ok {| shopItems := items; isLoading := false; error := None |},
         map (fun i => GetAccountInfo
                         (Sample.address (getItemPDA Sample.rt Sample.programId (JS.Number i))))
             [1; 2; 3; 4; 5; 6; 7; 8; 9; 10])
      /\ forall item,
          In item items <->
          exists i data fields,
            1 <= i <= 10 /\
            getAccountInfo Sample.fresh_world (Z.to_nat (i - 1))
              (Sample.address (getItemPDA Sample.rt Sample.programId (JS.Number i)))
            = ok (Some data) /\
            decode_item Sample.rt data = ok fields /\
            item = present (fun s => s) (fun _ => "1"%string)
                     (fun _ => throw (External "offline")) (JS.Number i) fields /\
            ShopItem.id item = id fields /\
            ShopItem.price item = price fields /\
            ShopItem.metadataUri item = metadataUri fields)
  /\ run (fetchItems Sample.rt Sample.fresh_world
            "a-program-identifier-of-more-than-32-bytes" (fun s => s)
            (fun _ => "1"%string) (fun _ _ => throw (External "offline"))
            {| shopItems := []; isLoading := true; error := None |})
     = (ok {| shopItems := []; isLoading := false;
              error := Some "Failed to load shop items. Please try again later."%string |},
        []).
Proof.
  split.
  - apply (proj2 (proj2 (fetchItems_lists_ten Sample.rt Sample.fresh_world
                           Sample.SHOP_PROGRAM_ID (fun s => s) (fun _ => "1"%string)
                           (fun _ _ => throw (External "offline"))
                           {| shopItems := []; isLoading := true; error := None |}))
             Sample.programId
             (fun i => Sample.address (getItemPDA Sample.rt Sample.programId (JS.Number i)))).
    + vm_compute. reflexivity.
    + intros i Hi.
      assert (Hcases : i = 1 \/ i = 2 \/ i = 3 \/ i = 4 \/ i = 5 \/ i = 6 \/ i = 7 \/ i = 8
                       \/ i = 9 \/ i = 10) by lia.
      repeat (destruct Hcases as [-> | Hcases]; [vm_compute; reflexivity | ]).
      subst i. vm_compute. reflexivity.
  - apply (proj1 (proj2 (fetchItems_lists_ten Sample.rt Sample.fresh_world
                           "a-program-identifier-of-more-than-32-bytes" (fun s => s)
                           (fun _ => "1"%string) (fun _ _ => throw (External "offline"))
                           {| shopItems := []; isLoading := true; error := None |}))
             InvalidPublicKey).
    vm_compute. reflexivity.
Defined.

Section ReadOnly.

Variable rt : Runtime.
Variable env : Env.
Variable P : event -> Prop.
Hypothesis P_account : forall k, P (GetAccountInfo k).
Hypothesis P_genesis : forall endpoint, P (GetGenesisHash endpoint).
Hypothesis P_history : forall l, P (SetPurchaseHistory l).
Hypothesis P_correct : forall b, P (SetIsCorrectNetwork b).
Hypothesis P_detected : forall d, P (SetDetectedNetwork d).
Hypothesis P_toast : forall d e, P (ToastWrongNetwork d e).

Ltac allowed :=
  first [ apply P_account | apply P_genesis | apply P_history | apply P_correct
        | apply P_detected | apply P_toast ].

Lemma probe_networks_emits (p : NetworkProvider) (entries : list (string * NetworkConfig))
  (genesisHash : string) (detected : DetectedNetwork) :
  emits P (probe_networks env p entries genesisHash detected).
Proof.
  induction entries as [ | [net config] entries IH]; cbn [probe_networks].
  - apply emits_ret.
  - apply emits_bind; [apply emits_attempt, emits_call, P_genesis | ].
    intros [e | hash]; [exact IH | ].
    destruct (String.eqb genesisHash hash); [apply emits_ret | exact IH].
Qed.

Lemma checkNetwork_emits (connection : string) : emits P (checkNetwork env connection).
Proof.
  unfold checkNetwork.
  apply emits_try_catch; [ | intros e; apply emits_ret].
  apply emits_bind; [apply emits_call, P_genesis | intros genesisHash].
  apply emits_bind; [apply emits_call, P_genesis | intros expectedGenesisHash].
  apply emits_bind; [apply emits_emit, P_correct | intros _].
  destruct (negb (String.eqb genesisHash expectedGenesisHash)); [ | apply emits_ret].
  apply emits_bind; [apply probe_networks_emits | intros detected].
  apply emits_bind.
  - destruct (provider detected); first [apply emits_ret | apply probe_networks_emits].
  - intros detected'. emits_with allowed.
Qed.

Lemma fetchItemDetails_emits (programId : PublicKey) (id : JS.number) :
  emits P (fetchItemDetails rt env programId id).
Proof. unfold fetchItemDetails. emits_with allowed. Qed.

Lemma fetchShopItem_emits (toLowerCase : string -> string)
  (Number_toString : JS.number -> string) (fetch : nat -> string -> result Response)
  (programId : PublicKey) (id : JS.number) :
  emits P (fetchShopItem rt env toLowerCase Number_toString fetch programId id).
Proof. unfold fetchShopItem. emits_with allowed. Qed.

Lemma fetch_loop_emits (toLowerCase : string -> string)
  (Number_toString : JS.number -> string) (fetch : nat -> string -> result Response)
  (programPubkey : PublicKey) (ids : list Z) (items : list ShopItem.t) :
  emits P (fetch_loop rt env toLowerCase Number_toString fetch programPubkey ids items).
Proof.
  revert items. induction ids as [ | i rest IH]; intros items; cbn [fetch_loop].
  - apply emits_ret.
  - apply emits_bind; [apply emits_attempt, fetchShopItem_emits | ].
    intros [e | [item | ]]; apply IH.
Qed.

Lemma fetchItems_emits (SHOP_PROGRAM_ID : string) (toLowerCase : string -> string)
  (Number_toString : JS.number -> string) (fetch : nat -> string -> result Response)
  (s : ListingState) :
  emits P (fetchItems rt env SHOP_PROGRAM_ID toLowerCase Number_toString fetch s).
Proof.
  unfold fetchItems.
  apply emits_bind; [ | intros s'; apply emits_ret].
  apply emits_try_catch; [ | intros e; apply emits_ret].
  apply emits_bind; [apply emits_lift | intros programPubkey].
  apply emits_bind; [apply fetch_loop_emits | intros items; apply emits_ret].
Qed.

Lemma checkPurchaseHistoryForWallet_emits (programId walletKey : PublicKey) :
  emits P (checkPurchaseHistoryForWallet rt env programId walletKey).
Proof. unfold checkPurchaseHistoryForWallet. emits_with allowed. Qed.

End ReadOnly.

(** X20: viewing never signs and never submits.  Loading the shop
    ([fetchItemDetails], [fetchItems]), refreshing the purchase history
    ([checkPurchaseHistory]) and verifying the network ([checkNetwork])
    never ask the wallet for a signature and never submit a transaction,
    whatever the world answers. *)
Theorem viewing_never_submits :
  forall (rt : Runtime) (env : Env) (wallet : Wallet) (SHOP_PROGRAM_ID connection : string)
         (toLowerCase : string -> string) (Number_toString : JS.number -> string)
         (fetch : nat -> string -> result Response) (s : ListingState)
         (programId : PublicKey) (id : JS.number),
    Forall (fun e => submits e = false) (actions (fetchItemDetails rt env programId id))
    /\ Forall (fun e => submits e = false)
         (actions (fetchItems rt env SHOP_PROGRAM_ID toLowerCase Number_toString fetch s))
    /\ Forall (fun e => submits e = false)
         (actions (checkPurchaseHistory rt env wallet SHOP_PROGRAM_ID))
    /\ Forall (fun e => submits e = false) (actions (checkNetwork env connection)).
Proof.
  intros rt env wallet pid connection toLowerCase Number_toString fetch s programId id.
  repeat split; apply emits_actions.
  - apply fetchItemDetails_emits. intros k. reflexivity.
  - apply fetchItems_emits. intros k. reflexivity.
  - apply checkPurchaseHistory_emits; intros x; reflexivity.
  - apply checkNetwork_emits; intros; reflexivity.
Qed.

Section ItemIdFacts.

Variable rt : Runtime.

(** An identifier that is not an integer of the u64 range has no item
    address. *)
Lemma getItemPDA_out_of_range (programId : PublicKey) (id : JS.number) :
  (forall z, JS.BigInt id = ok z -> z < 0 \/ 2 ^ 64 <= z) ->
  getItemPDA rt programId id = throw RangeError.
Proof.
  intros H. unfold getItemPDA.
  destruct (JS.BigInt id) as [e | z] eqn:Hz.
  - unfold JS.BigInt in Hz. destruct id as [s | s | | s m ex]; try discriminate Hz;
      try (injection Hz as <-; reflexivity).
    destruct (0 <=? ex); [discriminate Hz | ].
    destruct (Zpos m mod 2 ^ (- ex) =? 0); [discriminate Hz | ].
    injection Hz as <-. reflexivity.
  - cbn [rbind ok]. unfold Buf.writeBigUInt64LE.
    replace ((0 <=? z) && (z <? 2 ^ 64)) with false; [reflexivity | ].
    symmetry. apply andb_false_iff.
    destruct (H z eq_refl); [left; apply Z.leb_gt | right; apply Z.ltb_ge]; lia.
Qed.

End ItemIdFacts.

(** X21: an item identifier must be an integer of the u64 range.  For an
    identifier that is not an integer, is negative or is 2^64 or more, no
    item address can be derived ([RangeError]), and every workflow stops
    before its first request: [purchaseItem] returns [false], [addItem]
    throws, and [handlePurchase] shows the "Purchase failed" toast, all
    without asking the node for anything. *)
Theorem item_id_must_be_u64 :
  forall (rt : Runtime) (env : Env) (wallet : Wallet) (SHOP_PROGRAM_ID : string)
         (programId adminPublicKey walletPublicKey : PublicKey) (id : JS.number),
    (forall z, JS.BigInt id = ok z -> z < 0 \/ 2 ^ 64 <= z) ->
    (forall programPubkey, getItemPDA rt programPubkey id = throw RangeError)
    /\ run (purchaseItem rt env programId adminPublicKey walletPublicKey id) = (ok false, [])
    /\ (forall price metadataUri,
          exists e,
            run (addItem rt env programId walletPublicKey id price metadataUri)
            = (throw e, []))
    /\ (forall buyer,
          connected wallet = true ->
          publicKey wallet = Some buyer ->
          exists e,
            actions (handlePurchase rt env wallet SHOP_PROGRAM_ID id)
            = [ SetIsPurchasing (Some id); ToastError "Purchase failed" (Some e);
                SetIsPurchasing None ]).
Proof.
  intros rt env wallet pid programId adminPublicKey walletPublicKey id Hid.
  assert (Hpda : forall programPubkey, getItemPDA rt programPubkey id = throw RangeError)
    by (intros programPubkey; apply getItemPDA_out_of_range; exact Hid).
  split; [exact Hpda | ]. split; [ | split].
  - unfold purchaseItem, run. unfold_monad.
    destruct (getShopPDA rt programId); [reflexivity | ]. simp_goal.
    rewrite Hpda. reflexivity.
  - intros price metadataUri. unfold addItem, run. unfold_monad.
    destruct (getShopPDA rt programId); [eexists; reflexivity | ]. simp_goal.
    rewrite Hpda. eexists. reflexivity.
  - intros buyer Hc Hk. unfold handlePurchase, actions, run. rewrite Hc, Hk.
    unfold handlePurchase_body. unfold_monad. simp_goal.
    destruct (PublicKey_of_base58 rt pid) as [e | programPubkey];
      [eexists; reflexivity | simp_goal].
    destruct (getShopPDA rt programPubkey) as [e | shopPDA];
      [eexists; reflexivity | simp_goal].
    rewrite Hpda. eexists. reflexivity.
Qed.

(** The identifiers -1 and 1.5. *)
Lemma item_id_must_be_u64_witness :
  run (purchaseItem Sample.rt Sample.fresh_world Sample.programId Sample.admin Sample.buyer
         (JS.Number (-1)))
  = (ok false, [])
  /\ getItemPDA Sample.rt Sample.programId (S754_finite false 3 (-1)) = throw RangeError
  /\ exists e,
      actions (handlePurchase Sample.rt Sample.fresh_world Sample.wallet
                 Sample.SHOP_PROGRAM_ID (S754_finite false 3 (-1)))
      = [ SetIsPurchasing (Some (S754_finite false 3 (-1)));
          ToastError "Purchase failed" (Some e); SetIsPurchasing None ].
Proof.
  assert (Hneg : forall z, JS.BigInt (JS.Number (-1)) = ok z -> z < 0 \/ 2 ^ 64 <= z).
  { intros z Hz. vm_compute in Hz. injection Hz as <-. left. lia. }
  assert (Hfrac : forall z, JS.BigInt (S754_finite false 3 (-1)) = ok z ->
                            z < 0 \/ 2 ^ 64 <= z).
  { intros z Hz. vm_compute in Hz. discriminate Hz. }
  split; [ | split].
  - exact (proj1 (proj2 (item_id_must_be_u64 Sample.rt Sample.fresh_world Sample.wallet
                           Sample.SHOP_PROGRAM_ID Sample.programId Sample.admin Sample.buyer
                           (JS.Number (-1)) Hneg))).
  - exact (proj1 (item_id_must_be_u64 Sample.rt Sample.fresh_world Sample.wallet
                    Sample.SHOP_PROGRAM_ID Sample.programId Sample.admin Sample.buyer
                    (S754_finite false 3 (-1)) Hfrac) Sample.programId).
  - exact (proj2 (proj2 (proj2
             (item_id_must_be_u64 Sample.rt Sample.fresh_world Sample.wallet
                Sample.SHOP_PROGRAM_ID Sample.programId Sample.admin Sample.buyer
                (S754_finite false 3 (-1)) Hfrac))) Sample.buyer eq_refl eq_refl).
Defined.

(** X22: what refreshing the purchase history does.  [checkPurchaseHistory]
    never throws.  Without a connected wallet it does nothing.  With one,
    it looks the history account up once: if there is none it sets the
    purchase list to the empty list; if the node fails it leaves the list as
    it was. *)
Theorem checkPurchaseHistory_outcomes :
  forall (rt : Runtime) (env : Env) (wallet : Wallet) (SHOP_PROGRAM_ID : string),
    fst (run (checkPurchaseHistory rt env wallet SHOP_PROGRAM_ID)) = ok tt
    /\ (connected wallet = false \/ publicKey wallet = None ->
        actions (checkPurchaseHistory rt env wallet SHOP_PROGRAM_ID) = [])
    /\ (forall buyer programPubkey historyPDA,
          connected wallet = true ->
          publicKey wallet = Some buyer ->
          PublicKey_of_base58 rt SHOP_PROGRAM_ID = ok programPubkey ->
          getHistoryPDA rt programPubkey buyer = ok historyPDA ->
          (getAccountInfo env 0 historyPDA = ok None ->
           actions (checkPurchaseHistory rt env wallet SHOP_PROGRAM_ID)
           = [GetAccountInfo historyPDA; SetPurchaseHistory []])
          /\
          (forall e,
              getAccountInfo env 0 historyPDA = throw e ->
              actions (checkPurchaseHistory rt env wallet SHOP_PROGRAM_ID)
              = [GetAccountInfo historyPDA])).
Proof.
  intros rt env wallet pid. split; [ | split].
  - destruct (checkPurchaseHistory_shape rt env wallet pid []) as (l & Hl & _).
    unfold run. rewrite Hl. reflexivity.
  - intros [Hc | Hk]; unfold checkPurchaseHistory, actions, run.
    + rewrite Hc. reflexivity.
    + rewrite Hk. destruct (connected wallet); reflexivity.
  - intros buyer programPubkey historyPDA Hc Hk Hp Hh. split.
    + intros Hacc. unfold checkPurchaseHistory, actions, run. rewrite Hc, Hk.
      unfold_monad. simp_goal. step_goal Hp. step_goal Hh. step_goal Hacc. reflexivity.
    + intros e Hacc. unfold checkPurchaseHistory, actions, run. rewrite Hc, Hk.
      unfold_monad. simp_goal. step_goal Hp. step_goal Hh. step_goal Hacc. reflexivity.
Qed.

(** A first-time buyer, a node that is down, and a page without wallet. *)
Lemma checkPurchaseHistory_outcomes_witness :
  actions (checkPurchaseHistory Sample.rt Sample.fresh_world Sample.wallet
             Sample.SHOP_PROGRAM_ID)
  = [GetAccountInfo Sample.historyPDA; SetPurchaseHistory []]
  /\ actions (checkPurchaseHistory Sample.rt Sample.unreachable_world Sample.wallet
                Sample.SHOP_PROGRAM_ID)
     = [GetAccountInfo Sample.historyPDA]
  /\ actions (checkPurchaseHistory Sample.rt Sample.fresh_world Sample.no_wallet
                Sample.SHOP_PROGRAM_ID)
     = [].
Proof.
  split; [ | split].
  - apply (proj1 (proj2 (proj2 (checkPurchaseHistory_outcomes Sample.rt Sample.fresh_world
                                  Sample.wallet Sample.SHOP_PROGRAM_ID))
                    Sample.buyer Sample.programId Sample.historyPDA eq_refl eq_refl
                    ltac:(vm_compute; reflexivity) ltac:(vm_compute; reflexivity))).
    vm_compute. reflexivity.
  - apply (proj2 (proj2 (proj2 (checkPurchaseHistory_outcomes Sample.rt
                                  Sample.unreachable_world Sample.wallet
                                  Sample.SHOP_PROGRAM_ID))
                    Sample.buyer Sample.programId Sample.historyPDA eq_refl eq_refl
                    ltac:(vm_compute; reflexivity) ltac:(vm_compute; reflexivity))
             (External "fetch failed")).
    reflexivity.
  - apply (proj1 (proj2 (checkPurchaseHistory_outcomes Sample.rt Sample.fresh_world
                           Sample.no_wallet Sample.SHOP_PROGRAM_ID))).
    left. reflexivity.
Defined.

(** X23: success is announced only for a confirmed transaction.  The
    "Purchase successful" toast of [handlePurchase] is shown for the item
    that was asked for, and only after the wallet signed the transaction,
    the node accepted it and its confirmation arrived (the seventh, eighth
    and ninth actions of the run); the link to the transaction that is shown
    afterwards carries the signature the node returned. *)
Theorem success_means_confirmed :
  forall (rt : Runtime) (env : Env) (wallet : Wallet) (SHOP_PROGRAM_ID : string)
         (itemId item : JS.number),
    In (ToastSuccess item) (actions (handlePurchase rt env wallet SHOP_PROGRAM_ID itemId)) ->
    item = itemId
    /\ exists tx signed signature,
        In (SignTransaction tx) (actions (handlePurchase rt env wallet SHOP_PROGRAM_ID itemId))
        /\ signTransaction env 6 tx = ok signed
        /\ sendRawTransaction env 7 signed = ok signature
        /\ confirmTransaction env 8 signature = ok tt
        /\ In (ToastInfo signature)
              (actions (handlePurchase rt env wallet SHOP_PROGRAM_ID itemId)).
Proof.
  intros rt env wallet pid itemId item.
  unfold handlePurchase, actions, run.
  destruct (connected wallet) eqn:Hc; [ | intros H; absent H].
  destruct (publicKey wallet) as [buyer | ] eqn:Hk; [ | intros H; absent H].
  unfold handlePurchase_body. unfold_monad.
  intros H. simp H. simp_goal.
  destruct (PublicKey_of_base58 rt pid) as [e | programPubkey]; [absent H | simp H; simp_goal].
  destruct (getShopPDA rt programPubkey) as [e | shopPDA]; [absent H | simp H; simp_goal].
  destruct (getItemPDA rt programPubkey itemId) as [e | itemPDA];
    [absent H | simp H; simp_goal].
  destruct (getHistoryPDA rt programPubkey buyer) as [e | historyPDA];
    [absent H | simp H; simp_goal].
  destruct (getAccountInfo env 1 shopPDA) as [e | [shopData | ]];
    [absent H | simp H; simp_goal | absent H].
  destruct (new_PublicKey (Buf.slice shopData 8 40)) as [e | adminPubkey];
    [absent H | simp H; simp_goal].
  destruct (getAccountInfo env 2 itemPDA) as [e | [itemData | ]];
    [absent H | simp H; simp_goal | absent H].
  destruct (Buf.readBigUInt64LE itemData 16) as [e | rawPrice]; [absent H | simp H; simp_goal].
  destruct (getBalance env 3 buyer) as [e | buyerBalance]; [absent H | simp H; simp_goal].
  destruct (JS.lt buyerBalance (JS.Number rawPrice)); [absent H | simp H; simp_goal].
  destruct (getAccountInfo env 4 historyPDA) as [e | account]; [absent H | simp H; simp_goal].
  destruct (getLatestBlockhash env 5) as [e | blockhash]; [absent H | simp H; simp_goal].
  destruct (has_signTransaction wallet); [simp H; simp_goal | absent H].
  match type of H with
  | context [signTransaction env 6 ?tx] => set (transaction := tx) in *
  end.
  destruct (signTransaction env 6 transaction) as [e | signed] eqn:Hsign;
    [absent H | simp H; simp_goal].
  destruct (sendRawTransaction env 7 signed) as [e | signature] eqn:Hsend;
    [absent H | simp H; simp_goal].
  destruct (confirmTransaction env 8 signature) as [e | []] eqn:Hconfirm;
    [absent H | simp H; simp_goal].
  match goal with
  | |- context [checkPurchaseHistory ?a ?b ?c ?d ?t] =>
      destruct (checkPurchaseHistory_quiet a b c d t) as (l & Hl & Fl); rewrite Hl in *
  end.
  simp H. simp_goal. cbn [In] in H. split.
  - repeat (destruct H as [H | H]; [first [discriminate H | injection H as <-; reflexivity] | ]).
    rewrite !in_app_iff in H. cbn [In] in H.
    destruct H as [[H | H] | H].
    + rewrite Forall_forall in Fl. pose proof (Fl _ H) as Hq.
      destruct (checkPurchaseHistory_emits rt env wallet pid
                  (fun e => forall i, e <> ToastSuccess i)
                  ltac:(intros; discriminate) ltac:(intros; discriminate)
                  [ SetIsPurchasing (Some itemId); GetAccountInfo shopPDA;
                    GetAccountInfo itemPDA; GetBalance buyer; GetAccountInfo historyPDA;
                    GetLatestBlockhash; SignTransaction transaction;
                    SendRawTransaction signed; ConfirmTransaction signature;
                    ToastSuccess itemId ])
        as (l' & Hl' & Fl').
      rewrite Hl in Hl'. cbn [snd] in Hl'. apply app_inv_head in Hl'. subst l'.
      rewrite Forall_forall in Fl'. exfalso. exact (Fl' _ H item eq_refl).
    + repeat (destruct H as [H | H]; [discriminate H | ]). contradiction.
    + repeat (destruct H as [H | H]; [discriminate H | ]). contradiction.
  - exists transaction, signed, signature.
    split; [cbn [In]; do 6 right; left; reflexivity | ].
    repeat (split; [assumption | ]).
    cbn [In]. do 10 right. rewrite !in_app_iff. left. right. left. reflexivity.
Qed.

(** The purchase of the end-to-end scenario. *)
Lemma success_means_confirmed_witness :
  In (ToastSuccess (JS.Number 1))
     (actions (handlePurchase Sample.rt Sample.fresh_world Sample.wallet
                 Sample.SHOP_PROGRAM_ID (JS.Number 1)))
  /\ (JS.Number 1 = JS.Number 1
      /\ exists tx signed signature,
          In (SignTransaction tx)
             (actions (handlePurchase Sample.rt Sample.fresh_world Sample.wallet
                         Sample.SHOP_PROGRAM_ID (JS.Number 1)))
          /\ signTransaction Sample.fresh_world 6 tx = ok signed
          /\ sendRawTransaction Sample.fresh_world 7 signed = ok signature
          /\ confirmTransaction Sample.fresh_world 8 signature = ok tt
          /\ In (ToastInfo signature)
                (actions (handlePurchase Sample.rt Sample.fresh_world Sample.wallet
                            Sample.SHOP_PROGRAM_ID (JS.Number 1)))).
Proof.
  assert (H : In (ToastSuccess (JS.Number 1))
                 (actions (handlePurchase Sample.rt Sample.fresh_world Sample.wallet
                             Sample.SHOP_PROGRAM_ID (JS.Number 1)))).
  { vm_compute. do 9 right. left. reflexivity. }
  split; [exact H | ].
  exact (success_means_confirmed Sample.rt Sample.fresh_world Sample.wallet
           Sample.SHOP_PROGRAM_ID (JS.Number 1) (JS.Number 1) H).
Defined.

(** X24: the purchase script submits only after its checks.  A
    transaction is submitted by [purchaseItem] only when the item account
    was found, the history lookup was answered, the Anchor coder decoded the
    item and the balance was not below its price as numbers; the submission
    is the fourth action, after exactly those three reads, and it is the
    only submission of the run. *)
Theorem purchaseItem_submits_after_checks :
  forall (rt : Runtime) (env : Env) (programId adminPublicKey walletPublicKey : PublicKey)
         (itemId : JS.number) (tx : Transaction),
    In (SendAndConfirmTransaction tx)
       (actions (purchaseItem rt env programId adminPublicKey walletPublicKey itemId)) ->
    exists itemPDA historyPDA itemData account item_id item_price item_uri buyerBalance rest,
      getItemPDA rt programId itemId = ok itemPDA /\
      getHistoryPDA rt programId walletPublicKey = ok historyPDA /\
      getAccountInfo env 0 itemPDA = ok (Some itemData) /\
      getAccountInfo env 1 historyPDA = ok account /\
      coder_decode_Item rt itemData = ok (item_id, item_price, item_uri) /\
      getBalance env 2 walletPublicKey = ok buyerBalance /\
      JS.lt buyerBalance (JS.Number item_price) = false /\
      actions (purchaseItem rt env programId adminPublicKey walletPublicKey itemId)
      = [ GetAccountInfo itemPDA; GetAccountInfo historyPDA; GetBalance walletPublicKey;
          SendAndConfirmTransaction tx ] ++ rest /\
      Forall (fun e => submits e = false) rest.
Proof.
  intros rt env programId adminPublicKey walletPublicKey itemId tx.
  unfold purchaseItem, actions, run. unfold_monad.
  intros H. simp H. simp_goal.
  destruct (getShopPDA rt programId) as [e | shopPDA]; [absent H | simp H; simp_goal].
  destruct (getItemPDA rt programId itemId) as [e | itemPDA]; [absent H | simp H; simp_goal].
  destruct (getHistoryPDA rt programId walletPublicKey) as [e | historyPDA];
    [absent H | simp H; simp_goal].
  destruct (getAccountInfo env 0 itemPDA) as [e | [itemData | ]] eqn:Ha0;
    [absent H | simp H; simp_goal | absent H].
  destruct (getAccountInfo env 1 historyPDA) as [e | account] eqn:Ha1;
    [absent H | simp H; simp_goal].
  destruct (coder_decode_Item rt itemData) as [e | [[item_id item_price] item_uri]] eqn:Hd;
    [absent H | simp H; simp_goal].
  destruct (getBalance env 2 walletPublicKey) as [e | buyerBalance] eqn:Hbal;
    [absent H | simp H; simp_goal].
  destruct (JS.lt buyerBalance (JS.Number item_price)) eqn:Hlt; [absent H | simp H; simp_goal].
  exists itemPDA, historyPDA, itemData, account, item_id, item_price, item_uri, buyerBalance.
  match type of H with
  | context [sendAndConfirmTransaction env 3 ?t] => set (transaction := t) in *
  end.
  destruct (sendAndConfirmTransaction env 3 transaction) as [e | signature].
  { simp H. simp_goal. cbn [In] in H.
    repeat (destruct H as [H | H]; [first [discriminate H | injection H as <-] | ]);
      [ | contradiction].
    exists []. repeat (split; [reflexivity || assumption | ]). constructor. }
  simp H. simp_goal.
  destruct (checkPurchaseHistoryForWallet_emits rt env (fun e => submits e = false)
              (fun _ => eq_refl) programId walletPublicKey
              [ GetAccountInfo itemPDA; GetAccountInfo historyPDA; GetBalance walletPublicKey;
                SendAndConfirmTransaction transaction ]) as (l & Hl & Fl).
  destruct (checkPurchaseHistoryForWallet_shape rt env programId walletPublicKey
              [ GetAccountInfo itemPDA; GetAccountInfo historyPDA; GetBalance walletPublicKey;
                SendAndConfirmTransaction transaction ]) as (l' & Hl' & _).
  rewrite Hl' in Hl. cbn [snd] in Hl. apply app_inv_head in Hl. subst l'.
  rewrite Hl' in *. simp H. simp_goal. cbn [In] in H.
  assert (Htx : tx = transaction).
  { repeat (destruct H as [H | H]; [first [discriminate H | injection H as <-; reflexivity] | ]).
    rewrite Forall_forall in Fl. apply Fl in H. discriminate H. }
  subst tx. exists l. repeat (split; [reflexivity || assumption | ]). exact Fl.
Qed.

(** The script run of a returning buyer. *)
Lemma purchaseItem_submits_after_checks_witness :
  In (SendAndConfirmTransaction (Sample.script_tx true))
     (actions (purchaseItem Sample.rt Sample.returning_world Sample.programId
                 Sample.admin Sample.buyer (JS.Number 1)))
  /\ exists itemPDA historyPDA itemData account item_id item_price item_uri buyerBalance rest,
      getItemPDA Sample.rt Sample.programId (JS.Number 1) = ok itemPDA /\
      getHistoryPDA Sample.rt Sample.programId Sample.buyer = ok historyPDA /\
      getAccountInfo Sample.returning_world 0 itemPDA = ok (Some itemData) /\
      getAccountInfo Sample.returning_world 1 historyPDA = ok account /\
      coder_decode_Item Sample.rt itemData = ok (item_id, item_price, item_uri) /\
      getBalance Sample.returning_world 2 Sample.buyer = ok buyerBalance /\
      JS.lt buyerBalance (JS.Number item_price) = false /\
      actions (purchaseItem Sample.rt Sample.returning_world Sample.programId
                 Sample.admin Sample.buyer (JS.Number 1))
      = [ GetAccountInfo itemPDA; GetAccountInfo historyPDA; GetBalance Sample.buyer;
          SendAndConfirmTransaction (Sample.script_tx true) ] ++ rest /\
      Forall (fun e => submits e = false) rest.
Proof.
  assert (H : In (SendAndConfirmTransaction (Sample.script_tx true))
                 (actions (purchaseItem Sample.rt Sample.returning_world Sample.programId
                             Sample.admin Sample.buyer (JS.Number 1)))).
  { vm_compute. do 3 right. left. reflexivity. }
  split; [exact H | ].
  exact (purchaseItem_submits_after_checks Sample.rt Sample.returning_world Sample.programId
           Sample.admin Sample.buyer (JS.Number 1) (Sample.script_tx true) H).
Defined.
